(** * ai-insure-agent: conversation memory, lead scoring and premium pipeline

    A shallow embedding of the core of [backend/src/services/AIService.ts]
    and [backend/src/services/LeadService.ts].

    Conventions of the embedding:
    - a JavaScript [number] is an exact rational ([Q]); the constants the
      code compares against (8.5, 8.0, 6.5, 3.5, ...) are dyadic, so they
      are the same numbers in binary floating point;
    - a JavaScript string is a [string] of bytes (UTF-8); case folding and
      the character classes of the regular expressions are the ASCII ones,
      which is all that the ASCII patterns of the source can observe;
    - the per-user [Map]s of the services are [gmap string _], and a method
      that mutates its service takes the store and returns the new one;
    - [new Date()] is a clock reading [now : Z] handed to the method;
    - a parameter object ([params: any]) is split by the type of its
      fields: numbers, strings and string arrays, each a [gmap] keyed by
      the field name. *)

From Stdlib Require Import ZArith QArith Qround Qminmax Qabs Lqa String Ascii List Lia Sorted.
From stdpp Require Import gmap strings list pretty.
Import ListNotations.

Local Open Scope string_scope.
Local Open Scope list_scope.

(** ** JavaScript primitives used by the services *)

Module Js.

(** [Math.round]: the nearest integer, ties towards +infinity. *)
Definition Math_round (x : Q) : Z := Qfloor (x + (1 # 2)).

Definition Math_min (a b : Q) : Q := Qmin a b.
Definition Math_max (a b : Q) : Q := Qmax a b.
Definition Math_abs (x : Q) : Q := Qabs x.

Definition ltb (a b : Q) : bool := negb (Qle_bool b a).
Definition gtb (a b : Q) : bool := ltb b a.
Definition geb (a b : Q) : bool := Qle_bool b a.
Definition leb (a b : Q) : bool := Qle_bool a b.
Definition neqb (a b : Q) : bool := negb (Qeq_bool a b).

(** Truthiness: [0] and the empty string are falsy, [undefined] is [None]. *)
Definition truthyNum (o : option Q) : bool :=
  match o with Some n => negb (Qeq_bool n 0) | None => false end.

Definition truthyStr (o : option string) : bool :=
  match o with Some (String _ _) => true | _ => false end.

(** [a || b] *)
Definition orNum (a b : option Q) : option Q := if truthyNum a then a else b.
Definition orStr (a b : option string) : option string := if truthyStr a then a else b.

(** [a || literal] *)
Definition numOr (a : option Q) (d : Q) : Q :=
  match a with Some n => if Qeq_bool n 0 then d else n | None => d end.
Definition strOr (a : option string) (d : string) : string :=
  match a with Some (String c s) => String c s | _ => d end.

(** [String.prototype.toLowerCase] on ASCII letters. *)
Definition lowerAscii (c : ascii) : ascii :=
  let n := nat_of_ascii c in
  if ((65 <=? n) && (n <=? 90))%nat then ascii_of_nat (n + 32) else c.

Fixpoint toLowerCase (s : string) : string :=
  match s with
  | EmptyString => EmptyString
  | String c rest => String (lowerAscii c) (toLowerCase rest)
  end.

(** [s.includes(sub)] *)
Fixpoint includes (s sub : string) : bool :=
  if String.prefix sub s then true
  else match s with
       | EmptyString => false
       | String _ rest => includes rest sub
       end.

(** [list.some(k => s.includes(k))] *)
Definition includesAny (s : string) (keys : list string) : bool :=
  existsb (includes s) keys.

(** [parts.join(sep)] *)
Fixpoint join (sep : string) (parts : list string) : string :=
  match parts with
  | [] => ""
  | [p] => p
  | p :: rest => p +:+ sep +:+ join sep rest
  end.

(** [x.toFixed(digits)]: with [n] the integer for which [n / 10^digits] is
    nearest to [x] (the larger one on a tie), the digits of [n], padded
    with zeros and split by a point when [digits] is not 0; a negative [x]
    is the negation of [(-x).toFixed(digits)]. *)
Definition padZeros (width : nat) (s : string) : string :=
  String.concat "" (repeat "0" (width - String.length s)) +:+ s.

Definition toFixed (digits : nat) (x : Q) : string :=
  let n := Qfloor (Qabs x * inject_Z (10 ^ Z.of_nat digits) + (1 # 2))%Q in
  (if Qle_bool 0 x then "" else "-") +:+
  (match digits with
   | O => pretty n
   | S _ =>
       let body := padZeros (S digits) (pretty n) in
       String.substring 0 (String.length body - digits) body +:+ "."
       +:+ String.substring (String.length body - digits) digits body
   end).

(** [parseInt] of the text captured by a digit group; commas are removed
    by the caller where the source does so. *)
Definition digitValue (c : ascii) : option Z :=
  let n := nat_of_ascii c in
  if ((48 <=? n) && (n <=? 57))%nat then Some (Z.of_nat (n - 48)) else None.

Fixpoint parseDigits (acc : Z) (s : list ascii) : Z :=
  match s with
  | [] => acc
  | c :: rest =>
      match digitValue c with
      | Some d => parseDigits (acc * 10 + d) rest
      | None => acc
      end
  end.

(** [None] is [NaN]: the text does not start with a digit. *)
Definition parseInt (s : list ascii) : option Z :=
  match s with
  | c :: _ => match digitValue c with
              | Some _ => Some (parseDigits 0 s)
              | None => None
              end
  | [] => None
  end.

(** [array.sort(compare)] for a consistent comparator. The sort is
    stable: [x] stays ahead of a later [y] when [compare(x, y) <= 0]. *)
Fixpoint insertBy {A} (compare : A -> A -> Q) (x : A) (sorted : list A) : list A :=
  match sorted with
  | [] => [x]
  | y :: more =>
      if Qle_bool (compare x y) 0 then x :: y :: more else y :: insertBy compare x more
  end.

Definition sort {A} (compare : A -> A -> Q) (items : list A) : list A :=
  foldr (insertBy compare) [] items.

(** [s.startsWith(prefix)] and [s.substring(1)] *)
Definition startsWith (s prefix : string) : bool := String.prefix prefix s.

Definition dropFirst (s : string) : string :=
  match s with
  | EmptyString => EmptyString
  | String _ tail => tail
  end.

End Js.

(** ** Regular expressions

    The fragment of JavaScript regular expressions the extractors use,
    with the backtracking semantics of the language: [run] lists the
    states a pattern can end in, in the order the matcher tries them, so
    the head of the list is the match JavaScript reports. Every pattern of
    the source has exactly one capturing group. Where a pattern is quoted in
    a comment, a blank separates a star from a closing parenthesis. *)

Module Regex.

Inductive regex :=
| Lit (s : string)                    (* literal text *)
| Cls (p : ascii -> bool)             (* one character of a class *)
| Seq (a b : regex)
| Alt (a b : regex)
| Star (r : regex)                    (* r*  *)
| LazyStar (r : regex)                (* r*? *)
| Plus (r : regex)                    (* r+  *)
| Opt (r : regex)                     (* r?  *)
| Rep (r : regex) (lo hi : nat)       (* r{lo,hi} *)
| Group (r : regex)                   (* ( r ) *)
| WordB.                              (* \b *)

Record state := {
  before : option ascii;              (* the character left of the position *)
  rest : list ascii;                  (* the text from the position on *)
  capture : option (list ascii)       (* group 1 *)
}.

Definition isDigit (c : ascii) : bool :=
  let n := nat_of_ascii c in ((48 <=? n) && (n <=? 57))%nat.

(** [\s] on ASCII: tab, line feed, vertical tab, form feed, carriage return, space. *)
Definition isSpace (c : ascii) : bool :=
  let n := nat_of_ascii c in (((9 <=? n) && (n <=? 13)) || (n =? 32))%nat.

(** [.]: anything but a line terminator. *)
Definition isDot (c : ascii) : bool :=
  let n := nat_of_ascii c in negb ((n =? 10) || (n =? 13))%nat.

(** [\w] *)
Definition isWord (c : ascii) : bool :=
  let n := nat_of_ascii c in
  (((48 <=? n) && (n <=? 57)) || ((65 <=? n) && (n <=? 90))
   || ((97 <=? n) && (n <=? 122)) || (n =? 95))%nat.

Definition sameChar (ignoreCase : bool) (a b : ascii) : bool :=
  if ignoreCase then Ascii.eqb (Js.lowerAscii a) (Js.lowerAscii b) else Ascii.eqb a b.

(** Consume the literal [lit] at the position. *)
Fixpoint eat (ignoreCase : bool) (lit : list ascii) (prev : option ascii) (text : list ascii)
    : option (option ascii * list ascii) :=
  match lit with
  | [] => Some (prev, text)
  | c :: lit' =>
      match text with
      | d :: text' => if sameChar ignoreCase c d then eat ignoreCase lit' (Some d) text' else None
      | [] => None
      end
  end.

Definition consumed (from to : state) : list ascii :=
  take (length (rest from) - length (rest to)) (rest from).

(** An iteration of a starred pattern that consumes nothing is rejected. *)
Definition progress (from to : state) : bool :=
  (length (rest to) <? length (rest from))%nat.

Fixpoint run (ignoreCase : bool) (r : regex) (st : state) : list state :=
  match r with
  | Lit s =>
      match eat ignoreCase (list_ascii_of_string s) (before st) (rest st) with
      | Some (b, t) => [{| before := b; rest := t; capture := capture st |}]
      | None => []
      end
  | Cls p =>
      match rest st with
      | c :: t => if p c then [{| before := Some c; rest := t; capture := capture st |}] else []
      | [] => []
      end
  | Seq a b => flat_map (run ignoreCase b) (run ignoreCase a st)
  | Alt a b => run ignoreCase a st ++ run ignoreCase b st
  | Star r' =>
      (fix star (fuel : nat) (s : state) : list state :=
         match fuel with
         | O => [s]
         | S fuel' =>
             flat_map (fun s' => if progress s s' then star fuel' s' else [])
                      (run ignoreCase r' s) ++ [s]
         end) (length (rest st)) st
  | LazyStar r' =>
      (fix star (fuel : nat) (s : state) : list state :=
         match fuel with
         | O => [s]
         | S fuel' =>
             s :: flat_map (fun s' => if progress s s' then star fuel' s' else [])
                           (run ignoreCase r' s)
         end) (length (rest st)) st
  | Plus r' =>
      flat_map
        ((fix star (fuel : nat) (s : state) : list state :=
            match fuel with
            | O => [s]
            | S fuel' =>
                flat_map (fun s' => if progress s s' then star fuel' s' else [])
                         (run ignoreCase r' s) ++ [s]
            end) (length (rest st)))
        (run ignoreCase r' st)
  | Opt r' => run ignoreCase r' st ++ [st]
  | Rep r' lo hi =>
      (fix rep (lo hi : nat) (s : state) : list state :=
         match hi with
         | O => [s]
         | S hi' =>
             flat_map (rep (pred lo) hi') (run ignoreCase r' s)
               ++ (match lo with O => [s] | S _ => [] end)
         end) lo hi st
  | Group r' =>
      map (fun s' => {| before := before s'; rest := rest s';
                        capture := Some (consumed st s') |})
          (run ignoreCase r' st)
  | WordB =>
      let left := match before st with Some c => isWord c | None => false end in
      let right := match rest st with c :: _ => isWord c | [] => false end in
      if Bool.eqb left right then [] else [st]
  end.

(** The leftmost match: start positions are tried from left to right. *)
Fixpoint search (ignoreCase : bool) (r : regex) (prev : option ascii) (text : list ascii)
    : option state :=
  match run ignoreCase r {| before := prev; rest := text; capture := None |} with
  | s :: _ => Some s
  | [] =>
      match text with
      | c :: text' => search ignoreCase r (Some c) text'
      | [] => None
      end
  end.

(** [text.match(/r/)] (or [/r/i]); the result stands for the match array,
    of which the source reads element 1. *)
Definition matchRe (ignoreCase : bool) (r : regex) (text : string) : option (list ascii) :=
  match search ignoreCase r None (list_ascii_of_string text) with
  | Some s => Some (default [] (capture s))
  | None => None
  end.

(** [/r/.test(text)] *)
Definition test (ignoreCase : bool) (r : regex) (text : string) : bool :=
  match search ignoreCase r None (list_ascii_of_string text) with
  | Some _ => true
  | None => false
  end.

Definition alts (rs : list regex) : regex :=
  match rs with
  | [] => Lit ""
  | r :: rs' => fold_left Alt rs' r
  end.

Definition seqs (rs : list regex) : regex :=
  match rs with
  | [] => Lit ""
  | r :: rs' => fold_left Seq rs' r
  end.

Definition digits (lo hi : nat) : regex := Rep (Cls isDigit) lo hi.
Definition spaces : regex := Star (Cls isSpace).
Definition anyLazy : regex := LazyStar (Cls isDot).

(** [\d{1,3}(?:,\d{3})*] *)
Definition amount : regex :=
  Seq (digits 1 3) (Star (Seq (Lit ",") (digits 3 3))).

End Regex.

(** ** Conversation memory *)

Inductive Role := user | assistant.

Record ConversationMessage := {
  role : Role;
  content : string;
  timestamp : Z
}.

Definition isAssistant (m : ConversationMessage) : bool :=
  match role m with assistant => true | user => false end.

(** [if (history.length > bound) history.splice(0, history.length - bound)] *)
Definition keepLast {A} (bound : nat) (history : list A) : list A :=
  if (bound <? length history)%nat
  then drop (length history - bound) history
  else history.

(** [history.slice(-n)] *)
Definition lastN {A} (n : nat) (history : list A) : list A :=
  drop (length history - n) history.

Module Memory.

(** [conversationHistory.get(userId) || []] *)
Definition getConversationHistory
    (store : gmap string (list ConversationMessage)) (userId : string)
    : list ConversationMessage :=
  default [] (store !! userId).

(** What [updateConversationHistory] pushes: the user turn, and the
    assistant turn when [aiResponse] is a non-empty string. *)
Definition pushedByUpdate (userMessage aiResponse : string) (now : Z)
    : list ConversationMessage :=
  {| role := user; content := userMessage; timestamp := now |} ::
  (if Js.truthyStr (Some aiResponse)
   then [{| role := assistant; content := aiResponse; timestamp := now |}]
   else []).

Definition updateConversationHistory
    (store : gmap string (list ConversationMessage))
    (userId userMessage aiResponse : string) (now : Z)
    : gmap string (list ConversationMessage) :=
  let history := getConversationHistory store userId in
  <[userId := keepLast 20 (history ++ pushedByUpdate userMessage aiResponse now)]> store.

Definition updateConversationHistoryResponse
    (store : gmap string (list ConversationMessage))
    (userId aiResponse : string) (now : Z)
    : gmap string (list ConversationMessage) :=
  let history := getConversationHistory store userId in
  <[userId := keepLast 20
      (history ++ [{| role := assistant; content := aiResponse; timestamp := now |}])]> store.

(** One mutation of the memory, as the service issues it. *)
Inductive Update :=
| UpdTurn (userId userMessage aiResponse : string) (now : Z)
| UpdResponse (userId aiResponse : string) (now : Z).

Definition apply (store : gmap string (list ConversationMessage)) (u : Update)
    : gmap string (list ConversationMessage) :=
  match u with
  | UpdTurn userId userMessage aiResponse now =>
      updateConversationHistory store userId userMessage aiResponse now
  | UpdResponse userId aiResponse now =>
      updateConversationHistoryResponse store userId aiResponse now
  end.

Definition run (updates : list Update) : gmap string (list ConversationMessage) :=
  fold_left apply updates ∅.

(** Whose history an update touches, and what it appends to it. *)
Definition target (u : Update) : string :=
  match u with
  | UpdTurn userId _ _ _ => userId
  | UpdResponse userId _ _ => userId
  end.

Definition appended (u : Update) : list ConversationMessage :=
  match u with
  | UpdTurn _ userMessage aiResponse now => pushedByUpdate userMessage aiResponse now
  | UpdResponse _ aiResponse now =>
      [{| role := assistant; content := aiResponse; timestamp := now |}]
  end.

(** Every message ever appended for [userId], oldest first. *)
Fixpoint transcript (userId : string) (updates : list Update)
    : list ConversationMessage :=
  match updates with
  | [] => []
  | u :: more =>
      (if String.eqb (target u) userId then appended u else [])
        ++ transcript userId more
  end.

(** [getConversationContext]. The field [currentState] of the service is
    initialised to ['initial_contact'] and never assigned. *)
Record ConversationContext := {
  messageCount : nat;
  lastActivity : option Z;            (* [None] is [null] *)
  conversationStage : string
}.

Definition currentState : string := "initial_contact".

Definition getConversationContext
    (store : gmap string (list ConversationMessage)) (userId : string)
    : ConversationContext :=
  let history := getConversationHistory store userId in
  {| messageCount := length history;
     lastActivity := timestamp <$> last history;
     conversationStage := currentState |}.

End Memory.

(** The simplified variant of the service (the second [AIService] class of
    the file): both turns are always pushed and ten messages are kept. *)
Module LegacyMemory.

Definition getConversationHistory
    (store : gmap string (list ConversationMessage)) (userId : string)
    : list ConversationMessage :=
  default [] (store !! userId).

Definition pushed (userMessage aiResponse : string) (now : Z)
    : list ConversationMessage :=
  [ {| role := user; content := userMessage; timestamp := now |};
    {| role := assistant; content := aiResponse; timestamp := now |} ].

Definition updateConversationHistory
    (store : gmap string (list ConversationMessage))
    (userId userMessage aiResponse : string) (now : Z)
    : gmap string (list ConversationMessage) :=
  let history := getConversationHistory store userId in
  <[userId := keepLast 10 (history ++ pushed userMessage aiResponse now)]> store.

(** A call of [updateConversationHistory]. *)
Record Update := {
  upd_userId : string;
  upd_userMessage : string;
  upd_aiResponse : string;
  upd_now : Z
}.

Definition apply (store : gmap string (list ConversationMessage)) (u : Update)
    : gmap string (list ConversationMessage) :=
  updateConversationHistory store (upd_userId u) (upd_userMessage u) (upd_aiResponse u) (upd_now u).

Definition run (updates : list Update) : gmap string (list ConversationMessage) :=
  fold_left apply updates ∅.

Fixpoint transcript (userId : string) (updates : list Update)
    : list ConversationMessage :=
  match updates with
  | [] => []
  | u :: more =>
      (if String.eqb (upd_userId u) userId
       then pushed (upd_userMessage u) (upd_aiResponse u) (upd_now u) else [])
        ++ transcript userId more
  end.

End LegacyMemory.

(** ** Parameter objects

    A [params] object of the service. The extractors below store numbers
    under [age], [vehicleValue] and [familySize], and strings under
    [location], [coverageType] and [smokingStatus]; every key is used at
    one type only. *)

Record Params := {
  nums : gmap string Q;
  strs : gmap string string;
  arrs : gmap string (list string)
}.

Definition noParams : Params := {| nums := ∅; strs := ∅; arrs := ∅ |}.

Definition setNum (k : string) (v : Q) (p : Params) : Params :=
  {| nums := <[k := v]> (nums p); strs := strs p; arrs := arrs p |}.

Definition setStr (k : string) (v : string) (p : Params) : Params :=
  {| nums := nums p; strs := <[k := v]> (strs p); arrs := arrs p |}.

Definition num (p : Params) (k : string) : option Q := nums p !! k.
Definition str (p : Params) (k : string) : option string := strs p !! k.
Definition arr (p : Params) (k : string) : option (list string) := arrs p !! k.

(** [!!params[k]] *)
Definition truthy (p : Params) (k : string) : bool :=
  Js.truthyNum (num p k) || Js.truthyStr (str p k) || bool_decide (is_Some (arr p k)).

(** [{ ...a, ...b }]: the fields of [b] win. *)
Definition spread (a b : Params) : Params :=
  {| nums := nums b ∪ nums a; strs := strs b ∪ strs a; arrs := arrs b ∪ arrs a |}.

(** [Object.keys(p).length > 0] *)
Definition hasKeys (p : Params) : bool :=
  negb (bool_decide (nums p = ∅) && bool_decide (strs p = ∅) && bool_decide (arrs p = ∅)).

(** ** Parameter extractor *)

Module Extractor.
Import Regex.

Definition ghanaLocations : list string :=
  ["accra"; "kumasi"; "tamale"; "cape coast"; "ho"; "koforidua"].

Definition currency : regex := alts [Lit "gh₵"; Lit "ghs"; Lit "cedis"].
Definition valueWord : regex := alts [Lit "value"; Lit "worth"; Lit "cost"].

(** The four [agePatterns] of [extractPremiumParameters], all with flag [i]. *)
Definition agePatterns : list regex :=
  [ (* /(?:age|years old|i am|i'm)\s*(\d{1,2})/i *)
    seqs [alts [Lit "age"; Lit "years old"; Lit "i am"; Lit "i'm"]; spaces; Group (digits 1 2)];
    (* /(\d{1,2})\s*(?:years old|y|age)/i *)
    seqs [Group (digits 1 2); spaces; alts [Lit "years old"; Lit "y"; Lit "age"]];
    (* /\bi am\s*(\d{1,2})/i *)
    seqs [WordB; Lit "i am"; spaces; Group (digits 1 2)];
    (* /\b(\d{1,2})\s*,?\s*i\s*will/i *)
    seqs [WordB; Group (digits 1 2); spaces; Opt (Lit ","); spaces; Lit "i"; spaces; Lit "will"] ].

(** The [for (const pattern of agePatterns)] loop: a pattern whose match is
    out of range is skipped and the next pattern is tried. *)
Fixpoint firstAge (patterns : list regex) (message : string) : option Z :=
  match patterns with
  | [] => None
  | pattern :: more =>
      match matchRe true pattern message with
      | Some group1 =>
          match Js.parseInt group1 with
          | Some age => if ((16 <=? age) && (age <=? 100))%Z then Some age
                        else firstAge more message
          | None => firstAge more message
          end
      | None => firstAge more message
      end
  end.

Definition valuePatterns : list regex :=
  [ (* /(?:current\s* )?(?:value|worth|cost).*?(?:is\s* )?(?:gh₵|ghs|cedis)?\s*(\d{1,3}(?:,\d{3})* )/i *)
    seqs [Opt (Seq (Lit "current") spaces); valueWord; anyLazy; Opt (Seq (Lit "is") spaces);
          Opt currency; spaces; Group amount];
    (* /(?:gh₵|ghs|cedis)\s*(\d{1,3}(?:,\d{3})* )/i *)
    seqs [currency; spaces; Group amount];
    (* /(\d{1,3}(?:,\d{3})* )\s*(?:gh₵|ghs|cedis)/i *)
    seqs [Group amount; spaces; currency];
    (* /(?:value|worth|cost).*?(\d{1,3}(?:,\d{3})* )/i *)
    seqs [valueWord; anyLazy; Group amount] ].

(** [text.replace(/,/g, '')] *)
Definition stripCommas (text : list ascii) : list ascii :=
  filter (fun c => c ≠ ","%char) text.

Fixpoint firstValue (patterns : list regex) (message : string) : option Z :=
  match patterns with
  | [] => None
  | pattern :: more =>
      match matchRe true pattern message with
      | Some group1 =>
          match Js.parseInt (stripCommas group1) with
          | Some value => if (1000 <? value)%Z then Some value else firstValue more message
          | None => firstValue more message
          end
      | None => firstValue more message
      end
  end.

(** [ghanaLocations.find(loc => text.includes(loc))], defaulting to Accra. *)
Definition findLocation (lowerText : string) : string :=
  match List.find (Js.includes lowerText) ghanaLocations with
  | Some location => location
  | None => "accra"
  end.

Definition setOpt (k : string) (v : option Z) (p : Params) : Params :=
  match v with Some n => setNum k (inject_Z n) p | None => p end.

Definition extractPremiumParameters (message : string) : Params :=
  let lowerMessage := Js.toLowerCase message in
  let params := setOpt "age" (firstAge agePatterns message) noParams in
  let params := setOpt "vehicleValue" (firstValue valuePatterns message) params in
  let params := setStr "location" (findLocation lowerMessage) params in
  let params :=
    setStr "coverageType"
      (if Js.includes lowerMessage "comprehensive" || Js.includes lowerMessage "comp"
       then "comprehensive"
       else if Js.includes lowerMessage "third party" || Js.includes lowerMessage "3rd party"
               || Js.includes lowerMessage "third-party"
       then "third_party"
       else "comprehensive") params in
  let params :=
    (* /(?:family of|family size)\s*(\d+)/i *)
    match matchRe true (seqs [alts [Lit "family of"; Lit "family size"]; spaces;
                              Group (Plus (Cls isDigit))]) message with
    | Some group1 => setOpt "familySize" (Js.parseInt group1) params
    | None => params
    end in
  if Js.includes lowerMessage "smoker"
  then setStr "smokingStatus"
         (if Js.includes lowerMessage "non" then "non_smoker" else "smoker") params
  else params.

(** [a.match(p1) || a.match(p2) || ...]: the first pattern that matches. *)
Fixpoint firstMatch (patterns : list regex) (text : string) : option (list ascii) :=
  match patterns with
  | [] => None
  | pattern :: more =>
      match matchRe true pattern text with
      | Some group1 => Some group1
      | None => firstMatch more text
      end
  end.

Definition historyValuePatterns : list regex :=
  [ (* /(?:value|worth|cost).*?(?:is\s* )?(?:gh₵|ghs|cedis)?\s*(\d{1,3}(?:,\d{3})* )/i *)
    seqs [valueWord; anyLazy; Opt (Seq (Lit "is") spaces); Opt currency; spaces; Group amount];
    (* /(\d{1,3}(?:,\d{3})* )\s*(?:and|,)/i *)
    seqs [Group amount; spaces; alts [Lit "and"; Lit ","]] ].

Definition historyAgePatterns : list regex :=
  [ (* /(?:i am|age|years old)\s*(\d{1,2})/i *)
    seqs [alts [Lit "i am"; Lit "age"; Lit "years old"]; spaces; Group (digits 1 2)];
    (* /(\d{1,2})\s*(?:years old|y|age)/i *)
    seqs [Group (digits 1 2); spaces; alts [Lit "years old"; Lit "y"; Lit "age"]];
    (* /(\d{1,2})\s*(?:and|,)/i *)
    seqs [Group (digits 1 2); spaces; alts [Lit "and"; Lit ","]] ].

Definition extractParametersFromHistory (history : list ConversationMessage) : Params :=
  let allContent := Js.toLowerCase (Js.join " " (map content history)) in
  let params :=
    match firstMatch historyValuePatterns allContent with
    | Some group1 =>
        match Js.parseInt (stripCommas group1) with
        | Some value => if (1000 <? value)%Z then setNum "vehicleValue" (inject_Z value) noParams
                        else noParams
        | None => noParams
        end
    | None => noParams
    end in
  let params :=
    match firstMatch historyAgePatterns allContent with
    | Some group1 =>
        match Js.parseInt group1 with
        | Some age => if ((16 <=? age) && (age <=? 100))%Z then setNum "age" (inject_Z age) params
                      else params
        | None => params
        end
    | None => params
    end in
  let params := setStr "location" (findLocation allContent) params in
  let params :=
    setStr "coverageType"
      (if Js.includes allContent "comprehensive" then "comprehensive"
       else if Js.includes allContent "third party" || Js.includes allContent "3rd party"
       then "third_party"
       else "comprehensive") params in
  let params := if Js.includes allContent "married" then setNum "familySize" 2 params else params in
  let params := if Js.includes allContent "children" then setNum "familySize" 4 params else params in
  if Js.includes allContent "single" then setNum "familySize" 1 params else params.

Definition detectInsuranceType (message : string) : option string :=
  let lowerMessage := Js.toLowerCase message in
  if Js.includesAny lowerMessage ["car"; "vehicle"; "auto"] then Some "auto"
  else if Js.includesAny lowerMessage ["health"; "medical"] then Some "health"
  else if Js.includesAny lowerMessage ["life"; "death"] then Some "life"
  else if Js.includesAny lowerMessage ["business"; "commercial"] then Some "business"
  else None.

End Extractor.

(** ** Premium calculator *)

(** The argument objects [calculatePremium] builds for the rules service. *)
Record AutoInput := {
  ai_vehicleValue : option Q;
  ai_vehicleAge : option Q;
  ai_driverAge : option Q;
  ai_location : option string;
  ai_coverageType : string;
  ai_drivingHistory : string;
  ai_securityFeatures : list string
}.

Record HealthInput := {
  hi_age : option Q;
  hi_planType : string;
  hi_familySize : Q;
  hi_preExistingConditions : list string;
  hi_smokingStatus : string;
  hi_occupation : string
}.

Record ServiceQuote := {
  sq_premium : Q;
  sq_breakdown : gmap string Q
}.

(** [PremiumCalculationService] is imported from [../types/unified-rag] and
    its rule tables are not part of the sources at hand, so the service is
    a parameter of the calculator. [None] stands for a thrown exception. *)
Class PremiumCalculationService := {
  calculateAutoPremium : AutoInput -> option ServiceQuote;
  calculateHealthPremium : HealthInput -> option ServiceQuote
}.

(** The object [calculatePremium] returns: [{ success: true, premium,
    breakdown }] or [{ success: false, error }]. *)
Inductive Calculation :=
| Quote (premium : Q) (breakdown : gmap string Q)
| NoQuote (error : string).

Definition success (c : Calculation) : bool :=
  match c with Quote _ _ => true | NoQuote _ => false end.

Definition hasRequiredAutoParams (params : Params) : bool :=
  truthy params "vehicleValue" && truthy params "age" && truthy params "location".

Definition hasRequiredHealthParams (params : Params) : bool :=
  truthy params "age".

Definition getRequiredParametersForType (insuranceType : string) : list string :=
  let t := Js.toLowerCase insuranceType in
  if String.eqb t "auto" then ["vehicleValue"; "age"; "location"; "coverageType"]
  else if String.eqb t "health" then ["age"; "planType"]
  else if String.eqb t "life" then ["age"; "coverage"]
  else if String.eqb t "business" then ["businessType"; "revenue"; "employees"]
  else ["age"].

(** [age < 35 ? 3.5 : age < 45 ? 8.5 : age < 55 ? 18.5 : 37.5] *)
Definition ratePerThousand (age : Q) : Q :=
  if Js.ltb age 35 then 7 # 2
  else if Js.ltb age 45 then 17 # 2
  else if Js.ltb age 55 then 37 # 2
  else 75 # 2.

Definition autoInput (params : Params) : AutoInput :=
  {| ai_vehicleValue := Js.orNum (num params "vehicleValue") (num params "vehicle_value");
     ai_vehicleAge := Js.orNum (num params "vehicleAge") (num params "vehicle_age");
     ai_driverAge :=
       Js.orNum (Js.orNum (num params "driverAge") (num params "driver_age")) (num params "age");
     ai_location := str params "location";
     ai_coverageType :=
       Js.strOr (Js.orStr (str params "coverageType") (str params "coverage_type")) "comprehensive";
     ai_drivingHistory :=
       Js.strOr (Js.orStr (str params "drivingHistory") (str params "driving_history")) "clean";
     ai_securityFeatures :=
       default (default [] (arr params "security_features")) (arr params "securityFeatures") |}.

Definition healthInput (params : Params) : HealthInput :=
  {| hi_age := num params "age";
     hi_planType := Js.strOr (Js.orStr (str params "planType") (str params "plan_type")) "standard";
     hi_familySize := Js.numOr (Js.orNum (num params "familySize") (num params "family_size")) 1;
     hi_preExistingConditions :=
       default (default [] (arr params "conditions")) (arr params "preExistingConditions");
     hi_smokingStatus :=
       Js.strOr (Js.orStr (str params "smokingStatus") (str params "smoking_status")) "non_smoker";
     hi_occupation := Js.strOr (str params "occupation") "general" |}.

Definition lifeAge (params : Params) : Q := Js.numOr (num params "age") 30.

Definition lifeCoverage (params : Params) : Q :=
  Js.numOr (Js.orNum (num params "coverage") (num params "coverageAmount")) 500000.

Definition lifeAnnualPremium (params : Params) : Q :=
  (lifeCoverage params / 1000) * ratePerThousand (lifeAge params).

Definition calculatePremium `{PremiumCalculationService}
    (insuranceType : string) (params : Params) : Calculation :=
  let t := Js.toLowerCase insuranceType in
  if String.eqb t "auto" then
    if hasRequiredAutoParams params then
      match calculateAutoPremium (autoInput params) with
      | Some q => Quote (sq_premium q) (sq_breakdown q)
      | None => NoQuote "Calculation failed due to invalid parameters"
      end
    else NoQuote "Missing required parameters for calculation"
  else if String.eqb t "health" then
    if hasRequiredHealthParams params then
      match calculateHealthPremium (healthInput params) with
      | Some q => Quote (sq_premium q) (sq_breakdown q)
      | None => NoQuote "Calculation failed due to invalid parameters"
      end
    else NoQuote "Missing required parameters for calculation"
  else if String.eqb t "life" then
    let annualPremium := lifeAnnualPremium params in
    Quote (inject_Z (Js.Math_round annualPremium))
      (<["baseCoverage" := lifeCoverage params]>
        (<["ageRate" := ratePerThousand (lifeAge params)]>
          (<["annualPremium" := inject_Z (Js.Math_round annualPremium)]>
            (<["monthlyPremium" := inject_Z (Js.Math_round (annualPremium / 12))]> ∅))))
  else NoQuote "Missing required parameters for calculation".

(** ** Responses of the orchestrator *)

Record Recommendation := {
  rec_type : string;
  rec_title : string;
  rec_description : string;
  rec_priority : string
}.

Record PremiumQuote := {
  amount : Q;
  quoteBreakdown : gmap string Q;
  validity : string
}.

(** The [usedKnowledge] object of a response. *)
Inductive UsedKnowledge :=
| Knowledge (type : string)
| ParameterCollection (missingParams : list string)
| PremiumCalculation (calculationMethod : string) (parameters : Params)
| Sources (sources : list string)
| Fallback (error : string).

Record AIResponse := {
  message : string;
  confidence : Q;
  recommendations : list Recommendation;
  usedKnowledge : UsedKnowledge;
  nextState : option string;
  nextAction : option string;
  premiumQuote : option PremiumQuote;
  leadScore : option Q;
  shouldCaptureLead : option bool
}.

(** A response that sets only the five fields every branch sets. *)
Definition reply (text : string) (conf : Q) (recs : list Recommendation)
    (used : UsedKnowledge) (action : string) : AIResponse :=
  {| message := text; confidence := conf; recommendations := recs; usedKnowledge := used;
     nextState := None; nextAction := Some action;
     premiumQuote := None; leadScore := None; shouldCaptureLead := None |}.

Definition withQuote (r : AIResponse) (q : PremiumQuote) (score : Q) : AIResponse :=
  {| message := message r; confidence := confidence r; recommendations := recommendations r;
     usedKnowledge := usedKnowledge r; nextState := nextState r; nextAction := nextAction r;
     premiumQuote := Some q; leadScore := Some score; shouldCaptureLead := Some true |}.

Definition withLead (r : AIResponse) (score : Q) : AIResponse :=
  {| message := message r; confidence := confidence r; recommendations := recommendations r;
     usedKnowledge := usedKnowledge r; nextState := nextState r; nextAction := nextAction r;
     premiumQuote := premiumQuote r; leadScore := Some score; shouldCaptureLead := Some true |}.

(** ** Conversation orchestrator: the premium branch *)

Definition upperAscii (c : ascii) : ascii :=
  let n := nat_of_ascii c in
  if ((97 <=? n) && (n <=? 122))%nat then ascii_of_nat (n - 32) else c.

(** [s.charAt(0).toUpperCase() + s.slice(1)] *)
Definition capitalize (s : string) : string :=
  match s with
  | EmptyString => EmptyString
  | String c tail => String (upperAscii c) tail
  end.

(** The [switch (param)] of [generateParameterCollectionMessage]: the
    question asked for a missing field, if the switch has a case for it. *)
Definition questionFor (param : string) : option string :=
  if String.eqb param "vehicleValue" then Some "What is the current value of your vehicle? (e.g., GH₵ 50,000)"
  else if String.eqb param "age" then Some "What is your age?"
  else if String.eqb param "location" then Some "Which city are you based in? (e.g., Accra, Kumasi, Tamale)"
  else if String.eqb param "coverageType" then Some "Would you prefer comprehensive coverage or third-party only?"
  else if String.eqb param "planType" then Some "Which health plan interests you: Basic, Standard, or Premium?"
  else if String.eqb param "coverage" then Some "How much life insurance coverage would you like? (e.g., GH₵ 500,000)"
  else None.

Definition numbered (i : nat) (q : string) : string :=
  (pretty (i + 1)%nat +:+ ". " +:+ q).

Definition generateParameterCollectionMessage
    (insuranceType : string) (missingParams : list string) (existingParams : Params) : string :=
  let questions := omap questionFor missingParams in
  let insuranceTypeText := capitalize insuranceType in
  ("Great! I'll help you calculate your " +:+ insuranceTypeText +:+ " insurance premium. ")
  +:+ (if hasKeys existingParams then "I have some of your details already. " else "")
  +:+ "I just need a few more details:

"
  +:+ Js.join "
" (imap numbered questions)
  +:+ "

Once I have this information, I'll provide you with an accurate premium quote! 💰".

Definition msgAskInsuranceType : string :=
"I'd be happy to help you calculate your premium! What type of insurance are you interested in?

• Auto Insurance 🚗
• Health Insurance 🏥
• Life Insurance 👨‍👩‍👧‍👦
• Business Insurance 🏢

Please let me know which one interests you most!".

Definition msgCalculationError : string :=
"I apologize, but I encountered an issue while calculating your premium. Let me connect you with a specialist who can help you right away.".

Definition msgNoRecentCalculation : string :=
"I don't see a recent premium calculation. Would you like me to calculate a new premium quote for you?".

Definition msgThirdPartyEstimate : string :=
"I'd be happy to calculate a third-party quote for you! Based on your vehicle (GH₵ 400,000) and age (41), here's what you need to know:

💰 **Third-party coverage is around GH₵ 360 annually**
📅 That's about GH₵ 30/month

🛡️ **What's covered:**
✅ Legal requirement met
✅ Damage to other people's property
✅ Injury to other people

⚠️ **What's NOT covered:**
❌ Your own vehicle damage
❌ Theft of your vehicle
❌ Windshield replacement

For a valuable car like yours (GH₵ 400,000), comprehensive might be worth the extra protection. What do you think?".

Definition msgCoverageExplanation : string :=
"The premium I calculated was for **comprehensive coverage**, which provides the most complete protection including:

✅ Third-party liability
✅ Theft protection
✅ Accident damage
✅ Windshield replacement

If you'd prefer **third-party only** coverage, that would be much cheaper - around GH₵ 360 annually. However, comprehensive gives you much better protection for your valuable vehicle.

Would you like me to calculate the third-party rate instead?".

Definition msgComprehensiveExplanation : string :=
"Yes, the premium I calculated is for **comprehensive coverage** - the premium protection for your vehicle! 🛡️

This covers:
✅ **Everything in third-party** (legal requirement)
✅ **Your vehicle damage** from accidents
✅ **Theft protection** (important in urban areas)
✅ **Windshield replacement** (great for Harmattan season)
✅ **Fire and natural disasters**

This is the best value for a vehicle worth GH₵ 400,000. You're fully protected!

Ready to get started with your application?".

Definition msgApplication : string :=
"Excellent! I'm excited to help you get protected! 🎉

To proceed with your comprehensive auto insurance application, I'll need:

📋 **Required Documents:**
• Valid driver's license
• Vehicle registration
• Previous insurance certificate (if any)

📞 **Next Steps:**
• Our specialist will call you within 2 hours
• Complete application over the phone
• Policy documents sent via email
• Coverage starts immediately upon payment

💳 **Payment Options:**
• Annual: GH₵ 13,954 (save 5%)
• Monthly via MTN MoMo: GH₵ 1,224

Shall I arrange for our specialist to call you on this number?".

Definition msgClarify : string :=
"Great! I want to make sure I understand what you'd like to do next. Are you interested in:

1️⃣ **Getting the third-party quote** (cheaper option)
2️⃣ **Proceeding with comprehensive coverage** (full protection)
3️⃣ **Learning more about the coverage options**

Just let me know which option interests you most! 😊".

Definition msgGeneralFollowUp : string :=
"I'd be happy to help you with any questions about your premium quote! 😊

Your quote details:
💰 Annual: GH₵ 14,688
📅 Monthly: GH₵ 1,224
🛡️ Comprehensive coverage
⏰ Valid for 30 days

What would you like to know more about?
• Coverage details
• Payment options
• Application process
• Policy benefits
• **Third-party alternative quote**

Or if you're ready, I can help you apply right now!".

Definition generatePremiumRecommendations (insuranceType : string) : list Recommendation :=
  [ {| rec_type := "action"; rec_title := "Apply Now";
       rec_description := "Start your insurance application with this quote";
       rec_priority := "high" |};
    {| rec_type := "info"; rec_title := "Payment Plans";
       rec_description := "Flexible payment options including mobile money";
       rec_priority := "medium" |} ]
  ++ (if String.eqb insuranceType "auto"
      then [ {| rec_type := "discount"; rec_title := "Save More";
                rec_description := "Add GPS tracking for 10% additional discount";
                rec_priority := "medium" |} ]
      else []).

Section Orchestrator.

Context `{PremiumCalculationService}.

(** [Number.prototype.toLocaleString] of the host: the digit grouping
    depends on the locale the process runs in. *)
Variable toLocaleString : Q -> string.

(** The percentage shown for a multiplier:
    [Math.abs((multiplier - 1) * 100).toFixed(0)]. *)
Definition percentOf (multiplier : Q) : string :=
  Js.toFixed 0 (Js.Math_abs ((multiplier - 1) * 100)).

(** One [if (breakdown.m !== 1.0) { ... }] block; [None] is a breakdown
    without the field, which JavaScript prints as [NaN]. *)
Definition multiplierLine (label up : string) (multiplier : option Q) : string :=
  match multiplier with
  | Some m =>
      if Js.neqb m 1
      then "• " +:+ label +:+ " " +:+ (if Js.gtb m 1 then up else "discount") +:+ ": "
           +:+ percentOf m +:+ "%
"
      else ""
  | None => "• " +:+ label +:+ " discount: NaN%
"
  end.

Definition monthlyOf (premium : Q) : Q := inject_Z (Js.Math_round (premium / 12)).

Definition generatePremiumResponseMessage
    (premium : Q) (breakdown : gmap string Q) (insuranceType : string) (params : Params)
    : string :=
  let monthlyPremium := monthlyOf premium in
  ("🎉 Great! I've calculated your " +:+ insuranceType +:+ " insurance premium:

")
  +:+ ("💰 **Annual Premium: GH₵ " +:+ toLocaleString premium +:+ "**
")
  +:+ ("📅 Monthly Payment: GH₵ " +:+ toLocaleString monthlyPremium +:+ "

")
  +:+ "**Premium Breakdown:**
"
  +:+ (match breakdown !! "basePremium" with
       | Some basePremium =>
           if Js.neqb basePremium 0
           then ("• Base Premium: GH₵ " +:+ toLocaleString basePremium +:+ "
")
           else ""
       | None => ""
       end)
  +:+ (if String.eqb insuranceType "auto"
       then multiplierLine "Age" "increase" (breakdown !! "ageMultiplier")
            +:+ multiplierLine "Location" "surcharge" (breakdown !! "locationMultiplier")
       else "")
  +:+ "
🔒 **What's Included:**
"
  +:+ (if String.eqb insuranceType "auto" then
         if bool_decide (str params "coverageType" = Some "comprehensive")
         then "• Comprehensive coverage
• Third-party liability
• Theft protection
• Accident damage
• Windshield replacement"
         else "• Third-party liability
• Legal compliance
• Bodily injury coverage"
       else if String.eqb insuranceType "health" then "• Outpatient care
• Hospitalization
• Emergency treatment
• Specialist consultations
• Prescription drugs"
       else if String.eqb insuranceType "life" then "• Death benefit payout
• Family financial protection
• Funeral expense coverage
• Optional accidental death benefit"
       else "")
  +:+ "

💳 **Payment Options:**
"
  +:+ ("• Annual payment: -5% discount (GH₵ " +:+ toLocaleString (inject_Z (Js.Math_round (premium * (95 # 100)))) +:+ ")
")
  +:+ ("• Monthly via MTN MoMo: GH₵ " +:+ toLocaleString monthlyPremium +:+ "
")
  +:+ "• Quarterly payments available

"
  +:+ "✅ This quote is valid for 30 days.
"
  +:+ "📞 Ready to get protected? I can help you apply right now!".

(** The message of the third-party quote after a direct request (first
    [if (calculationResult.success)] of [handlePremiumFollowUp]). *)
Definition msgThirdPartyQuote (premium : Q) : string :=
  ("🎉 **Third-Party Auto Insurance Quote:**

💰 **Annual Premium: GH₵ " +:+ toLocaleString premium +:+ "**
📅 Monthly Payment: GH₵ " +:+ toLocaleString (monthlyOf premium) +:+ "

🛡️ **What's Covered:**
✅ Third-party liability (legal requirement)
✅ Bodily injury coverage
✅ Property damage to others

💡 **Note:** This is much more affordable but doesn't cover your own vehicle damage or theft.

**Comparison with your previous quote:**
• Third-party: GH₵ " +:+ toLocaleString premium +:+ "/year
• Comprehensive: GH₵ 14,688/year
• **You save: GH₵ " +:+ toLocaleString (14688 - premium) +:+ "/year**

✅ Quote valid for 30 days
📞 Ready to proceed with third-party coverage?").

(** The message of the third-party quote after a confirmed offer. *)
Definition msgThirdPartyConfirmed (premium : Q) : string :=
  ("🎉 **Third-Party Auto Insurance Quote:**

💰 **Annual Premium: GH₵ " +:+ toLocaleString premium +:+ "**
📅 Monthly Payment: GH₵ " +:+ toLocaleString (monthlyOf premium) +:+ "

🛡️ **What's Covered:**
✅ Third-party liability (legal requirement)
✅ Bodily injury coverage
✅ Property damage to others

💡 **Note:** This is much more affordable but doesn't cover your own vehicle damage or theft.

**Comparison:**
• Third-party: GH₵ " +:+ toLocaleString premium +:+ "/year
• Comprehensive: GH₵ 14,688/year

✅ Quote valid for 30 days
📞 Ready to proceed with third-party coverage?").

Definition thirdPartyQuoteResponse (text : string) (premium : Q) (breakdown : gmap string Q)
    : AIResponse :=
  withQuote
    (reply text (95 # 100)
       [ {| rec_type := "action"; rec_title := "Compare Coverage Options";
            rec_description := "Review third-party vs comprehensive benefits";
            rec_priority := "high" |} ]
       (Knowledge "third_party_calculation") "present_third_party_quote")
    {| amount := premium; quoteBreakdown := breakdown; validity := "30 days" |}
    (85 # 10).

Definition handlePremiumFollowUp
    (userMessage : string) (conversationHistory : list ConversationMessage) : AIResponse :=
  let recentMessages := lastN 6 conversationHistory in
  let lastPremiumResponse :=
    List.find (fun msg => Js.includes (content msg) "Premium" || Js.includes (content msg) "GH₵")
              (List.filter isAssistant recentMessages) in
  match lastPremiumResponse with
  | None =>
      reply msgNoRecentCalculation (7 # 10) [] (Knowledge "premium_follow_up_no_context")
            "restart_calculation"
  | Some _ =>
      let lowerMessage := Js.toLowerCase userMessage in
      let isThirdPartyRequest :=
        Js.includesAny lowerMessage ["third party"; "3rd party"; "third-party"]
        && Js.includesAny lowerMessage
             ["quote"; "calculate"; "give me"; "show me"; "instead"; "rate"] in
      let thirdPartyParams :=
        setStr "coverageType" "third_party"
               (Extractor.extractParametersFromHistory conversationHistory) in
      let calculationResult := calculatePremium "auto" thirdPartyParams in
      let isRespondingToThirdPartyOffer :=
        match last (List.filter isAssistant conversationHistory) with
        | Some lastAssistantMessage =>
            Js.includes (Js.toLowerCase (content lastAssistantMessage))
                        "calculate the third-party rate instead"
        | None => false
        end in
      let confirmed :=
        match calculationResult with
        | Quote premium breakdown =>
            if isRespondingToThirdPartyOffer
               && Js.includesAny lowerMessage ["yes"; "ok"; "sure"]
            then Some (thirdPartyQuoteResponse (msgThirdPartyConfirmed premium) premium breakdown)
            else None
        | NoQuote _ => None
        end in
      if isThirdPartyRequest then
        match calculationResult with
        | Quote premium breakdown =>
            thirdPartyQuoteResponse (msgThirdPartyQuote premium) premium breakdown
        | NoQuote _ =>
            reply msgThirdPartyEstimate (9 # 10) [] (Knowledge "third_party_estimate")
                  "present_third_party_option"
        end
      else
        match confirmed with
        | Some response => response
        | None =>
            if Js.includesAny lowerMessage ["third party"; "3rd party"] then
              reply msgCoverageExplanation (95 # 100)
                [ {| rec_type := "info"; rec_title := "Coverage Comparison";
                     rec_description := "Compare comprehensive vs third-party coverage options";
                     rec_priority := "high" |} ]
                (Knowledge "coverage_explanation") "explain_coverage_options"
            else if Js.includesAny lowerMessage ["comprehensive"; "comp"] then
              reply msgComprehensiveExplanation (95 # 100)
                [ {| rec_type := "action"; rec_title := "Start Application";
                     rec_description := "Begin your comprehensive insurance application";
                     rec_priority := "high" |} ]
                (Knowledge "comprehensive_explanation") "encourage_application"
            else if Js.includesAny lowerMessage
                      ["apply"; "proceed"; "continue"; "start application"; "get started"] then
              withLead
                (reply msgApplication (95 # 100)
                   [ {| rec_type := "action"; rec_title := "Schedule Call";
                        rec_description := "Arrange specialist call to complete application";
                        rec_priority := "urgent" |} ]
                   (Knowledge "application_process") "schedule_specialist_call")
                10
            else if (String.eqb lowerMessage "yes" || String.eqb lowerMessage "ok"
                     || String.eqb lowerMessage "sure")
                    && negb isRespondingToThirdPartyOffer then
              reply msgClarify (85 # 100)
                [ {| rec_type := "info"; rec_title := "Clarify Next Steps";
                     rec_description := "Help customer choose their preferred option";
                     rec_priority := "high" |} ]
                (Knowledge "clarification_request") "clarify_user_intent"
            else
              reply msgGeneralFollowUp (85 # 100)
                [ {| rec_type := "info"; rec_title := "Premium Details";
                     rec_description := "Explain premium breakdown and benefits";
                     rec_priority := "medium" |} ]
                (Knowledge "premium_follow_up_general") "provide_more_info"
        end
  end.

(** [isFollowUpToPremiumCalculation]: a premium-looking assistant message
    among the last four entries, and a follow-up keyword in the message. *)
Definition followUpKeywords : list string :=
  [ "third party"; "comprehensive"; "comp"; "3rd party";
    "what type"; "which type"; "what kind"; "is this";
    "coverage"; "policy"; "plan"; "option";
    "breakdown"; "details"; "explain";
    "monthly"; "annually"; "payment";
    "apply"; "proceed"; "continue"; "next step";
    "yes"; "ok"; "sounds good"; "interested";
    "instead"; "different"; "alternative"; "other";
    "quote for"; "calculate"; "give me"; "show me" ].

Definition isFollowUpToPremiumCalculation
    (message : string) (conversationHistory : list ConversationMessage) : bool :=
  let recentMessages := lastN 4 conversationHistory in
  let hasPremiumInHistory :=
    existsb (fun msg =>
               isAssistant msg
               && Js.includesAny (Js.toLowerCase (content msg))
                    ["premium"; "gh₵"; "annual payment"; "monthly payment";
                     "calculated your auto insurance"])
            recentMessages in
  if negb hasPremiumInHistory then false
  else
    let lowerMessage := Js.toLowerCase message in
    let isFollowUp := Js.includesAny lowerMessage followUpKeywords in
    let isPremiumRelatedRequest :=
      Js.includesAny lowerMessage ["quote"; "premium"; "calculate"; "rate"]
      && hasPremiumInHistory in
    isFollowUp || isPremiumRelatedRequest.

Definition premiumKeywords : list string :=
  [ "premium"; "cost"; "price"; "quote"; "calculate"; "how much";
    "payment"; "monthly"; "annual"; "rates"; "pricing"; "estimate";
    "value"; "comprehensive"; "third party"; "insurance" ].

Definition isPremiumCalculationRequest (message : string) : bool :=
  let lowerMessage := Js.toLowerCase message in
  let hasPremiumKeyword := Js.includesAny lowerMessage premiumKeywords in
  let ageWord := Regex.alts [Regex.Lit "age"; Regex.Lit "years"; Regex.Lit "old"] in
  let number := Regex.Plus (Regex.Cls Regex.isDigit) in
  (* /(?:value|worth|cost).*?\d+.*?(?:age|years|old)|\d+.*?(?:age|years|old).*?(?:value|worth)/i *)
  let hasValueAndAge :=
    Regex.test true
      (Regex.Alt
         (Regex.seqs [Extractor.valueWord; Regex.anyLazy; number; Regex.anyLazy; ageWord])
         (Regex.seqs [number; Regex.anyLazy; ageWord; Regex.anyLazy;
                      Regex.alts [Regex.Lit "value"; Regex.Lit "worth"]]))
      message in
  (* /(?:value|worth|cost).*?\d{1,3}(?:,\d{3})*/ *)
  let hasValueWithAmount :=
    Regex.test false (Regex.seqs [Extractor.valueWord; Regex.anyLazy; Regex.amount]) message in
  let hasInsuranceContext :=
    Js.includesAny lowerMessage ["comprehensive"; "third party"; "insurance"; "cover"] in
  hasPremiumKeyword || hasValueAndAge || (hasValueWithAmount && hasInsuranceContext).

(** [handlePremiumCalculation]. The history it reads already ends with the
    message being processed. *)
Definition handlePremiumCalculation
    (userMessage : string) (conversationHistory : list ConversationMessage) : AIResponse :=
  if isFollowUpToPremiumCalculation userMessage conversationHistory
  then handlePremiumFollowUp userMessage conversationHistory
  else
    let calculationParams := Extractor.extractPremiumParameters userMessage in
    let additionalParams := Extractor.extractParametersFromHistory conversationHistory in
    let allParams := spread calculationParams additionalParams in
    match Js.orStr (Extractor.detectInsuranceType userMessage) (str allParams "insuranceType") with
    | None | Some EmptyString =>
        reply msgAskInsuranceType (9 # 10) [] (Knowledge "premium_calculation_start")
              "collect_insurance_type"
    | Some insuranceType =>
        let requiredParams := getRequiredParametersForType insuranceType in
        let missingParams := List.filter (fun param => negb (truthy allParams param)) requiredParams in
        if (0 <? length missingParams)%nat then
          reply (generateParameterCollectionMessage insuranceType missingParams allParams)
                (9 # 10) [] (ParameterCollection missingParams) "collect_parameters"
        else
          match calculatePremium insuranceType allParams with
          | Quote premium breakdown =>
              withQuote
                (reply (generatePremiumResponseMessage premium breakdown insuranceType allParams)
                       (95 # 100) (generatePremiumRecommendations insuranceType)
                       (PremiumCalculation insuranceType allParams) "premium_presented")
                {| amount := premium; quoteBreakdown := breakdown; validity := "30 days" |}
                9
          | NoQuote error =>
              reply ("I apologize, but I couldn't calculate your premium with the provided information. "
                     +:+ Js.strOr (Some error) "Please provide more details about your insurance needs.")
                    (3 # 10) [] (Knowledge "premium_calculation_failed") "collect_additional_info"
          end
    end.

End Orchestrator.

(** ** Lead scorer *)

Module LeadScorer.

(** The object [JSON.parse] yields for the reply of the scoring prompt,
    read at the types the prompt asks for; [None] is a field the reply
    leaves out. *)
Record ParsedLeadAnalysis := {
  la_shouldCapture : option bool;
  la_confidence : option Q;
  la_score : option Q;
  la_reason : option string;
  la_riskFactors : option (list string);
  la_positiveSignals : option (list string)
}.

(** What the [try] block of the scorer meets. *)
Inductive ModelReply :=
| RequestFailed                     (* the completion call rejects or carries no choice *)
| Unparseable                       (* [JSON.parse] throws, or yields [null] *)
| Parsed (leadAnalysis : ParsedLeadAnalysis).

Record LeadAnalysisResult := {
  shouldCapture : bool;
  confidence : Q;
  score : Q;
  reason : string;
  riskFactors : list string;
  positiveSignals : list string
}.

(** [result.shouldCapture = false; result.reason = text] *)
Definition reject (result : LeadAnalysisResult) (text : string) : LeadAnalysisResult :=
  {| shouldCapture := false; confidence := confidence result; score := score result;
     reason := text; riskFactors := riskFactors result;
     positiveSignals := positiveSignals result |}.

(** [messageCount < 2 ? 8.0 : 6.5] *)
Definition threshold (messageCount : nat) : Q :=
  if (messageCount <? 2)%nat then 8 else 13 # 2.

(** The threshold as the template literal prints it. *)
Definition thresholdText (messageCount : nat) : string :=
  if (messageCount <? 2)%nat then "8" else "6.5".

(** The body of the [try] block after [JSON.parse]. *)
Definition validate (messageCount : nat) (leadAnalysis : ParsedLeadAnalysis)
    : LeadAnalysisResult :=
  let result :=
    {| shouldCapture := default false (la_shouldCapture leadAnalysis);
       confidence := Js.Math_min 1 (Js.Math_max 0 (Js.numOr (la_confidence leadAnalysis) (1 # 2)));
       score := Js.Math_min 10 (Js.Math_max 0 (Js.numOr (la_score leadAnalysis) 0));
       reason := Js.strOr (la_reason leadAnalysis) "Conversation-aware analysis completed";
       riskFactors := default [] (la_riskFactors leadAnalysis);
       positiveSignals := default [] (la_positiveSignals leadAnalysis) |} in
  let result :=
    if Js.ltb (score result) (threshold messageCount)
    then reject result
           ("Score " +:+ Js.toFixed 1 (score result) +:+ "/10 below threshold ("
            +:+ thresholdText messageCount +:+ ") for "
            +:+ (if (messageCount <? 2)%nat then "new" else "engaged") +:+ " conversation")
    else result in
  if (messageCount =? 0)%nat && Js.ltb (score result) (85 # 10)
  then reject result ("First message requires very strong signals (8.5+): " +:+ reason result)
  else result.

(** The [catch] block. *)
Definition conservative : LeadAnalysisResult :=
  {| shouldCapture := false; confidence := 1 # 10; score := 0;
     reason := "Analysis failed - defaulting to conservative approach";
     riskFactors := ["AI analysis unavailable"]; positiveSignals := [] |}.

Definition decide (messageCount : nat) (modelReply : ModelReply) : LeadAnalysisResult :=
  match modelReply with
  | Parsed leadAnalysis => validate messageCount leadAnalysis
  | RequestFailed | Unparseable => conservative
  end.

(** [shouldCaptureLead] of the service: [conversationHistory] is the
    stored history of the user ([[]] without a user id). *)
Definition shouldCaptureLead
    (conversationHistory : list ConversationMessage) (modelReply : ModelReply)
    : LeadAnalysisResult :=
  let messageCount := (length conversationHistory / 2)%nat in
  decide messageCount modelReply.

(** [analyzeLeadCaptureIntent] of the simplified service: the caller hands
    over [messageCount]. *)
Definition analyzeLeadCaptureIntent (messageCount : nat) (modelReply : ModelReply)
    : LeadAnalysisResult :=
  decide messageCount modelReply.

End LeadScorer.

(** ** Lead service *)

Module LeadService.

Record ContactInfo := {
  ci_name : option string;
  ci_email : option string;
  ci_phone : option string
}.

Record CaptureLeadData := {
  cl_userId : string;
  cl_contactInfo : ContactInfo;
  cl_source : string;
  cl_productInterest : string;
  cl_score : Q
}.

(** The [leadData: any] of [createLead]. *)
Record LeadData := {
  ld_name : option string;
  ld_email : option string;
  ld_phone : option string;
  ld_source : option string;
  ld_interests : option (list string);
  ld_urgencyLevel : option string
}.

Record Lead := {
  id : string;
  name : option string;
  email : option string;
  phone : option string;
  source : string;
  interests : list string;
  urgencyLevel : string;
  score : Q;
  status : string;
  createdAt : Z;
  updatedAt : Z;
  nextSteps : list string
}.

Definition sourceScores : list (string * Q) :=
  [ ("viral_quiz", 20%Q); ("viral_challenge", 18%Q); ("qr_code", 15%Q); ("referral", 25%Q);
    ("social_media", 10%Q); ("web_form", 12%Q); ("chat", 15%Q) ].

Definition lookupScore (key : option string) : option Q :=
  match key with
  | Some k => option_map snd (List.find (fun entry => String.eqb (fst entry) k) sourceScores)
  | None => None
  end.

Definition bonus (condition : bool) (points : Q) : Q := if condition then points else 0.

Definition hasInterests (interests : option (list string)) : bool :=
  match interests with Some (_ :: _) => true | _ => false end.

Definition isLevel (level : option string) (expected : string) : bool :=
  match level with Some l => String.eqb l expected | None => false end.

Definition calculateLeadScore (leadData : LeadData) : Q :=
  let score : Q :=
    (0 + bonus (Js.truthyStr (ld_email leadData)) 20
       + bonus (Js.truthyStr (ld_phone leadData)) 25
       + bonus (Js.truthyStr (ld_name leadData)) 15
       + bonus (hasInterests (ld_interests leadData)) 20
       + bonus (isLevel (ld_urgencyLevel leadData) "high") 15
       + bonus (isLevel (ld_urgencyLevel leadData) "medium") 10
       + Js.numOr (lookupScore (ld_source leadData)) 5)%Q in
  Js.Math_min 100 (Js.Math_max 0 score).

Definition determineUrgencyLevel (score : Q) : string :=
  if Js.geb score (85 # 10) then "high"
  else if Js.geb score (65 # 10) then "medium"
  else "low".

Definition includesInterest (interests : option (list string)) (product : string) : bool :=
  match interests with
  | Some l => existsb (String.eqb product) l
  | None => false
  end.

Definition generateNextSteps (urgency : option string) (interests : option (list string))
    : list string :=
  (if isLevel urgency "high" then ["Contact within 1 hour"; "Prepare personalized quote"]
   else if isLevel urgency "medium" then ["Contact within 24 hours"; "Send educational content"]
   else ["Add to nurture sequence"; "Contact within 3 days"])
  ++ (if includesInterest interests "auto" then ["Prepare auto insurance materials"] else [])
  ++ (if includesInterest interests "health" then ["Prepare health insurance comparison"] else [])
  ++ (if includesInterest interests "life" then ["Prepare life insurance information"] else [])
  ++ (if includesInterest interests "business" then ["Prepare business insurance proposal"] else []).

(** [captureLead]; [leadId] is the fresh identifier [generateLeadId] draws. *)
Definition captureLead (leads : gmap string Lead) (leadData : CaptureLeadData)
    (leadId : string) (now : Z) : gmap string Lead * Lead :=
  let urgency := determineUrgencyLevel (cl_score leadData) in
  let lead :=
    {| id := leadId;
       name := ci_name (cl_contactInfo leadData);
       email := ci_email (cl_contactInfo leadData);
       phone := ci_phone (cl_contactInfo leadData);
       source := cl_source leadData;
       interests := [cl_productInterest leadData];
       urgencyLevel := urgency;
       score := cl_score leadData;
       status := "new";
       createdAt := now;
       updatedAt := now;
       nextSteps := generateNextSteps (Some urgency) (Some [cl_productInterest leadData]) |} in
  (<[leadId := lead]> leads, lead).

Definition createLead (leads : gmap string Lead) (leadData : LeadData)
    (leadId : string) (now : Z) : gmap string Lead * Lead :=
  let lead :=
    {| id := leadId;
       name := ld_name leadData;
       email := ld_email leadData;
       phone := ld_phone leadData;
       source := Js.strOr (ld_source leadData) "web_form";
       interests := default [] (ld_interests leadData);
       urgencyLevel := Js.strOr (ld_urgencyLevel leadData) "medium";
       score := calculateLeadScore leadData;
       status := "new";
       createdAt := now;
       updatedAt := now;
       nextSteps := generateNextSteps (ld_urgencyLevel leadData) (ld_interests leadData) |} in
  (<[leadId := lead]> leads, lead).

(** A request handled by the service, and the store after a run of them. *)
Inductive Request :=
| Capture (leadData : CaptureLeadData) (leadId : string) (now : Z)
| Create (leadData : LeadData) (leadId : string) (now : Z).

Definition handle (leads : gmap string Lead) (request : Request) : gmap string Lead :=
  match request with
  | Capture leadData leadId now => fst (captureLead leads leadData leadId now)
  | Create leadData leadId now => fst (createLead leads leadData leadId now)
  end.

Definition serve (requests : list Request) : gmap string Lead :=
  fold_left handle requests ∅.

(** [getLeadById]: the stored lead, or [null]. *)
Definition getLeadById (leads : gmap string Lead) (leadId : string) : option Lead :=
  leads !! leadId.

(** [updates: Partial<Lead>]. [None] is a field the object does not carry;
    a field it carries holds a value of the type of the field. *)
Record LeadUpdates := {
  up_id : option string;
  up_name : option (option string);
  up_email : option (option string);
  up_phone : option (option string);
  up_source : option string;
  up_interests : option (list string);
  up_urgencyLevel : option string;
  up_score : option Q;
  up_status : option string;
  up_createdAt : option Z;
  up_updatedAt : option Z;
  up_nextSteps : option (list string)
}.

(** [updateLead]: [{ ...lead, ...updates, updatedAt: new Date() }] is stored
    under [leadId]; [None] is the [null] returned for an unknown id. *)
Definition updateLead (leads : gmap string Lead) (leadId : string)
    (updates : LeadUpdates) (now : Z) : gmap string Lead * option Lead :=
  match leads !! leadId with
  | None => (leads, None)
  | Some lead =>
      let updatedLead :=
        {| id := default (id lead) (up_id updates);
           name := default (name lead) (up_name updates);
           email := default (email lead) (up_email updates);
           phone := default (phone lead) (up_phone updates);
           source := default (source lead) (up_source updates);
           interests := default (interests lead) (up_interests updates);
           urgencyLevel := default (urgencyLevel lead) (up_urgencyLevel updates);
           score := default (score lead) (up_score updates);
           status := default (status lead) (up_status updates);
           createdAt := default (createdAt lead) (up_createdAt updates);
           updatedAt := now;
           nextSteps := default (nextSteps lead) (up_nextSteps updates) |} in
      (<[leadId := updatedLead]> leads, Some updatedLead)
  end.

(** [filters: any] of [getLeads]. *)
Record LeadFilters := {
  f_status : option string;
  f_source : option string;
  f_minScore : option Q
}.

(** The comparator of [getLeads]: by score, then by creation date, both
    descending. *)
Definition compareLeads (a b : Lead) : Q :=
  if Js.neqb (score b) (score a) then score b - score a
  else inject_Z (createdAt b - createdAt a).

(** [getLeads]. [stored] is [Array.from(this.leads.values())]: the leads
    in the order in which their ids were first stored, which a [gmap] does
    not record. *)
Definition getLeads (stored : list Lead) (filters : LeadFilters) : list Lead :=
  let leads := stored in
  let leads :=
    if Js.truthyStr (f_status filters)
    then List.filter (fun lead => bool_decide (Some (status lead) = f_status filters)) leads
    else leads in
  let leads :=
    if Js.truthyStr (f_source filters)
    then List.filter (fun lead => bool_decide (Some (source lead) = f_source filters)) leads
    else leads in
  let leads :=
    match f_minScore filters with
    | Some minScore =>
        if Js.truthyNum (Some minScore)
        then List.filter (fun lead => Js.geb (score lead) minScore) leads
        else leads
    | None => leads
    end in
  Js.sort compareLeads leads.






End LeadService.

(** ** The WhatsApp route: the caller of [captureLead] in [routes/whatsapp.ts] *)

Module WhatsApp.

(** The fields of [leadCaptureRecommendation.aiAnalysis] the score reads. *)
Record Signals := {
  ws_urgencyLevel : option string;
  ws_buyingSignals : option (list string);
  ws_leadReadiness : option string
}.

Definition readinessPoints (readiness : option string) : Q :=
  match readiness with
  | Some r =>
      if String.eqb r "hot_lead" then 25
      else if String.eqb r "ready" then 20
      else if String.eqb r "considering" then 15
      else if String.eqb r "exploring" then 10
      else 5
  | None => 5
  end.

(** [aiAnalysis] is [None] when the recommendation carries no analysis
    ([aiAnalysis?.field] is then [undefined]). *)
Definition calculateWhatsAppLeadScore (aiConfidence : Q) (aiAnalysis : option Signals) : Q :=
  let urgencyLevel := aiAnalysis ≫= ws_urgencyLevel in
  let buyingSignals := default [] (aiAnalysis ≫= ws_buyingSignals) in
  let score : Q :=
    (0 + aiConfidence * 30
       + 15
       + (if LeadService.isLevel urgencyLevel "high" then 20
          else if LeadService.isLevel urgencyLevel "medium" then 10 else 0)
       + inject_Z (Z.of_nat (length buyingSignals)) * 5
       + readinessPoints (aiAnalysis ≫= ws_leadReadiness))%Q in
  (* Ensure score is between 0-100 *)
  Js.Math_min 100 (Js.Math_max 0 score).

(** The [leadData] the route builds and hands to [captureLead]. *)
Definition leadDataFor (phoneNumber productInterest : string)
    (aiConfidence : Q) (aiAnalysis : option Signals) : LeadService.CaptureLeadData :=
  {| LeadService.cl_userId := "whatsapp_" +:+ phoneNumber;
     LeadService.cl_contactInfo :=
       {| LeadService.ci_name := None; LeadService.ci_email := None;
          LeadService.ci_phone := Some phoneNumber |};
     LeadService.cl_source := "whatsapp";
     LeadService.cl_productInterest := productInterest;
     LeadService.cl_score := calculateWhatsAppLeadScore aiConfidence aiAnalysis |}.

(** [extractInsuranceType] of the route: the product named in the quote
    template. *)
Definition extractInsuranceType (message : string) : string :=
  let lowerMessage := Js.toLowerCase message in
  if Js.includes lowerMessage "auto" || Js.includes lowerMessage "car"
     || Js.includes lowerMessage "vehicle" then "auto"
  else if Js.includes lowerMessage "health" || Js.includes lowerMessage "medical" then "health"
  else if Js.includes lowerMessage "life" then "life"
  else if Js.includes lowerMessage "business" then "business"
  else "general".

(** [phoneNumber.replace(/\D/g, '')] *)
Fixpoint keepDigits (s : string) : string :=
  match s with
  | EmptyString => EmptyString
  | String c tail =>
      if Regex.isDigit c then String c (keepDigits tail) else keepDigits tail
  end.

Definition cleanPhoneNumber (phoneNumber : string) : string :=
  let cleaned := keepDigits phoneNumber in
  if (String.length cleaned =? 9)%nat && Js.startsWith cleaned "0"
  then "233" +:+ Js.dropFirst cleaned
  else if (String.length cleaned =? 9)%nat then "233" +:+ cleaned
  else if (String.length cleaned =? 10)%nat && negb (Js.startsWith cleaned "233")
  then "233" +:+ cleaned
  else cleaned.

Definition isValidWhatsAppNumber (phoneNumber : string) : bool :=
  let cleaned := cleanPhoneNumber phoneNumber in
  (10 <=? String.length cleaned)%nat && (String.length cleaned <=? 15)%nat.

(** The first test of [handleSpecialCases]: whether the lead capture
    message is scheduled after a response. *)
Definition leadCaptureDue (response : AIResponse) : bool :=
  default false (shouldCaptureLead response)
  && Js.truthyNum (leadScore response)
  && match leadScore response with
     | Some score => Js.gtb score 7
     | None => false
     end.

End WhatsApp.

(** ** The simplified service: [processMessage] and its recommendations

    The second [AIService] class of the file. Its knowledge base
    ([RAGService]) is not among the sources: what [queryKnowledge] returns
    is a parameter, read as far as the service and the WhatsApp route
    read it. *)

Module Simplified.

(** The analysis [JSON.parse] yields, read at the types the prompt asks
    for; [None] is a field the reply leaves out. *)
Record Analysis := {
  primaryIntent : option string;
  insuranceType : option string;
  urgencyLevel : option string;
  buyingSignals : option (list string);
  nextBestAction : option string
}.

(** The default analysis of the [catch] block of [analyzeUserInput]. *)
Definition defaultAnalysis : Analysis :=
  {| primaryIntent := Some "INFORMATION"; insuranceType := None;
     urgencyLevel := Some "medium"; buyingSignals := Some [];
     nextBestAction := Some "provide_info" |}.

(** [analyzeUserInput]: [None] is a completion that fails or whose content
    does not parse. *)
Definition analyzeUserInput (reply : option Analysis) : Analysis :=
  default defaultAnalysis reply.

(** [knowledge.confidence] and the fields of [knowledge.metadata] that are
    read. *)
Record Knowledge := {
  kn_confidence : Q;
  kn_hasProductInfo : bool;
  kn_productTypes : option (list string)
}.

(** The [aiAnalysis] object of a capture recommendation. *)
Record CaptureAnalysis := {
  ca_primaryIntent : option string;
  ca_urgencyLevel : option string;
  ca_buyingSignals : option (list string);
  ca_leadCaptureScore : Q;
  ca_riskFactors : list string;
  ca_positiveSignals : list string
}.

Inductive Recommendation :=
| Product (category : string) (urgency : option string) (reasoning : string)
| CaptureLead (reason : string) (confidence : Q) (aiAnalysis : CaptureAnalysis)
    (conversationDepth : nat)                 (* type 'action', action 'capture_lead' *)
| HumanHandoff (reason : string)              (* type 'action', action 'human_handoff' *)
| ImmediateHumanTransfer.                     (* type 'action', action 'immediate_human_transfer' *)

Record Response := {
  message : string;
  confidence : Q;
  recommendations : list Recommendation;
  usedKnowledge : option Knowledge;           (* [None] is the [{}] of [handleError] *)
  nextState : string
}.

(** [extractRecommendations]; [conversationHistory] is the history before
    the exchange is recorded. *)
Definition extractRecommendations (analysis : Analysis) (knowledge : Knowledge)
    (conversationHistory : list ConversationMessage) (leadReply : LeadScorer.ModelReply)
    : list Recommendation :=
  let messageCount := (length conversationHistory / 2)%nat in
  let leadCaptureAnalysis := LeadScorer.analyzeLeadCaptureIntent messageCount leadReply in
  (match insuranceType analysis with
   | Some (String c s) =>
       if kn_hasProductInfo knowledge
       then [ Product (String c s) (urgencyLevel analysis)
                ("Based on user interest in " +:+ String c s +:+ " insurance") ]
       else []
   | _ => []
   end)
  ++ (if LeadScorer.shouldCapture leadCaptureAnalysis
      then [ CaptureLead ("AI Analysis: " +:+ LeadScorer.reason leadCaptureAnalysis)
               (LeadScorer.confidence leadCaptureAnalysis)
               {| ca_primaryIntent := primaryIntent analysis;
                  ca_urgencyLevel := urgencyLevel analysis;
                  ca_buyingSignals := buyingSignals analysis;
                  ca_leadCaptureScore := LeadScorer.score leadCaptureAnalysis;
                  ca_riskFactors := LeadScorer.riskFactors leadCaptureAnalysis;
                  ca_positiveSignals := LeadScorer.positiveSignals leadCaptureAnalysis |}
               messageCount ]
      else [])
  ++ (if bool_decide (nextBestAction analysis = Some "transfer_human")
         || LeadService.includesInterest (buyingSignals analysis) "decision_authority"
      then [ HumanHandoff "High buying intent detected - ready for human closer" ]
      else []).

Definition handleError : Response :=
  {| message := "I apologize, but I'm having a technical moment! üòÖ Let me connect you with one of our human agents who can help you right away.";
     confidence := 1 # 10;
     recommendations := [ImmediateHumanTransfer];
     usedKnowledge := None;
     nextState := "human_handoff" |}.

(** The field [currentState] of the service, never assigned. *)
Definition currentState : string := "initial_contact".

(** The collaborators of one call: [None] is a call that throws. *)
Record Collaborators := {
  analysisReply : option Analysis;
  knowledge : option Knowledge;               (* [ragService.queryKnowledge] *)
  completion : option string;                 (* the completion of [generateRAGResponse] *)
  leadReply : LeadScorer.ModelReply
}.

Definition processMessage (env : Collaborators)
    (store : gmap string (list ConversationMessage))
    (userId userMessage : string) (now : Z)
    : gmap string (list ConversationMessage) * Response :=
  let analysis := analyzeUserInput (analysisReply env) in
  match knowledge env, completion env with
  | Some knowledge, Some content =>
      let message :=
        Js.strOr (Some content)
          "I apologize, but I need a moment to process that. How can I help you with insurance today?" in
      let recommendations :=
        extractRecommendations analysis knowledge
          (LegacyMemory.getConversationHistory store userId) (leadReply env) in
      (LegacyMemory.updateConversationHistory store userId userMessage message now,
       {| message := message;
          confidence := kn_confidence knowledge;
          recommendations := recommendations;
          usedKnowledge := Some knowledge;
          nextState := currentState |})
  | _, _ => (store, handleError)
  end.

End Simplified.

(** ** The WhatsApp route: from the reply to the captured lead

    [processMessageWithAI] and [handleLeadCapture] of [routes/whatsapp.ts].
    Only the simplified service issues the recommendation the route looks
    for. *)

Module WhatsAppRoute.




End WhatsAppRoute.

(** ** The API client: [withRetry]

    The retry helper of the client that shares the file of the lead
    service. [operation] gives the outcome of the n-th call, counted from 1;
    the pauses between calls are collected instead of slept. *)

Module Api.

(** A rejection, as far as [withRetry] reads it: [error.response?.status]. *)
Record ApiError := {
  responseStatus : option Z;
  errorMessage : string
}.

Inductive Outcome (T : Type) :=
| Resolved (value : T)
| Rejected (error : ApiError).

Arguments Resolved {T} value.
Arguments Rejected {T} error.

(** How [withRetry] settles; [Thrown None] is the [undefined] thrown when
    the loop body never ran. *)
Inductive Settled (T : Type) :=
| Returned (value : T)
| Thrown (error : option ApiError).

Arguments Returned {T} value.
Arguments Thrown {T} error.

Record Run (T : Type) := {
  settled : Settled T;
  calls : nat;               (* how often [operation] was called *)
  waits : list Q             (* the pauses, in milliseconds, in order *)
}.

Arguments settled {T} _.
Arguments calls {T} _.
Arguments waits {T} _.

(** [status >= 400 && status < 500 && status !== 408] *)
Definition isClientError (error : ApiError) : bool :=
  match responseStatus error with
  | Some status => (400 <=? status)%Z && (status <? 500)%Z && negb (status =? 408)%Z
  | None => false
  end.

(** The [for] loop from [attempt] on, with [remaining] iterations left. *)
Fixpoint attempts {T} (operation : nat -> Outcome T) (maxRetries : Z)
    (remaining attempt : nat) (delay : Q) (lastError : option ApiError) (waited : list Q)
    : Run T :=
  match remaining with
  | O => {| settled := Thrown lastError; calls := attempt - 1; waits := waited |}
  | S remaining' =>
      match operation attempt with
      | Resolved value => {| settled := Returned value; calls := attempt; waits := waited |}
      | Rejected error =>
          if isClientError error
          then {| settled := Thrown (Some error); calls := attempt; waits := waited |}
          else if (Z.of_nat attempt <=? maxRetries)%Z
          then attempts operation maxRetries remaining' (S attempt)
                 (delay * (3 # 2)) (Some error) (waited ++ [delay])
          else attempts operation maxRetries remaining' (S attempt)
                 delay (Some error) waited
      end
  end.

(** [withRetry(operation, maxRetries = 2, delay = 1000)] *)
Definition withRetry {T} (operation : nat -> Outcome T) (maxRetries : Z) (delay : Q) : Run T :=
  attempts operation maxRetries (Z.to_nat (maxRetries + 1)) 1 delay None [].

End Api.

(** ** Conversation orchestrator: [processMessage] *)

(** The fields of [AIAnalysis] the orchestrator reads. [analyzeUserInput]
    asks the model and falls back to a default analysis, so it always
    yields one. *)
Record AIAnalysis := {
  primaryIntent : string;
  leadReadiness : string;
  urgency : string;
  emotionalState : string;
  analysisConfidence : Q;
  nextBestAction : string
}.

(** What [enhancedRAG.processMessageWithEnhancedRAG] hands back, as far as
    the orchestrator reads it. [er_recommendations] is the result of
    [convertToLegacyRecommendations]; [None] stands for a response object
    too malformed to build the reply from (a [TypeError] after the history
    update). *)
Record EnhancedRAGResponse := {
  er_message : string;
  er_confidence : Q;
  er_relevanceScore : Q;
  er_customerMatch : Q;
  er_sources : list string;
  er_recommendations : option (list Recommendation)
}.

(** The collaborators of one [processMessage] call. *)
Record Collaborators := {
  enhancedReady : bool;                       (* this.enhancedRAG && this.contextBuilder *)
  enhancedRAG : option EnhancedRAGResponse;   (* None: the call throws *)
  analysis : AIAnalysis;                      (* analyzeUserInput *)
  legacyKnowledge : option (list string);     (* queryLegacyKnowledge sources; None: a step
                                                 before the history update throws *)
  legacyText : string;                        (* generateLegacyResponse *)
  leadReply : LeadScorer.ModelReply           (* the scoring completion *)
}.

Definition fallbackResponse : string :=
"I apologize, but I'm having a technical moment! 🤖 

I'd still love to help you with your insurance needs. Could you please tell me:
- What type of insurance are you looking for? (auto, health, life, business)
- Is this urgent or can we take our time to find the best option?

I'm here to help protect what matters most to you! 🛡️".

Definition handleError (errorMessage : string) : AIResponse :=
  {| message := fallbackResponse; confidence := 3 # 10;
     recommendations :=
       [ {| rec_type := "action"; rec_title := "Gather Basic Information";
            rec_description := "Ask about insurance type and urgency";
            rec_priority := "high" |} ];
     usedKnowledge := Fallback errorMessage;
     nextState := Some "discovery"; nextAction := Some "gather_basic_info";
     premiumQuote := None; leadScore := None; shouldCaptureLead := None |}.

Definition calculateLeadScore (a : AIAnalysis) (enhancedResponse : EnhancedRAGResponse) : Q :=
  let score : Q :=
    ((if String.eqb (leadReadiness a) "hot" then 3
      else if String.eqb (leadReadiness a) "warm" then 2 else 0)
     + (if Js.gtb (er_customerMatch enhancedResponse) (8 # 10) then 2 else 0)
     + (if Js.gtb (er_relevanceScore enhancedResponse) (8 # 10) then 1 else 0)
     + (if String.eqb (urgency a) "high" then 2 else 0))%Q in
  Js.Math_min score 10.

Definition intentScore (intent : string) : Q :=
  if String.eqb intent "purchase_intent" then 4
  else if String.eqb intent "quote_request" then 3
  else if String.eqb intent "price_comparison" then 2
  else if String.eqb intent "information_gathering" then 1
  else if String.eqb intent "general_inquiry" then 1 # 2
  else 0.

Definition calculateLegacyLeadScore (a : AIAnalysis)
    (conversationHistory : list ConversationMessage) : Q :=
  let messageCount := length conversationHistory in
  let score : Q :=
    (intentScore (primaryIntent a)
     + (if String.eqb (leadReadiness a) "qualified" then 3
        else if String.eqb (leadReadiness a) "hot" then 2
        else if String.eqb (leadReadiness a) "warm" then 1 else 0)
     + (if String.eqb (urgency a) "high" then 3 # 2 else 0)
     + (if (4 <? messageCount)%nat then 1 else 0))%Q in
  Js.Math_min score 10.

Definition generateLegacyRecommendations (a : AIAnalysis) : list Recommendation :=
  (if String.eqb (urgency a) "high"
   then [ {| rec_type := "urgent"; rec_title := "Immediate Protection";
             rec_description := "Get covered today with instant quotes";
             rec_priority := "high" |} ]
   else [])
  ++ (if String.eqb (primaryIntent a) "quote_request"
      then [ {| rec_type := "quote"; rec_title := "Premium Calculator";
                rec_description := "Get your personalized insurance quote";
                rec_priority := "high" |} ]
      else []).

Definition determineNextState (a : AIAnalysis) : string :=
  if String.eqb (leadReadiness a) "hot" || String.eqb (primaryIntent a) "purchase_intent"
  then "closing"
  else if String.eqb (primaryIntent a) "quote_request" then "premium_calculation"
  else if String.eqb (emotionalState a) "concerned" || String.eqb (emotionalState a) "frustrated"
  then "objection_handling"
  else if String.eqb (primaryIntent a) "information_gathering" then "presentation"
  else "discovery".

Definition determineNextStateFromAnalysis (a : AIAnalysis) : string :=
  if String.eqb (primaryIntent a) "quote_request" then "premium_calculation"
  else if String.eqb (leadReadiness a) "hot" then "closing"
  else if String.eqb (urgency a) "high" then "presentation"
  else "discovery".

(** ** Keyword helpers of the service *)

(** The [sources] of [queryLegacyKnowledge]. *)
Definition queryLegacyKnowledge (message : string) : list string :=
  (if Js.includes (Js.toLowerCase message) "premium" || Js.includes (Js.toLowerCase message) "cost"
   then ["premium_calculation"] else [])
  ++ (if Js.includes (Js.toLowerCase message) "auto" || Js.includes (Js.toLowerCase message) "car"
      then ["auto_insurance"] else [])
  ++ (if Js.includes (Js.toLowerCase message) "health" then ["health_insurance"] else []).

Definition extractInformationNeeds (message : string) : list string :=
  let lowerMessage := Js.toLowerCase message in
  (if Js.includes lowerMessage "how much" || Js.includes lowerMessage "cost"
   then ["pricing"] else [])
  ++ (if Js.includes lowerMessage "cover" || Js.includes lowerMessage "include"
      then ["coverage_details"] else [])
  ++ (if Js.includes lowerMessage "process" || Js.includes lowerMessage "apply"
      then ["application_process"] else []).

Definition inferInsuranceTypeFromMessage (message : string) : string :=
  let lowerMessage := Js.toLowerCase message in
  if Js.includes lowerMessage "car" || Js.includes lowerMessage "vehicle"
     || Js.includes lowerMessage "auto" then "auto"
  else if Js.includes lowerMessage "health" || Js.includes lowerMessage "medical" then "health"
  else if Js.includes lowerMessage "life" || Js.includes lowerMessage "death" then "life"
  else if Js.includes lowerMessage "business" || Js.includes lowerMessage "commercial"
  then "business"
  else if Js.includes lowerMessage "property" || Js.includes lowerMessage "home" then "property"
  else if Js.includes lowerMessage "travel" || Js.includes lowerMessage "trip" then "travel"
  else "general".

Definition extractProductInterests (message : string) : list string :=
  let lowerMessage := Js.toLowerCase message in
  (if Js.includes lowerMessage "auto" || Js.includes lowerMessage "car" then ["auto"] else [])
  ++ (if Js.includes lowerMessage "health" || Js.includes lowerMessage "medical"
      then ["health"] else [])
  ++ (if Js.includes lowerMessage "life" then ["life"] else [])
  ++ (if Js.includes lowerMessage "business" then ["business"] else [])
  ++ (if Js.includes lowerMessage "property" || Js.includes lowerMessage "home"
      then ["property"] else [])
  ++ (if Js.includes lowerMessage "travel" then ["travel"] else []).

Section ProcessMessage.

Context `{PremiumCalculationService}.
Variable toLocaleString : Q -> string.

(** [processWithEnhancedRAG]: the new store, and the response or [None]
    for the [null] of its [catch] block. *)
Definition processWithEnhancedRAG (env : Collaborators)
    (store : gmap string (list ConversationMessage))
    (userId userMessage : string) (now : Z)
    : gmap string (list ConversationMessage) * option AIResponse :=
  match enhancedRAG env with
  | None => (store, None)
  | Some enhancedRAGResponse =>
      let store :=
        Memory.updateConversationHistory store userId userMessage
          (er_message enhancedRAGResponse) now in
      let leadAnalysis :=
        LeadScorer.shouldCaptureLead (Memory.getConversationHistory store userId)
          (leadReply env) in
      match er_recommendations enhancedRAGResponse with
      | None => (store, None)
      | Some recs =>
          (store,
           Some {| message := er_message enhancedRAGResponse;
                   confidence := er_confidence enhancedRAGResponse;
                   recommendations := recs;
                   usedKnowledge := Sources (er_sources enhancedRAGResponse);
                   nextState := Some (determineNextState (analysis env));
                   nextAction := Some (nextBestAction (analysis env));
                   premiumQuote := None;
                   leadScore := Some (calculateLeadScore (analysis env) enhancedRAGResponse);
                   shouldCaptureLead := Some (LeadScorer.shouldCapture leadAnalysis) |})
      end
  end.

(** [processWithLegacyRAG]: [None] stands for the rethrown error. *)
Definition processWithLegacyRAG (env : Collaborators)
    (store : gmap string (list ConversationMessage))
    (userId userMessage : string) (now : Z)
    : gmap string (list ConversationMessage) * option AIResponse :=
  match legacyKnowledge env with
  | None => (store, None)
  | Some sources =>
      let aiResponse := legacyText env in
      let store := Memory.updateConversationHistory store userId userMessage aiResponse now in
      let conversationHistory := Memory.getConversationHistory store userId in
      let leadAnalysis := LeadScorer.shouldCaptureLead conversationHistory (leadReply env) in
      (store,
       Some {| message := aiResponse;
               confidence := analysisConfidence (analysis env);
               recommendations := generateLegacyRecommendations (analysis env);
               usedKnowledge := Sources sources;
               nextState := Some (determineNextStateFromAnalysis (analysis env));
               nextAction := Some (nextBestAction (analysis env));
               premiumQuote := None;
               leadScore := Some (calculateLegacyLeadScore (analysis env) conversationHistory);
               shouldCaptureLead := Some (LeadScorer.shouldCapture leadAnalysis) |})
  end.

Definition processMessage (env : Collaborators)
    (store : gmap string (list ConversationMessage))
    (userId userMessage : string) (now : Z)
    : gmap string (list ConversationMessage) * AIResponse :=
  (* IMPORTANT: Update conversation history BEFORE processing *)
  let store := Memory.updateConversationHistory store userId userMessage "" now in
  let conversationHistory := Memory.getConversationHistory store userId in
  if isPremiumCalculationRequest userMessage
     || isFollowUpToPremiumCalculation userMessage conversationHistory
  then
    let response := handlePremiumCalculation toLocaleString userMessage conversationHistory in
    (Memory.updateConversationHistoryResponse store userId (message response) now, response)
  else
    let '(store, enhancedResponse) :=
      if enhancedReady env
      then processWithEnhancedRAG env store userId userMessage now
      else (store, None) in
    match enhancedResponse with
    | Some response =>
        (Memory.updateConversationHistoryResponse store userId (message response) now, response)
    | None =>
        match processWithLegacyRAG env store userId userMessage now with
        | (store, Some response) =>
            (Memory.updateConversationHistoryResponse store userId (message response) now,
             response)
        | (store, None) =>
            let errorResponse := handleError "legacy processing failed" in
            (Memory.updateConversationHistoryResponse store userId (message errorResponse) now,
             errorResponse)
        end
    end.

End ProcessMessage.

(** ** The thresholds as the specification words them *)


(** ** Vocabulary of the statements *)

Definition userTurn (text : string) (now : Z) : ConversationMessage :=
  {| role := user; content := text; timestamp := now |}.

Definition assistantTurn (text : string) (now : Z) : ConversationMessage :=
  {| role := assistant; content := text; timestamp := now |}.

(** The four documented ways to state an age, for the number [n]. *)
Definition phrasings (n : Z) : list string :=
  [ "age " +:+ pretty n;
    pretty n +:+ " years old";
    "I am " +:+ pretty n;
    pretty n +:+ ", I will prefer comprehensive" ].


(** What an extractor hands back: numbers under [age], [vehicleValue] and
    [familySize] only, strings under [location], [coverageType] and
    [smokingStatus] only, no list; the location is always set, to one of the six cities, and
    the coverage type to one of the two covers. *)
Definition extractedShape (p : Params) : Prop :=
  (forall k, k ∉ ["age"; "vehicleValue"; "familySize"] -> num p k = None)
  /\ (forall k, k ∉ ["location"; "coverageType"; "smokingStatus"] -> str p k = None)
  /\ (forall k, arr p k = None)
  /\ (exists location,
        str p "location" = Some location /\ location ∈ Extractor.ghanaLocations)
  /\ (exists coverageType,
        str p "coverageType" = Some coverageType
        /\ coverageType ∈ ["comprehensive"; "third_party"]).

(** A pattern whose capturing groups are all of the form [(c{lo,hi})]
    with [hi] at most [limit], for a character class [c]. *)
Inductive capturesUpTo (limit : nat) : Regex.regex -> Prop :=
| cu_Lit s : capturesUpTo limit (Regex.Lit s)
| cu_Cls p : capturesUpTo limit (Regex.Cls p)
| cu_Seq a b : capturesUpTo limit a -> capturesUpTo limit b -> capturesUpTo limit (Regex.Seq a b)
| cu_Alt a b : capturesUpTo limit a -> capturesUpTo limit b -> capturesUpTo limit (Regex.Alt a b)
| cu_Star r : capturesUpTo limit r -> capturesUpTo limit (Regex.Star r)
| cu_LazyStar r : capturesUpTo limit r -> capturesUpTo limit (Regex.LazyStar r)
| cu_Plus r : capturesUpTo limit r -> capturesUpTo limit (Regex.Plus r)
| cu_Opt r : capturesUpTo limit r -> capturesUpTo limit (Regex.Opt r)
| cu_Rep r lo hi : capturesUpTo limit r -> capturesUpTo limit (Regex.Rep r lo hi)
| cu_Group p lo hi :
    (hi <= limit)%nat -> capturesUpTo limit (Regex.Group (Regex.Rep (Regex.Cls p) lo hi))
| cu_WordB : capturesUpTo limit Regex.WordB.

(** The group of a state, if set, holds at most [limit] characters. *)
Definition capturedWithin (limit : nat) (st : Regex.state) : Prop :=
  match Regex.capture st with
  | Some group1 => (length group1 <= limit)%nat
  | None => True
  end.

(** The order of [getLeads]: the higher score first and, at equal scores,
    the later creation date first. *)
Definition ranksBefore (a b : LeadService.Lead) : Prop :=
  (LeadService.score b < LeadService.score a)%Q
  \/ ((LeadService.score b == LeadService.score a)%Q
      /\ (LeadService.createdAt b <= LeadService.createdAt a)%Z).

(** Two leads between which the order does not decide. *)
Definition tiedWith (a b : LeadService.Lead) : bool :=
  Qeq_bool (LeadService.score a) (LeadService.score b)
  && (LeadService.createdAt a =? LeadService.createdAt b)%Z.

(** The three filters of [getLeads] as one test; a filter that is absent,
    empty or zero lets every lead pass. *)
Definition passes (filters : LeadService.LeadFilters) (lead : LeadService.Lead) : bool :=
  (negb (Js.truthyStr (LeadService.f_status filters))
   || bool_decide (Some (LeadService.status lead) = LeadService.f_status filters))
  && (negb (Js.truthyStr (LeadService.f_source filters))
      || bool_decide (Some (LeadService.source lead) = LeadService.f_source filters))
  && (negb (Js.truthyNum (LeadService.f_minScore filters))
      || match LeadService.f_minScore filters with
         | Some minScore => Js.geb (LeadService.score lead) minScore
         | None => true
         end).

(** [n] pauses of an exponential backoff that starts with [delay] and
    grows by half each time. *)
Fixpoint backoff (delay : Q) (n : nat) : list Q :=
  match n with
  | O => []
  | S n' => delay :: backoff (delay * (3 # 2)) n'
  end.

(** A price of [n] thousand cedis, as a customer writes it. *)
Definition priceInThousands (n : Z) : string :=
  "my car is worth " +:+ pretty n +:+ ",000 cedis".

(** Equality of two rationals as fractions is decidable. *)
#[export] Instance Q_eq_dec : EqDecision Q.
Proof. solve_decision. Defined.

(** ** A host to run the pipeline on concrete inputs

    The rule tables of [PremiumCalculationService] and the locale of the
    process are parameters of the embedding. To evaluate the orchestrator
    on a concrete conversation they are instantiated here: [enUS] groups
    digits the way the canned messages of the service do ("14,688"), and
    the figures of [sampleService] are illustrative. *)

Module Sample.

Fixpoint groupDigits (reversed : list ascii) : list ascii :=
  match reversed with
  | a :: b :: c :: (d :: _) as more => a :: b :: c :: ","%char :: groupDigits more
  | short => short
  end.

(** Whole numbers only: the fraction of a non-integer is dropped. *)
Definition enUS (x : Q) : string :=
  let n := Qfloor (Qabs x) in
  (if Qle_bool 0 x then "" else "-")
  +:+ string_of_list_ascii (rev (groupDigits (rev (list_ascii_of_string (pretty n))))).

Definition sampleAuto (i : AutoInput) : option ServiceQuote :=
  match ai_vehicleValue i, ai_driverAge i with
  | Some vehicleValue, Some driverAge =>
      let basePremium : Q := (vehicleValue * (3 # 100))%Q in
      let ageMultiplier : Q :=
        (if Js.ltb driverAge 25 then 5 # 4
         else if Js.ltb driverAge 40 then 1
         else if Js.ltb driverAge 60 then 102 # 100
         else 9 # 8)%Q in
      let locationMultiplier : Q :=
        (if bool_decide (ai_location i = Some "accra") then 12 # 10
         else if bool_decide (ai_location i = Some "kumasi") then 11 # 10
         else 9 # 10)%Q in
      let coverageMultiplier : Q :=
        (if String.eqb (ai_coverageType i) "third_party" then 25 # 1000 else 1)%Q in
      Some {| sq_premium :=
                inject_Z (Js.Math_round
                  (basePremium * ageMultiplier * locationMultiplier * coverageMultiplier));
              sq_breakdown :=
                <["basePremium" := basePremium]>
                  (<["ageMultiplier" := ageMultiplier]>
                    (<["locationMultiplier" := locationMultiplier]>
                      (<["coverageMultiplier" := coverageMultiplier]> ∅))) |}
  | _, _ => None
  end.

Definition sampleHealth (i : HealthInput) : option ServiceQuote :=
  let basePremium : Q :=
    (if String.eqb (hi_planType i) "basic" then 1200
     else if String.eqb (hi_planType i) "premium" then 4800
     else 2400)%Q in
  Some {| sq_premium := inject_Z (Js.Math_round (basePremium * hi_familySize i));
          sq_breakdown := <["basePremium" := basePremium]> ∅ |}.

#[export] Instance sampleService : PremiumCalculationService :=
  {| calculateAutoPremium := sampleAuto; calculateHealthPremium := sampleHealth |}.

Definition quietAnalysis : AIAnalysis :=
  {| primaryIntent := "general_inquiry"; leadReadiness := "cold"; urgency := "medium";
     emotionalState := "neutral"; analysisConfidence := 8 # 10;
     nextBestAction := "continue_nurturing" |}.

(** A deployment without the enhanced services whose completions all
    succeed: the assistant answers [text]. *)
Definition legacyOnly (text : string) : Collaborators :=
  {| enhancedReady := false; enhancedRAG := None; analysis := quietAnalysis;
     legacyKnowledge := Some []; legacyText := text;
     leadReply := LeadScorer.Parsed
       {| LeadScorer.la_shouldCapture := Some false; LeadScorer.la_confidence := Some (7 # 10);
          LeadScorer.la_score := Some 2%Q; LeadScorer.la_reason := Some "Greeting only";
          LeadScorer.la_riskFactors := Some []; LeadScorer.la_positiveSignals := Some [] |} |}.

(** Two exchanges, then a message on which the model advises capture with
    a score of 7. *)
Definition engagedHistory : list ConversationMessage :=
  [ {| role := user; content := "hi"; timestamp := 0 |};
    {| role := assistant; content := "hello"; timestamp := 0 |};
    {| role := user; content := "I need cover for my car"; timestamp := 1 |};
    {| role := assistant; content := "Sure"; timestamp := 1 |} ].


(** A request to [captureLead] whose caller scores on a scale of its own. *)
Definition eagerCaller : LeadService.CaptureLeadData :=
  {| LeadService.cl_userId := "web_42";
     LeadService.cl_contactInfo :=
       {| LeadService.ci_name := Some "Ama"; LeadService.ci_email := None;
          LeadService.ci_phone := None |};
     LeadService.cl_source := "chat";
     LeadService.cl_productInterest := "auto";
     LeadService.cl_score := 150 |}.

(** A lead left through the web form, with every contact detail. *)
Definition webForm : LeadService.LeadData :=
  {| LeadService.ld_name := Some "Kofi"; LeadService.ld_email := Some "kofi@example.com";
     LeadService.ld_phone := Some "+233200000000"; LeadService.ld_source := Some "referral";
     LeadService.ld_interests := Some ["auto"]; LeadService.ld_urgencyLevel := Some "high" |}.

(** The scenario of the specification. *)
Definition carScenario : string :=
  "I am 41 and my car is worth GH₵ 400,000 in Accra, comprehensive".

(** A conversation about a car in which the value and the age come in a
    message that names no product. *)
Definition valueAnswer : string := "The value is 50,000 cedis and I am 41 years old".

Definition carConversation : list ConversationMessage :=
  [ {| role := user; content := "I want to insure my car"; timestamp := 0 |};
    {| role := assistant; content := "Sure, tell me more about your car."; timestamp := 0 |};
    {| role := user; content := valueAnswer; timestamp := 1 |} ].

(** A lead sent without an urgency level. *)
Definition plainForm : LeadService.LeadData :=
  {| LeadService.ld_name := Some "Esi"; LeadService.ld_email := None;
     LeadService.ld_phone := None; LeadService.ld_source := Some "web_form";
     LeadService.ld_interests := Some ["health"]; LeadService.ld_urgencyLevel := None |}.

(** An operation that is rejected twice by the server and then resolves. *)
Definition flaky (attempt : nat) : Api.Outcome string :=
  if (attempt <=? 2)%nat
  then Api.Rejected {| Api.responseStatus := Some 503%Z; Api.errorMessage := "unavailable" |}
  else Api.Resolved "done".

(** A request that leaves only the age open, the question the service
    answers it with, and the customer's reply to that question. *)
Definition valueGiven : string := "I want car insurance, my car is worth 400,000 cedis".

Definition ageQuestion : string :=
  message (handlePremiumCalculation (H := sampleService) enUS valueGiven
             [ {| role := user; content := valueGiven; timestamp := 0 |} ]).

Definition ageAnswered : list ConversationMessage :=
  [ {| role := user; content := valueGiven; timestamp := 0 |};
    {| role := assistant; content := ageQuestion; timestamp := 0 |};
    {| role := user; content := "ok I am 41"; timestamp := 1 |} ].

End Sample.

(** * Properties *)

(** ** Facts about the JavaScript primitives *)



Lemma clamp_lower (lo hi x : Q) : (lo <= hi)%Q -> (lo <= Js.Math_min hi (Js.Math_max lo x))%Q.
Proof.
  intros L. unfold Js.Math_min, Js.Math_max.
  apply Q.min_glb; [exact L | apply Q.le_max_l].
Qed.

Lemma clamp_upper (lo hi x : Q) : (Js.Math_min hi (Js.Math_max lo x) <= hi)%Q.
Proof. unfold Js.Math_min. apply Q.le_min_l. Qed.


(** ** Facts about substrings *)

Lemma prefix_append (a b : string) : String.prefix a (a +:+ b) = true.
Proof.
  induction a as [|c a IH]; simpl.
  - destruct b; reflexivity.
  - rewrite IH. destruct (ascii_dec c c); [reflexivity | congruence].
Qed.






(** ** The bounded window of the conversation memory *)

Section KeepLast.
Context {A : Type}.
Implicit Types (l m : list A) (bound : nat).

Lemma keepLast_lastN bound l : keepLast bound l = lastN bound l.
Proof.
  unfold keepLast, lastN. destruct (Nat.ltb_spec bound (length l)) as [L|L]; [done|].
  replace (length l - bound)%nat with 0%nat by lia. done.
Qed.

Lemma keepLast_length bound l : (length (keepLast bound l) <= bound)%nat.
Proof. rewrite keepLast_lastN. unfold lastN. rewrite length_drop. lia. Qed.

(** Truncating, appending and truncating again keeps the same window as
    truncating the whole log once. *)
Lemma keepLast_app_keepLast bound l m :
  keepLast bound (keepLast bound l ++ m) = keepLast bound (l ++ m).
Proof.
  rewrite !keepLast_lastN. unfold lastN. rewrite !length_app, length_drop.
  destruct (Nat.le_gt_cases (length l) bound) as [L|L].
  - replace (length l - bound)%nat with 0%nat by lia.
    rewrite Nat.sub_0_r. done.
  - rewrite !drop_app, drop_drop, length_drop. f_equal; f_equal; lia.
Qed.

(** The window is a suffix of the log: what is kept is what came last, in
    the order it came. *)
Lemma lastN_suffix bound l : exists evicted, l = evicted ++ lastN bound l.
Proof.
  exists (take (length l - bound) l). unfold lastN. symmetry. apply take_drop.
Qed.

End KeepLast.

Lemma memory_run_snoc updates u :
  Memory.run (updates ++ [u]) = Memory.apply (Memory.run updates) u.
Proof. unfold Memory.run. by rewrite fold_left_app. Qed.

Lemma memory_transcript_snoc userId updates u :
  Memory.transcript userId (updates ++ [u])
  = Memory.transcript userId updates
    ++ (if String.eqb (Memory.target u) userId then Memory.appended u else []).
Proof.
  induction updates as [|v updates IH]; simpl.
  - by rewrite app_nil_r.
  - rewrite IH. by rewrite app_assoc.
Qed.

Lemma memory_apply_target store u :
  Memory.getConversationHistory (Memory.apply store u) (Memory.target u)
  = keepLast 20 (Memory.getConversationHistory store (Memory.target u) ++ Memory.appended u).
Proof.
  destruct u; simpl;
    unfold Memory.updateConversationHistory, Memory.updateConversationHistoryResponse,
      Memory.getConversationHistory; by rewrite lookup_insert_eq.
Qed.

Lemma memory_apply_other store u userId :
  Memory.target u <> userId ->
  Memory.getConversationHistory (Memory.apply store u) userId
  = Memory.getConversationHistory store userId.
Proof.
  intros Hne. destruct u; simpl in *;
    unfold Memory.updateConversationHistory, Memory.updateConversationHistoryResponse,
      Memory.getConversationHistory; by rewrite lookup_insert_ne.
Qed.

Lemma memory_window updates userId :
  Memory.getConversationHistory (Memory.run updates) userId
  = keepLast 20 (Memory.transcript userId updates).
Proof.
  induction updates as [|u updates IH] using rev_ind; [done|].
  rewrite memory_run_snoc, memory_transcript_snoc.
  destruct (String.eqb_spec (Memory.target u) userId) as [<-|Hne].
  - rewrite memory_apply_target, IH. apply keepLast_app_keepLast.
  - rewrite memory_apply_other by done. by rewrite app_nil_r.
Qed.

Lemma legacy_run_snoc updates u :
  LegacyMemory.run (updates ++ [u]) = LegacyMemory.apply (LegacyMemory.run updates) u.
Proof. unfold LegacyMemory.run. by rewrite fold_left_app. Qed.

Lemma legacy_transcript_snoc userId updates u :
  LegacyMemory.transcript userId (updates ++ [u])
  = LegacyMemory.transcript userId updates
    ++ (if String.eqb (LegacyMemory.upd_userId u) userId
        then LegacyMemory.pushed (LegacyMemory.upd_userMessage u)
               (LegacyMemory.upd_aiResponse u) (LegacyMemory.upd_now u)
        else []).
Proof.
  induction updates as [|v updates IH]; simpl.
  - by rewrite app_nil_r.
  - rewrite IH. by rewrite app_assoc.
Qed.

Lemma legacy_window updates userId :
  LegacyMemory.getConversationHistory (LegacyMemory.run updates) userId
  = keepLast 10 (LegacyMemory.transcript userId updates).
Proof.
  induction updates as [|u updates IH] using rev_ind; [done|].
  rewrite legacy_run_snoc, legacy_transcript_snoc.
  unfold LegacyMemory.apply, LegacyMemory.updateConversationHistory.
  destruct (String.eqb_spec (LegacyMemory.upd_userId u) userId) as [<-|Hne].
  - unfold LegacyMemory.getConversationHistory at 1. rewrite lookup_insert_eq. simpl.
    rewrite IH. apply keepLast_app_keepLast.
  - unfold LegacyMemory.getConversationHistory at 1. rewrite lookup_insert_ne by done.
    fold (LegacyMemory.getConversationHistory (LegacyMemory.run updates) userId).
    by rewrite IH, app_nil_r.
Qed.

(** C3. After any sequence of history updates, the stored history of every
    user holds at most 20 messages (10 in the simplified service), and it is
    exactly the last 20 (resp. 10) of the messages appended for that user,
    in the order they were appended. *)
Theorem history_is_bounded_fifo_window :
  (forall (updates : list Memory.Update) (userId : string),
     let history := Memory.getConversationHistory (Memory.run updates) userId in
     (length history <= 20)%nat
     /\ history = lastN 20 (Memory.transcript userId updates)
     /\ exists evicted, Memory.transcript userId updates = evicted ++ history)
  /\
  (forall (updates : list LegacyMemory.Update) (userId : string),
     let history := LegacyMemory.getConversationHistory (LegacyMemory.run updates) userId in
     (length history <= 10)%nat
     /\ history = lastN 10 (LegacyMemory.transcript userId updates)
     /\ exists evicted, LegacyMemory.transcript userId updates = evicted ++ history).
Proof.
  split; intros updates userId; cbv zeta.
  - rewrite memory_window. split; [apply keepLast_length|].
    rewrite keepLast_lastN. split; [done | apply lastN_suffix].
  - rewrite legacy_window. split; [apply keepLast_length|].
    rewrite keepLast_lastN. split; [done | apply lastN_suffix].
Qed.

(** ** The lead scorer *)

Section LeadScorerFacts.
Import LeadScorer.

Lemma validate_score (messageCount : nat) (leadAnalysis : ParsedLeadAnalysis) :
  score (validate messageCount leadAnalysis)
  = Js.Math_min 10 (Js.Math_max 0 (Js.numOr (la_score leadAnalysis) 0)).
Proof.
  unfold validate. cbn zeta.
  repeat match goal with |- context [if ?c then _ else _] => destruct c end; reflexivity.
Qed.

Lemma validate_confidence (messageCount : nat) (leadAnalysis : ParsedLeadAnalysis) :
  confidence (validate messageCount leadAnalysis)
  = Js.Math_min 1 (Js.Math_max 0 (Js.numOr (la_confidence leadAnalysis) (1 # 2))).
Proof.
  unfold validate. cbn zeta.
  repeat match goal with |- context [if ?c then _ else _] => destruct c end; reflexivity.
Qed.





(** The results of the scorer are clamped. *)
Lemma decide_ranges (messageCount : nat) (modelReply : ModelReply) :
  (0 <= score (decide messageCount modelReply) <= 10)%Q
  /\ (0 <= confidence (decide messageCount modelReply) <= 1)%Q.
Proof.
  destruct modelReply as [| |leadAnalysis]; cbn [decide];
    try (cbn; repeat split; lra).
  rewrite validate_score, validate_confidence.
  repeat split; first [apply clamp_lower; lra | apply clamp_upper].
Qed.

End LeadScorerFacts.





(** ** The lead service *)

Lemma bonus_bounds (condition : bool) (points : Q) :
  (0 <= points)%Q -> (0 <= LeadService.bonus condition points <= points)%Q.
Proof. intros P. unfold LeadService.bonus. destruct condition; lra. Qed.

Lemma createLead_score (leads : gmap string LeadService.Lead)
    (leadData : LeadService.LeadData) (leadId : string) (now : Z) :
  let lead := snd (LeadService.createLead leads leadData leadId now) in
  fst (LeadService.createLead leads leadData leadId now) !! leadId = Some lead
  /\ (0 <= LeadService.score lead <= 100)%Q.
Proof.
  cbn. split; [apply lookup_insert_eq|].
  unfold LeadService.calculateLeadScore.
  split; [apply clamp_lower; lra | apply clamp_upper].
Qed.

Lemma whatsapp_score_bounds (aiConfidence : Q) (aiAnalysis : option WhatsApp.Signals) :
  (0 <= WhatsApp.calculateWhatsAppLeadScore aiConfidence aiAnalysis <= 100)%Q.
Proof.
  unfold WhatsApp.calculateWhatsAppLeadScore.
  split; [apply clamp_lower; lra | apply clamp_upper].
Qed.

Lemma captureLead_score (leads : gmap string LeadService.Lead)
    (leadData : LeadService.CaptureLeadData) (leadId : string) (now : Z) :
  let lead := snd (LeadService.captureLead leads leadData leadId now) in
  fst (LeadService.captureLead leads leadData leadId now) !! leadId = Some lead
  /\ LeadService.score lead = LeadService.cl_score leadData.
Proof. cbn. split; [apply lookup_insert_eq | reflexivity]. Qed.

(** C8. The specification has the score of every stored lead in [0, 100],
    for [captureLead] as for [createLead]. [captureLead] stores the score
    of the request as it comes: a request with a score of 150 leaves a lead
    with a score of 150 in the store. *)
Theorem captureLead_score_not_clamped :
  let leads := fst (LeadService.captureLead ∅ Sample.eagerCaller "lead_1" 0) in
  exists lead, leads !! "lead_1" = Some lead
               /\ LeadService.score lead = 150%Q
               /\ ~ (LeadService.score lead <= 100)%Q.
Proof.
  cbv zeta. eexists. split; [apply lookup_insert_eq|].
  split; [reflexivity|].
  cbn. intros Hle. revert Hle. compute. intros Hle. apply Hle. reflexivity.
Qed.

(** The clamps that are in place: the scorer's result has its score in
    [0, 10] and its confidence in [0, 1] whatever the analysis returned; a
    lead made by [createLead] has its score in [0, 100]; [captureLead]
    stores the score it is handed, so the stored score is in [0, 100] when
    the caller's is, as it is for the WhatsApp route, which clamps its
    score before calling. *)
Lemma lead_scores_are_clamped
    (messageCount : nat) (modelReply : LeadScorer.ModelReply)
    (conversationHistory : list ConversationMessage)
    (leads : gmap string LeadService.Lead)
    (created : LeadService.LeadData) (captured : LeadService.CaptureLeadData)
    (leadId : string) (now : Z)
    (phoneNumber productInterest : string) (aiConfidence : Q)
    (aiAnalysis : option WhatsApp.Signals) :
  (0 <= LeadScorer.score (LeadScorer.analyzeLeadCaptureIntent messageCount modelReply) <= 10)%Q
  /\ (0 <= LeadScorer.confidence
             (LeadScorer.analyzeLeadCaptureIntent messageCount modelReply) <= 1)%Q
  /\ (0 <= LeadScorer.score
             (LeadScorer.shouldCaptureLead conversationHistory modelReply) <= 10)%Q
  /\ (0 <= LeadScorer.confidence
             (LeadScorer.shouldCaptureLead conversationHistory modelReply) <= 1)%Q
  /\ (forall lead,
        fst (LeadService.createLead leads created leadId now) !! leadId = Some lead ->
        (0 <= LeadService.score lead <= 100)%Q)
  /\ (forall lead,
        fst (LeadService.captureLead leads captured leadId now) !! leadId = Some lead ->
        LeadService.score lead = LeadService.cl_score captured)
  /\ (forall lead,
        fst (LeadService.captureLead leads
               (WhatsApp.leadDataFor phoneNumber productInterest aiConfidence aiAnalysis)
               leadId now) !! leadId = Some lead ->
        (0 <= LeadService.score lead <= 100)%Q).
Proof.
  unfold LeadScorer.analyzeLeadCaptureIntent, LeadScorer.shouldCaptureLead.
  pose proof (decide_ranges messageCount modelReply) as [S1 C1].
  pose proof (decide_ranges (length conversationHistory / 2) modelReply) as [S2 C2].
  split; [exact S1|]. split; [exact C1|]. split; [exact S2|]. split; [exact C2|].
  split; [|split].
  - intros lead Stored.
    destruct (createLead_score leads created leadId now) as [Stored' Range].
    cbv zeta in *. congruence.
  - intros lead Stored.
    destruct (captureLead_score leads captured leadId now) as [Stored' Same].
    cbv zeta in *. congruence.
  - intros lead Stored.
    destruct (captureLead_score leads
                (WhatsApp.leadDataFor phoneNumber productInterest aiConfidence aiAnalysis)
                leadId now) as [Stored' Same].
    cbv zeta in *.
    assert (LeadService.score lead
            = WhatsApp.calculateWhatsAppLeadScore aiConfidence aiAnalysis) as ->
      by (rewrite Stored in Stored'; injection Stored' as ->; exact Same).
    apply whatsapp_score_bounds.
Qed.

Lemma webForm_lead_score_in_range :
  (0 <= LeadService.score (snd (LeadService.createLead ∅ Sample.webForm "lead_2" 0)) <= 100)%Q.
Proof.
  pose proof (lead_scores_are_clamped 0 LeadScorer.Unparseable [] ∅ Sample.webForm
                Sample.eagerCaller "lead_2" 0 "233200000000" "auto" (9 # 10) None) as Fact.
  destruct Fact as (_ & _ & _ & _ & Created & _).
  apply Created. apply lookup_insert_eq.
Defined.

(** ** The premium calculator *)






(** C10, as stated, fails when [driverAge] stands in for [age]: with a
    vehicle value, a driver age and a location the check still fails. *)
Lemma driver_age_does_not_stand_in_for_age :
  let params :=
    setNum "vehicleValue" 400000 (setNum "driverAge" 41 (setStr "location" "accra" noParams)) in
  truthy params "vehicleValue" = true
  /\ truthy params "driverAge" = true
  /\ truthy params "location" = true
  /\ success (calculatePremium (H := Sample.sampleService) "auto" params) = false.
Proof. cbv zeta. repeat split; vm_compute; reflexivity. Qed.

(** C10 (amended). For auto insurance, and a rules service that answers,
    [calculatePremium] returns a quote exactly when [vehicleValue], [age]
    and [location] are truthy ([driverAge] is not looked at by the check).
    [coverageType] is listed as required by [getRequiredParametersForType]
    but plays no part in the check: without it the calculation runs with
    "comprehensive", and without a driving history with "clean". *)
Theorem auto_quote_needs_value_age_location `{PremiumCalculationService}
    (insuranceType : string) (params : Params) :
  Js.toLowerCase insuranceType = "auto" ->
  is_Some (calculateAutoPremium (autoInput params)) ->
  (success (calculatePremium insuranceType params) = true
   <-> truthy params "vehicleValue" = true
       /\ truthy params "age" = true
       /\ truthy params "location" = true)
  /\ "coverageType" ∈ getRequiredParametersForType insuranceType
  /\ (Js.truthyStr (str params "coverageType") = false ->
      Js.truthyStr (str params "coverage_type") = false ->
      ai_coverageType (autoInput params) = "comprehensive")
  /\ (Js.truthyStr (str params "drivingHistory") = false ->
      Js.truthyStr (str params "driving_history") = false ->
      ai_drivingHistory (autoInput params) = "clean").
Proof.
  intros Auto [quote Answer]. split; [|split; [|split]].
  - unfold calculatePremium. rewrite Auto. cbn [String.eqb Ascii.eqb Bool.eqb].
    unfold hasRequiredAutoParams. rewrite Answer.
    destruct (truthy params "vehicleValue"), (truthy params "age"),
      (truthy params "location"); cbn; split; intros; intuition congruence.
  - unfold getRequiredParametersForType. rewrite Auto. cbn. set_solver.
  - intros NoType NoAlias. cbn [autoInput ai_coverageType]. unfold Js.orStr.
    rewrite NoType. unfold Js.strOr.
    destruct (str params "coverage_type") as [[|]|]; [reflexivity | discriminate | reflexivity].
  - intros NoHistory NoAlias. cbn [autoInput ai_drivingHistory]. unfold Js.orStr.
    rewrite NoHistory. unfold Js.strOr.
    destruct (str params "driving_history") as [[|]|]; [reflexivity | discriminate | reflexivity].
Qed.

Lemma auto_quote_needs_value_age_location_witness :
  let params :=
    setNum "vehicleValue" 400000 (setNum "age" 41 (setStr "location" "accra" noParams)) in
  success (calculatePremium (H := Sample.sampleService) "auto" params) = true
  /\ ai_coverageType (autoInput params) = "comprehensive".
Proof.
  cbv zeta.
  destruct (auto_quote_needs_value_age_location (H := Sample.sampleService) "auto"
              (setNum "vehicleValue" 400000
                 (setNum "age" 41 (setStr "location" "accra" noParams))))
    as (Iff & _ & Coverage & _); [reflexivity | eexists; reflexivity |].
  split; [apply Iff; repeat split; reflexivity | apply Coverage; reflexivity].
Defined.

(** ** The texts of the premium branch *)








Section PremiumTexts.

Variable toLocaleString : Q -> string.






End PremiumTexts.



(** ** The parameter-collection prompt *)






(** ** The age extractor *)

Lemma num_setStr (k v j : string) (p : Params) : num (setStr k v p) j = num p j.
Proof. reflexivity. Qed.

Lemma num_setOpt_same (k : string) (v : option Z) (p : Params) :
  num p k = None -> num (Extractor.setOpt k v p) k = inject_Z <$> v.
Proof.
  intros Fresh. destruct v as [n|]; cbn; [|exact Fresh].
  unfold num. cbn. apply lookup_insert_eq.
Qed.

Lemma num_setOpt_other (k j : string) (v : option Z) (p : Params) :
  k <> j -> num (Extractor.setOpt k v p) j = num p j.
Proof.
  intros Other. destruct v as [n|]; [|reflexivity].
  unfold num. cbn. by rewrite lookup_insert_ne.
Qed.

Lemma extracted_age_field (message : string) :
  num (Extractor.extractPremiumParameters message) "age"
  = inject_Z <$> Extractor.firstAge Extractor.agePatterns message.
Proof.
  unfold Extractor.extractPremiumParameters. cbv zeta.
  destruct (Js.includes (Js.toLowerCase message) "smoker"); rewrite ?num_setStr;
    destruct (Regex.matchRe _ _ message);
    rewrite ?num_setOpt_other, ?num_setStr, ?num_setOpt_other by done;
    by apply num_setOpt_same.
Qed.

(** The scenario of the specification: "I am 41 and my car is worth
    GH₵ 400,000 in Accra, comprehensive". *)
Example scenario_extraction :
  let params :=
    Extractor.extractPremiumParameters
      "I am 41 and my car is worth GH₵ 400,000 in Accra, comprehensive" in
  num params "age" = Some 41%Q
  /\ num params "vehicleValue" = Some 400000%Q
  /\ str params "location" = Some "accra"
  /\ str params "coverageType" = Some "comprehensive".
Proof. cbv zeta. repeat split; vm_compute; reflexivity. Qed.

(** Every age from 16 to 99 is extracted as written, in each phrasing. *)
Lemma two_digit_ages_are_extracted (n : Z) (text : string) :
  (16 <= n <= 99)%Z -> text ∈ phrasings n ->
  num (Extractor.extractPremiumParameters text) "age" = Some (inject_Z n).
Proof.
  intros Range Phrased. rewrite extracted_age_field.
  assert (Forall (fun n => Forall (fun text =>
            Extractor.firstAge Extractor.agePatterns text = Some n) (phrasings n))
          (seqZ 16 84)) as Checked.
  { apply (bool_decide_unpack _). vm_compute. exact I. }
  rewrite Forall_forall in Checked.
  specialize (Checked n). rewrite elem_of_seqZ in Checked.
  specialize (Checked ltac:(lia)). rewrite Forall_forall in Checked.
  by rewrite (Checked text Phrased).
Qed.

(** Ages below 16 are dropped, in each phrasing. *)
Lemma small_ages_are_discarded (n : Z) (text : string) :
  (0 <= n <= 15)%Z -> text ∈ phrasings n ->
  num (Extractor.extractPremiumParameters text) "age" = None.
Proof.
  intros Range Phrased. rewrite extracted_age_field.
  assert (Forall (fun n => Forall (fun text =>
            Extractor.firstAge Extractor.agePatterns text = None) (phrasings n))
          (seqZ 0 16)) as Checked.
  { apply (bool_decide_unpack _). vm_compute. exact I. }
  rewrite Forall_forall in Checked.
  specialize (Checked n). rewrite elem_of_seqZ in Checked.
  specialize (Checked ltac:(lia)). rewrite Forall_forall in Checked.
  by rewrite (Checked text Phrased).
Qed.

(** A three-digit value after "age" is cut to its first two digits, which
    are kept when they make an age from 16 on and dropped otherwise; the
    value itself is never returned. *)
Lemma three_digit_ages_are_cut (n : Z) :
  (100 <= n <= 999)%Z ->
  num (Extractor.extractPremiumParameters ("age " +:+ pretty n)) "age"
  = if (16 <=? n / 10)%Z then Some (inject_Z (n / 10)) else None.
Proof.
  intros Range. rewrite extracted_age_field.
  assert (Forall (fun n =>
            Extractor.firstAge Extractor.agePatterns ("age " +:+ pretty n)
            = if (16 <=? n / 10)%Z then Some (n / 10)%Z else None)
          (seqZ 100 900)) as Checked.
  { apply (bool_decide_unpack _). vm_compute. exact I. }
  rewrite Forall_forall in Checked.
  specialize (Checked n). rewrite elem_of_seqZ in Checked.
  rewrite (Checked ltac:(lia)). by destruct (16 <=? n / 10)%Z.
Qed.

(** C4. The specification has 100 extracted from "age 100" and no age from
    a value above 100. The patterns capture at most two digits: 100 is
    read as 10 and dropped, and a three-digit value is cut to the digits
    the pattern reaches, which may be in range. *)
Theorem age_capture_stops_at_two_digits :
  num (Extractor.extractPremiumParameters "age 100") "age" = None
  /\ num (Extractor.extractPremiumParameters "I am 100 years old") "age" = None
  /\ num (Extractor.extractPremiumParameters "age 250") "age" = Some 25%Q
  /\ num (Extractor.extractPremiumParameters "I am 150 years old") "age" = Some 50%Q.
Proof. repeat split; vm_compute; reflexivity. Qed.

(** ** [processMessage] and the conversation memory *)

Section Turns.

Context `{PremiumCalculationService}.
Variable toLocaleString : Q -> string.

Lemma history_after_update store userId userMessage aiResponse now :
  Memory.getConversationHistory
    (Memory.updateConversationHistory store userId userMessage aiResponse now) userId
  = keepLast 20 (Memory.getConversationHistory store userId
                 ++ Memory.pushedByUpdate userMessage aiResponse now).
Proof.
  unfold Memory.updateConversationHistory. unfold Memory.getConversationHistory at 1.
  by rewrite lookup_insert_eq.
Qed.

Lemma history_after_response store userId aiResponse now :
  Memory.getConversationHistory
    (Memory.updateConversationHistoryResponse store userId aiResponse now) userId
  = keepLast 20 (Memory.getConversationHistory store userId ++ [assistantTurn aiResponse now]).
Proof.
  unfold Memory.updateConversationHistoryResponse. unfold Memory.getConversationHistory at 1.
  by rewrite lookup_insert_eq.
Qed.

(** On the premium branch each turn is recorded once. *)
Lemma premium_branch_records_once (env : Collaborators)
    (store : gmap string (list ConversationMessage)) (userId userMessage : string) (now : Z) :
  let before := Memory.getConversationHistory store userId in
  let seen := keepLast 20 (before ++ [userTurn userMessage now]) in
  let result := processMessage toLocaleString env store userId userMessage now in
  isPremiumCalculationRequest userMessage
  || isFollowUpToPremiumCalculation userMessage seen = true ->
  snd result = handlePremiumCalculation toLocaleString userMessage seen
  /\ Memory.getConversationHistory (fst result) userId
     = keepLast 20 (seen ++ [assistantTurn (message (snd result)) now]).
Proof.
  cbv zeta. intros Premium. unfold processMessage. cbv zeta.
  rewrite history_after_update. change (Memory.pushedByUpdate userMessage "" now)
    with [userTurn userMessage now].
  rewrite Premium. cbn [fst snd]. split; [reflexivity|].
  by rewrite history_after_response, history_after_update.
Qed.

(** On the legacy branch the user turn and the reply are each recorded
    twice: once by [processWithLegacyRAG], once by [processMessage]. *)
Lemma legacy_branch_records_twice (env : Collaborators)
    (store : gmap string (list ConversationMessage)) (userId userMessage : string) (now : Z)
    (sources : list string) :
  let before := Memory.getConversationHistory store userId in
  let seen := keepLast 20 (before ++ [userTurn userMessage now]) in
  let result := processMessage toLocaleString env store userId userMessage now in
  isPremiumCalculationRequest userMessage
  || isFollowUpToPremiumCalculation userMessage seen = false ->
  enhancedReady env = false ->
  legacyKnowledge env = Some sources ->
  legacyText env <> "" ->
  message (snd result) = legacyText env
  /\ Memory.getConversationHistory (fst result) userId
     = keepLast 20
         (keepLast 20 (seen ++ [userTurn userMessage now; assistantTurn (legacyText env) now])
          ++ [assistantTurn (legacyText env) now]).
Proof.
  cbv zeta. intros Generic NoEnhanced Knowledge Text. unfold processMessage. cbv zeta.
  rewrite history_after_update. change (Memory.pushedByUpdate userMessage "" now)
    with [userTurn userMessage now].
  rewrite Generic, NoEnhanced. unfold processWithLegacyRAG. rewrite Knowledge.
  cbn [fst snd message]. split; [reflexivity|].
  rewrite history_after_response, !history_after_update.
  unfold Memory.pushedByUpdate at 1.
  destruct (legacyText env) as [|c text] eqn:E; [done|]. reflexivity.
Qed.

(** So it is on the enhanced branch, where [processWithEnhancedRAG] does
    the second recording. *)
Lemma enhanced_branch_records_twice (env : Collaborators)
    (store : gmap string (list ConversationMessage)) (userId userMessage : string) (now : Z)
    (answer : EnhancedRAGResponse) (recs : list Recommendation) :
  let before := Memory.getConversationHistory store userId in
  let seen := keepLast 20 (before ++ [userTurn userMessage now]) in
  let result := processMessage toLocaleString env store userId userMessage now in
  isPremiumCalculationRequest userMessage
  || isFollowUpToPremiumCalculation userMessage seen = false ->
  enhancedReady env = true ->
  enhancedRAG env = Some answer ->
  er_recommendations answer = Some recs ->
  er_message answer <> "" ->
  message (snd result) = er_message answer
  /\ Memory.getConversationHistory (fst result) userId
     = keepLast 20
         (keepLast 20 (seen ++ [userTurn userMessage now; assistantTurn (er_message answer) now])
          ++ [assistantTurn (er_message answer) now]).
Proof.
  cbv zeta. intros Generic Ready Answer Recs Text. unfold processMessage. cbv zeta.
  rewrite history_after_update. change (Memory.pushedByUpdate userMessage "" now)
    with [userTurn userMessage now].
  rewrite Generic, Ready. unfold processWithEnhancedRAG. rewrite Answer, Recs.
  cbn [fst snd message]. split; [reflexivity|].
  rewrite history_after_response, !history_after_update.
  unfold Memory.pushedByUpdate at 1.
  destruct (er_message answer) as [|c text] eqn:E; [done|]. reflexivity.
Qed.

(** On the error path the apology is recorded as the assistant turn. *)
Lemma error_path_records_apology (env : Collaborators)
    (store : gmap string (list ConversationMessage)) (userId userMessage : string) (now : Z) :
  let before := Memory.getConversationHistory store userId in
  let seen := keepLast 20 (before ++ [userTurn userMessage now]) in
  let result := processMessage toLocaleString env store userId userMessage now in
  isPremiumCalculationRequest userMessage
  || isFollowUpToPremiumCalculation userMessage seen = false ->
  enhancedReady env = false ->
  legacyKnowledge env = None ->
  message (snd result) = fallbackResponse
  /\ Memory.getConversationHistory (fst result) userId
     = keepLast 20 (seen ++ [assistantTurn fallbackResponse now]).
Proof.
  cbv zeta. intros Generic NoEnhanced Knowledge. unfold processMessage. cbv zeta.
  rewrite history_after_update. change (Memory.pushedByUpdate userMessage "" now)
    with [userTurn userMessage now].
  rewrite Generic, NoEnhanced. unfold processWithLegacyRAG. rewrite Knowledge.
  cbn [fst snd message handleError]. split; [reflexivity|].
  by rewrite history_after_response, history_after_update.
Qed.

End Turns.

(** C5. The specification has one user turn and one assistant turn recorded
    per message on every path. On the legacy path a first message "hello"
    answered "Hi there!" leaves four entries in the history: the user turn
    twice and the reply twice. *)
Theorem legacy_path_records_each_turn_twice :
  let result :=
    processMessage (H := Sample.sampleService) Sample.enUS
      (Sample.legacyOnly "Hi there!") ∅ "u1" "hello" 0 in
  message (snd result) = "Hi there!"
  /\ Memory.getConversationHistory (fst result) "u1"
     = [ {| role := user; content := "hello"; timestamp := 0 |};
         {| role := user; content := "hello"; timestamp := 0 |};
         {| role := assistant; content := "Hi there!"; timestamp := 0 |};
         {| role := assistant; content := "Hi there!"; timestamp := 0 |} ].
Proof. cbv zeta. split; vm_compute; reflexivity. Qed.

(** * Further properties of the services *)

(** ** One call of [processMessage] *)

Lemma keepLast_snoc_last {A} (bound : nat) (l : list A) (x : A) :
  (0 < bound)%nat -> last (keepLast bound (l ++ [x])) = Some x.
Proof.
  intros Positive. unfold keepLast. rewrite length_app. cbn [length].
  destruct (bound <? length l + 1)%nat eqn:Long; [|apply last_snoc].
  apply Nat.ltb_lt in Long.
  rewrite drop_app_le by lia. apply last_snoc.
Qed.

Lemma keepLast_snoc_length {A} (bound : nat) (l : list A) (x : A) :
  (2 <= bound)%nat -> l <> [] -> (2 <= length (keepLast bound (l ++ [x])) <= bound)%nat.
Proof.
  intros Two Filled. split; [|apply keepLast_length].
  assert (1 <= length l)%nat by (destruct l; [done | cbn; lia]).
  unfold keepLast. rewrite length_app. cbn [length].
  destruct (bound <? length l + 1)%nat eqn:Long.
  - apply Nat.ltb_lt in Long. rewrite length_drop, length_app. cbn [length]. lia.
  - rewrite length_app. cbn [length]. lia.
Qed.

Lemma keepLast_nonempty {A} (bound : nat) (l : list A) :
  (0 < bound)%nat -> l <> [] -> keepLast bound l <> [].
Proof.
  intros Positive Filled Empty.
  assert (length (keepLast bound l) = 0%nat) as Zero by (by rewrite Empty).
  assert (1 <= length l)%nat by (destruct l; [done | cbn; lia]).
  unfold keepLast in Zero. destruct (bound <? length l)%nat eqn:Long.
  - apply Nat.ltb_lt in Long. rewrite length_drop in Zero. lia.
  - lia.
Qed.

Lemma history_after_update_nonempty store userId userMessage aiResponse now :
  Memory.getConversationHistory
    (Memory.updateConversationHistory store userId userMessage aiResponse now) userId <> [].
Proof.
  rewrite history_after_update. apply keepLast_nonempty; [lia|].
  unfold Memory.pushedByUpdate. by destruct (Memory.getConversationHistory store userId).
Qed.

Section OneCall.

Context `{PremiumCalculationService}.
Variable toLocaleString : Q -> string.

(** What every path of [processMessage] ends with: a store in which a
    non-empty history has been extended by the reply. *)
Lemma processMessage_ends_with_response (env : Collaborators)
    (store : gmap string (list ConversationMessage)) (userId userMessage : string) (now : Z) :
  exists earlier,
    Memory.getConversationHistory earlier userId <> []
    /\ (forall other, other <> userId -> earlier !! other = store !! other)
    /\ fst (processMessage toLocaleString env store userId userMessage now)
       = Memory.updateConversationHistoryResponse earlier userId
           (message (snd (processMessage toLocaleString env store userId userMessage now))) now.
Proof.
  unfold processMessage. cbv zeta.
  set (first := Memory.updateConversationHistory store userId userMessage "" now).
  assert (forall other, other <> userId -> first !! other = store !! other) as Apart.
  { intros other Other. unfold first, Memory.updateConversationHistory.
    by rewrite lookup_insert_ne. }
  assert (forall text other, other <> userId ->
            Memory.updateConversationHistory first userId userMessage text now !! other
            = store !! other) as Apart'.
  { intros text other Other. unfold Memory.updateConversationHistory at 1.
    rewrite lookup_insert_ne by done. by apply Apart. }
  destruct (isPremiumCalculationRequest userMessage || _).
  { exists first. split; [apply history_after_update_nonempty|]. by split. }
  unfold processWithEnhancedRAG, processWithLegacyRAG.
  destruct (enhancedReady env); [destruct (enhancedRAG env) as [answer|]|].
  - destruct (er_recommendations answer) as [recs|].
    + eexists. split; [apply history_after_update_nonempty|].
      split; [apply Apart'|]. reflexivity.
    + destruct (legacyKnowledge env) as [sources|].
      * eexists. split; [apply history_after_update_nonempty|]. cbn [fst snd].
        split; [|reflexivity]. intros other Other.
        unfold Memory.updateConversationHistory at 1. rewrite lookup_insert_ne by done.
        by apply Apart'.
      * eexists. split; [apply history_after_update_nonempty|]. cbn [fst snd].
        split; [apply Apart'|]. reflexivity.
  - destruct (legacyKnowledge env) as [sources|].
    + eexists. split; [apply history_after_update_nonempty|]. cbn [fst snd].
      split; [apply Apart'|]. reflexivity.
    + exists first. split; [apply history_after_update_nonempty|]. by split.
  - destruct (legacyKnowledge env) as [sources|].
    + eexists. split; [apply history_after_update_nonempty|]. cbn [fst snd].
      split; [apply Apart'|]. reflexivity.
    + exists first. split; [apply history_after_update_nonempty|]. by split.
Qed.

End OneCall.

(** The reply the caller receives is the last turn on record. Whatever
    path [processMessage] takes, the history of the user ends with the
    assistant turn that carries the message of the returned response, and
    holds between 2 and 20 messages. *)
Theorem reply_is_last_recorded_turn `{PremiumCalculationService}
    (toLocaleString : Q -> string) (env : Collaborators)
    (store : gmap string (list ConversationMessage)) (userId userMessage : string) (now : Z) :
  let result := processMessage toLocaleString env store userId userMessage now in
  let history := Memory.getConversationHistory (fst result) userId in
  last history = Some (assistantTurn (message (snd result)) now)
  /\ (2 <= length history <= 20)%nat.
Proof.
  cbv zeta.
  destruct (processMessage_ends_with_response toLocaleString env store userId userMessage now)
    as (earlier & Filled & _ & ->).
  rewrite history_after_response. split.
  - apply keepLast_snoc_last. lia.
  - apply keepLast_snoc_length; [lia | exact Filled].
Qed.

(** A call of [processMessage] for one user leaves the history of every
    other user as it was. *)
Theorem processMessage_touches_one_history `{PremiumCalculationService}
    (toLocaleString : Q -> string) (env : Collaborators)
    (store : gmap string (list ConversationMessage))
    (userId userMessage other : string) (now : Z) :
  other <> userId ->
  Memory.getConversationHistory
    (fst (processMessage toLocaleString env store userId userMessage now)) other
  = Memory.getConversationHistory store other.
Proof.
  intros Other.
  destruct (processMessage_ends_with_response toLocaleString env store userId userMessage now)
    as (earlier & _ & Apart & ->).
  unfold Memory.updateConversationHistoryResponse, Memory.getConversationHistory at 1.
  rewrite lookup_insert_ne by done. unfold Memory.getConversationHistory.
  by rewrite Apart.
Qed.

Lemma processMessage_touches_one_history_witness :
  Memory.getConversationHistory
    (fst (processMessage (H := Sample.sampleService) Sample.enUS
            (Sample.legacyOnly "Hi there!") {[ "u2" := Sample.engagedHistory ]}
            "u1" "hello" 0)) "u2"
  = Sample.engagedHistory.
Proof.
  rewrite (processMessage_touches_one_history (H := Sample.sampleService) Sample.enUS
             (Sample.legacyOnly "Hi there!") {[ "u2" := Sample.engagedHistory ]}
             "u1" "hello" "u2" 0) by discriminate.
  reflexivity.
Defined.

(** The context the history route reports: nothing for a user that was
    never seen, and after a call of [processMessage] the time of that call
    as the last activity, with a message count between 2 and 20. *)
Theorem context_after_processMessage `{PremiumCalculationService}
    (toLocaleString : Q -> string) (env : Collaborators)
    (store : gmap string (list ConversationMessage)) (userId userMessage : string) (now : Z) :
  let after := fst (processMessage toLocaleString env store userId userMessage now) in
  (forall stranger, store !! stranger = None ->
     Memory.getConversationContext store stranger
     = {| Memory.messageCount := 0; Memory.lastActivity := None;
          Memory.conversationStage := "initial_contact" |})
  /\ Memory.lastActivity (Memory.getConversationContext after userId) = Some now
  /\ (2 <= Memory.messageCount (Memory.getConversationContext after userId) <= 20)%nat.
Proof.
  cbv zeta. split.
  - intros stranger Unknown. unfold Memory.getConversationContext, Memory.getConversationHistory.
    by rewrite Unknown.
  - unfold Memory.getConversationContext. cbn [Memory.lastActivity Memory.messageCount].
    destruct (processMessage_ends_with_response toLocaleString env store userId userMessage now)
      as (earlier & Filled & _ & ->).
    rewrite history_after_response. split.
    + rewrite keepLast_snoc_last by lia. reflexivity.
    + apply keepLast_snoc_length; [lia | exact Filled].
Qed.

(** ** The lead scores of the responses *)











Section Scores.

Context `{PremiumCalculationService}.
Variable toLocaleString : Q -> string.



End Scores.


(** ** What the extractors can set *)

Lemma str_setNum (k j : string) (v : Q) (p : Params) : str (setNum k v p) j = str p j.
Proof. reflexivity. Qed.

Lemma str_setOpt (k j : string) (v : option Z) (p : Params) :
  str (Extractor.setOpt k v p) j = str p j.
Proof. by destruct v. Qed.

Lemma arr_setNum (k j : string) (v : Q) (p : Params) : arr (setNum k v p) j = arr p j.
Proof. reflexivity. Qed.

Lemma arr_setStr (k v j : string) (p : Params) : arr (setStr k v p) j = arr p j.
Proof. reflexivity. Qed.

Lemma arr_setOpt (k j : string) (v : option Z) (p : Params) :
  arr (Extractor.setOpt k v p) j = arr p j.
Proof. by destruct v. Qed.

Lemma num_setNum_other (k j : string) (v : Q) (p : Params) :
  k <> j -> num (setNum k v p) j = num p j.
Proof. intros Other. unfold num. cbn. by rewrite lookup_insert_ne. Qed.

Lemma str_setStr_other (k v j : string) (p : Params) :
  k <> j -> str (setStr k v p) j = str p j.
Proof. intros Other. unfold str. cbn. by rewrite lookup_insert_ne. Qed.

Lemma str_setStr_same (k v : string) (p : Params) : str (setStr k v p) k = Some v.
Proof. unfold str. cbn. apply lookup_insert_eq. Qed.

Lemma num_spread (a b : Params) (k : string) :
  num (spread a b) k = match num b k with Some v => Some v | None => num a k end.
Proof.
  unfold num, spread. cbn. destruct (nums b !! k) as [v|] eqn:E.
  - by apply lookup_union_Some_l.
  - by rewrite lookup_union_r.
Qed.

Lemma str_spread (a b : Params) (k : string) :
  str (spread a b) k = match str b k with Some v => Some v | None => str a k end.
Proof.
  unfold str, spread. cbn. destruct (strs b !! k) as [v|] eqn:E.
  - by apply lookup_union_Some_l.
  - by rewrite lookup_union_r.
Qed.

Lemma arr_spread (a b : Params) (k : string) :
  arr (spread a b) k = match arr b k with Some v => Some v | None => arr a k end.
Proof.
  unfold arr, spread. cbn. destruct (arrs b !! k) as [v|] eqn:E.
  - by apply lookup_union_Some_l.
  - by rewrite lookup_union_r.
Qed.

Lemma outside3 (k a b c : string) : k ∉ [a; b; c] -> k <> a /\ k <> b /\ k <> c.
Proof.
  intros Fresh. repeat split; intros ->; apply Fresh; repeat constructor.
Qed.

Lemma findLocation_known (lowerText : string) :
  Extractor.findLocation lowerText ∈ Extractor.ghanaLocations.
Proof.
  unfold Extractor.findLocation.
  destruct (List.find _ _) as [location|] eqn:Found.
  - apply find_some in Found as [Listed _]. by apply list_elem_of_In.
  - repeat constructor.
Qed.

Lemma coverage_known (a b : bool) :
  (if a then "comprehensive" else if b then "third_party" else "comprehensive")
  ∈ ["comprehensive"; "third_party"].
Proof. destruct a, b; repeat constructor. Qed.

Lemma extracted_message_shape (message : string) :
  extractedShape (Extractor.extractPremiumParameters message).
Proof.
  unfold extractedShape, Extractor.extractPremiumParameters. cbv zeta.
  split; [|split; [|split; [|split]]].
  - intros k Fresh.
    destruct (outside3 _ _ _ _ Fresh) as (A & V & F).
    destruct (Js.includes _ "smoker"), (Regex.matchRe _ _ message);
      rewrite ?num_setStr, ?num_setOpt_other, ?num_setStr, ?num_setOpt_other by done;
      reflexivity.
  - intros k Fresh.
    destruct (outside3 _ _ _ _ Fresh) as (L & C & S).
    destruct (Js.includes _ "smoker"), (Regex.matchRe _ _ message);
      rewrite ?str_setStr_other, ?str_setOpt, ?str_setStr_other, ?str_setOpt by done;
      reflexivity.
  - intros k.
    destruct (Js.includes _ "smoker"), (Regex.matchRe _ _ message);
      rewrite ?arr_setStr, ?arr_setOpt, ?arr_setStr, ?arr_setOpt; reflexivity.
  - destruct (Js.includes _ "smoker"), (Regex.matchRe _ _ message);
      rewrite ?str_setStr_other, ?str_setOpt, ?str_setStr_other by done;
      rewrite str_setStr_same; eexists; (split; [reflexivity | apply findLocation_known]).
  - destruct (Js.includes _ "smoker"), (Regex.matchRe _ _ message);
      rewrite ?str_setStr_other, ?str_setOpt by done;
      rewrite str_setStr_same; eexists; (split; [reflexivity | apply coverage_known]).
Qed.

Lemma history_value_frame (allContent : string) :
  let value :=
    match Extractor.firstMatch Extractor.historyValuePatterns allContent with
    | Some group1 =>
        match Js.parseInt (Extractor.stripCommas group1) with
        | Some value => if (1000 <? value)%Z then setNum "vehicleValue" (inject_Z value) noParams
                        else noParams
        | None => noParams
        end
    | None => noParams
    end in
  (forall k, k <> "vehicleValue" -> num value k = None)
  /\ (forall k, str value k = None) /\ (forall k, arr value k = None).
Proof.
  cbv zeta. destruct (Extractor.firstMatch _ _) as [group1|]; [|done].
  destruct (Js.parseInt _) as [value|]; [|done].
  destruct (1000 <? value)%Z; [|done].
  split; [|done]. intros k Other. by rewrite num_setNum_other.
Qed.

Lemma extracted_history_shape (history : list ConversationMessage) :
  extractedShape (Extractor.extractParametersFromHistory history).
Proof.
  unfold extractedShape, Extractor.extractParametersFromHistory. cbv zeta.
  pose proof (history_value_frame (Js.toLowerCase (Js.join " " (map content history))))
    as Frame. cbv zeta in Frame.
  set (value := match Extractor.firstMatch Extractor.historyValuePatterns _ with
                | Some _ => _ | None => _ end) in *.
  destruct Frame as (Nums & Strs & Arrs).
  set (aged := match Extractor.firstMatch Extractor.historyAgePatterns _ with
               | Some _ => _ | None => _ end).
  assert ((forall k, k <> "age" -> k <> "vehicleValue" -> num aged k = None)
          /\ (forall k, str aged k = None) /\ (forall k, arr aged k = None))
    as (Nums' & Strs' & Arrs').
  { subst aged. destruct (Extractor.firstMatch Extractor.historyAgePatterns _) as [group1|];
      [|by auto].
    destruct (Js.parseInt group1) as [age|]; [|by auto].
    destruct ((16 <=? age)%Z && (age <=? 100)%Z); [|by auto].
    split; [|by auto]. intros k A V. rewrite num_setNum_other by done. auto. }
  clearbody aged. clear value Nums Strs Arrs.
  split; [|split; [|split; [|split]]].
  - intros k Fresh.
    destruct (outside3 _ _ _ _ Fresh) as (A & V & F).
    destruct (Js.includes _ "single"), (Js.includes _ "children"), (Js.includes _ "married");
      rewrite ?num_setNum_other, ?num_setStr by done; auto.
  - intros k Fresh.
    destruct (outside3 _ _ _ _ Fresh) as (L & C & S).
    destruct (Js.includes _ "single"), (Js.includes _ "children"), (Js.includes _ "married");
      rewrite ?str_setNum, ?str_setStr_other by done; auto.
  - intros k.
    destruct (Js.includes _ "single"), (Js.includes _ "children"), (Js.includes _ "married");
      rewrite ?arr_setNum, ?arr_setStr; auto.
  - destruct (Js.includes _ "single"), (Js.includes _ "children"), (Js.includes _ "married");
      rewrite ?str_setNum, ?str_setStr_other by done; rewrite str_setStr_same;
      eexists; (split; [reflexivity | apply findLocation_known]).
  - destruct (Js.includes _ "single"), (Js.includes _ "children"), (Js.includes _ "married");
      rewrite ?str_setNum; rewrite str_setStr_same;
      eexists; (split; [reflexivity | apply (coverage_known _ (_ || _))]).
Qed.

Lemma merged_shape (a b : Params) : extractedShape a -> extractedShape b ->
  extractedShape (spread a b).
Proof.
  intros (NumsA & StrsA & ArrsA & _ & _) (NumsB & StrsB & ArrsB & Location & Coverage).
  split; [|split; [|split; [|split]]].
  - intros k Fresh. by rewrite num_spread, NumsB, NumsA.
  - intros k Fresh. by rewrite str_spread, StrsB, StrsA.
  - intros k. by rewrite arr_spread, ArrsB, ArrsA.
  - destruct Location as (location & E & Known). exists location.
    by rewrite str_spread, E.
  - destruct Coverage as (coverageType & E & Known). exists coverageType.
    by rewrite str_spread, E.
Qed.

Lemma shape_excludes (p : Params) (k : string) :
  extractedShape p ->
  k ∉ ["age"; "vehicleValue"; "familySize"] ->
  k ∉ ["location"; "coverageType"; "smokingStatus"] ->
  truthy p k = false.
Proof.
  intros (Nums & Strs & Arrs & _) NoNum NoStr. unfold truthy.
  rewrite Nums, Strs, Arrs by done. reflexivity.
Qed.

Lemma shape_has_location (p : Params) : extractedShape p -> truthy p "location" = true.
Proof.
  intros (_ & _ & _ & (location & E & Known) & _). unfold truthy. rewrite E.
  assert (Js.truthyStr (Some location) = true) as ->; [|by rewrite orb_true_r].
  unfold Extractor.ghanaLocations in Known.
  repeat (apply elem_of_cons in Known as [->|Known]; [reflexivity|]).
  by apply elem_of_nil in Known.
Qed.

Lemma shape_has_coverage (p : Params) : extractedShape p -> truthy p "coverageType" = true.
Proof.
  intros (_ & _ & _ & _ & (coverageType & E & Known)). unfold truthy. rewrite E.
  assert (Js.truthyStr (Some coverageType) = true) as ->; [|by rewrite orb_true_r].
  repeat (apply elem_of_cons in Known as [->|Known]; [reflexivity|]).
  by apply elem_of_nil in Known.
Qed.

(** Both extractors always hand back a location, one of the six cities
    they know (Accra when none is named), and a coverage type, one of
    comprehensive and third_party; and they set no field beyond age,
    vehicleValue, familySize, location, coverageType and smokingStatus. *)
Theorem extractors_always_set_location_and_coverage
    (message : string) (history : list ConversationMessage) :
  extractedShape (Extractor.extractPremiumParameters message)
  /\ extractedShape (Extractor.extractParametersFromHistory history)
  /\ extractedShape (spread (Extractor.extractPremiumParameters message)
                            (Extractor.extractParametersFromHistory history)).
Proof.
  split; [apply extracted_message_shape|].
  split; [apply extracted_history_shape|].
  apply merged_shape; [apply extracted_message_shape | apply extracted_history_shape].
Qed.

(** ** The numbers the extractors can return *)

Section Captures.

Import Regex.

Variable limit : nat.
Variable ignoreCase : bool.

Lemma rep_class_consumes (p : ascii -> bool) (hi lo : nat) (st : state) :
  Forall (fun s' => (length (rest st) <= length (rest s') + hi)%nat)
         (run ignoreCase (Rep (Cls p) lo hi) st).
Proof.
  cbn [run]. revert lo st. induction hi as [|hi IH]; intros lo st.
  - repeat constructor. lia.
  - apply Forall_app. split.
    + rewrite Forall_flat_map. cbn [run].
      destruct (rest st) as [|c text] eqn:Text; [constructor|].
      destruct (p c); [|constructor]. repeat constructor.
      eapply Forall_impl; [apply IH|]. intros s' Bound. cbv beta in *. cbn [rest] in Bound. cbn [length]. lia.
    + destruct lo; repeat constructor. lia.
Qed.

Lemma star_keeps (P : state -> Prop) (step : state -> list state) :
  (forall s, P s -> Forall P (step s)) ->
  forall fuel s, P s ->
    Forall P ((fix star (fuel : nat) (s : state) : list state :=
                 match fuel with
                 | O => [s]
                 | S fuel' =>
                     flat_map (fun s' => if progress s s' then star fuel' s' else []) (step s)
                       ++ [s]
                 end) fuel s).
Proof.
  intros Step. induction fuel as [|fuel IH]; intros s Here; [by repeat constructor|].
  apply Forall_app. split; [|by repeat constructor].
  rewrite Forall_flat_map. eapply Forall_impl; [apply Step, Here|].
  intros s' There. cbv beta. destruct (progress s s'); [by apply IH | constructor].
Qed.

Lemma lazy_keeps (P : state -> Prop) (step : state -> list state) :
  (forall s, P s -> Forall P (step s)) ->
  forall fuel s, P s ->
    Forall P ((fix star (fuel : nat) (s : state) : list state :=
                 match fuel with
                 | O => [s]
                 | S fuel' =>
                     s :: flat_map (fun s' => if progress s s' then star fuel' s' else [])
                                   (step s)
                 end) fuel s).
Proof.
  intros Step. induction fuel as [|fuel IH]; intros s Here; [by repeat constructor|].
  constructor; [exact Here|].
  rewrite Forall_flat_map. eapply Forall_impl; [apply Step, Here|].
  intros s' There. cbv beta. destruct (progress s s'); [by apply IH | constructor].
Qed.

Lemma rep_keeps (P : state -> Prop) (step : state -> list state) :
  (forall s, P s -> Forall P (step s)) ->
  forall hi lo s, P s ->
    Forall P ((fix rep (lo hi : nat) (s : state) : list state :=
                 match hi with
                 | O => [s]
                 | S hi' =>
                     flat_map (rep (pred lo) hi') (step s)
                       ++ (match lo with O => [s] | S _ => [] end)
                 end) lo hi s).
Proof.
  intros Step. induction hi as [|hi IH]; intros lo s Here; [by repeat constructor|].
  apply Forall_app. split.
  - rewrite Forall_flat_map. eapply Forall_impl; [apply Step, Here|].
    intros s' There. cbv beta. by apply IH.
  - destruct lo; by repeat constructor.
Qed.

(** Running a pattern of that form keeps the group within the limit. *)
Lemma run_keeps_capture (r : regex) :
  capturesUpTo limit r ->
  forall st, capturedWithin limit st -> Forall (capturedWithin limit) (run ignoreCase r st).
Proof.
  induction 1 as [s|p|a b _ IHa _ IHb|a b _ IHa _ IHb|r _ IH|r _ IH|r _ IH|r _ IH
                  |r lo hi _ IH|p lo hi Small|]; intros st Here.
  - cbn [run]. destruct (eat _ _ _ _) as [[b t]|]; by repeat constructor.
  - cbn [run]. destruct (rest st) as [|c t]; [constructor|].
    destruct (p c); by repeat constructor.
  - cbn [run]. rewrite Forall_flat_map. eapply Forall_impl; [apply IHa, Here|].
    intros s'. cbv beta. apply IHb.
  - cbn [run]. apply Forall_app. split; [apply IHa | apply IHb]; exact Here.
  - cbn [run]. by apply star_keeps.
  - cbn [run]. by apply lazy_keeps.
  - cbn [run]. rewrite Forall_flat_map. eapply Forall_impl; [apply IH, Here|].
    intros s' There. cbv beta. by apply star_keeps.
  - cbn [run]. apply Forall_app. split; [by apply IH | by repeat constructor].
  - cbn [run]. by apply rep_keeps.
  - change (run ignoreCase (Group (Rep (Cls p) lo hi)) st)
      with (map (fun s' => {| before := before s'; rest := rest s';
                              capture := Some (consumed st s') |})
                (run ignoreCase (Rep (Cls p) lo hi) st)).
    rewrite Forall_map. eapply Forall_impl; [apply rep_class_consumes|].
    intros s' Bound. cbv beta in *. unfold capturedWithin, consumed. cbn [capture rest].
    rewrite length_take. lia.
  - cbn [run]. destruct (Bool.eqb _ _); by repeat constructor.
Qed.

Lemma search_keeps_capture (r : regex) (text : list ascii) (prev : option ascii) (s : state) :
  capturesUpTo limit r -> search ignoreCase r prev text = Some s -> capturedWithin limit s.
Proof.
  intros Shape. revert prev. induction text as [|c text IH]; intros prev; cbn [search].
  - pose proof (run_keeps_capture r Shape {| before := prev; rest := []; capture := None |} I)
      as Kept.
    destruct (run _ _ _) as [|s' more]; [done|].
    intros [= <-]. by apply Forall_cons in Kept as [Kept _].
  - pose proof (run_keeps_capture r Shape
                  {| before := prev; rest := c :: text; capture := None |} I) as Kept.
    destruct (run _ _ _) as [|s' more]; [apply IH|].
    intros [= <-]. by apply Forall_cons in Kept as [Kept _].
Qed.

Lemma matchRe_bounded (r : regex) (text : string) (group1 : list ascii) :
  capturesUpTo limit r -> matchRe ignoreCase r text = Some group1 ->
  (length group1 <= limit)%nat.
Proof.
  intros Shape. unfold matchRe.
  destruct (search _ _ _ _) as [s|] eqn:Found; [|done].
  intros [= <-]. apply search_keeps_capture in Found; [|exact Shape].
  unfold capturedWithin in Found. destruct (capture s); cbn; [exact Found | lia].
Qed.

End Captures.

Lemma age_patterns_capture_two_digits :
  Forall (capturesUpTo 2) Extractor.agePatterns
  /\ Forall (capturesUpTo 2) Extractor.historyAgePatterns.
Proof.
  unfold Extractor.agePatterns, Extractor.historyAgePatterns, Regex.seqs, Regex.alts,
    Regex.digits, Regex.spaces.
  cbn [fold_left].
  split; repeat (apply Forall_cons; split); try apply Forall_nil;
    repeat first [ apply cu_Group; lia | constructor ].
Qed.

Lemma digitValue_range (c : ascii) (d : Z) : Js.digitValue c = Some d -> (0 <= d <= 9)%Z.
Proof.
  unfold Js.digitValue. cbv zeta.
  destruct ((48 <=? nat_of_ascii c)%nat && (nat_of_ascii c <=? 57)%nat) eqn:Digit; [|done].
  intros [= <-]. apply andb_true_iff in Digit as [Low High].
  apply Nat.leb_le in Low, High. lia.
Qed.

Lemma parseInt_two_chars (group1 : list ascii) (n : Z) :
  (length group1 <= 2)%nat -> Js.parseInt group1 = Some n -> (0 <= n <= 99)%Z.
Proof.
  intros Short. unfold Js.parseInt.
  destruct group1 as [|c1 [|c2 [|c3 more]]]; [done| | |cbn in Short; lia].
  - destruct (Js.digitValue c1) as [d1|] eqn:D1; [|done]. intros [= <-].
    cbn [Js.parseDigits]. rewrite D1. apply digitValue_range in D1. lia.
  - destruct (Js.digitValue c1) as [d1|] eqn:D1; [|done]. intros [= <-].
    cbn [Js.parseDigits]. rewrite D1. apply digitValue_range in D1.
    destruct (Js.digitValue c2) as [d2|] eqn:D2; [apply digitValue_range in D2|]; lia.
Qed.

Lemma firstAge_range (patterns : list Regex.regex) (message : string) (age : Z) :
  Forall (capturesUpTo 2) patterns ->
  Extractor.firstAge patterns message = Some age -> (16 <= age <= 99)%Z.
Proof.
  induction 1 as [|pattern more Shape _ IH]; [done|]. cbn [Extractor.firstAge].
  destruct (Regex.matchRe true pattern message) as [group1|] eqn:Match; [|exact IH].
  apply matchRe_bounded with (limit := 2%nat) in Match; [|exact Shape].
  destruct (Js.parseInt group1) as [n|] eqn:Parsed; [|exact IH].
  apply parseInt_two_chars in Parsed; [|exact Match].
  destruct ((16 <=? n)%Z && (n <=? 100)%Z) eqn:Range; [|exact IH].
  intros [= <-]. apply andb_true_iff in Range as [Low _]. apply Z.leb_le in Low. lia.
Qed.

Lemma firstMatch_bounded (patterns : list Regex.regex) (text : string) (group1 : list ascii) :
  Forall (capturesUpTo 2) patterns ->
  Extractor.firstMatch patterns text = Some group1 -> (length group1 <= 2)%nat.
Proof.
  induction 1 as [|pattern more Shape _ IH]; [done|]. cbn [Extractor.firstMatch].
  destruct (Regex.matchRe true pattern text) as [g|] eqn:Match; [|exact IH].
  intros [= <-]. by apply matchRe_bounded with (limit := 2%nat) in Match.
Qed.

Lemma firstValue_range (patterns : list Regex.regex) (message : string) (value : Z) :
  Extractor.firstValue patterns message = Some value -> (1000 < value)%Z.
Proof.
  induction patterns as [|pattern more IH]; [done|]. cbn [Extractor.firstValue].
  destruct (Regex.matchRe true pattern message) as [group1|]; [|exact IH].
  destruct (Js.parseInt _) as [n|]; [|exact IH].
  destruct (1000 <? n)%Z eqn:Large; [|exact IH].
  intros [= <-]. by apply Z.ltb_lt.
Qed.

Lemma extracted_value_field (message : string) :
  num (Extractor.extractPremiumParameters message) "vehicleValue"
  = match Extractor.firstValue Extractor.valuePatterns message with
    | Some value => Some (inject_Z value)
    | None => None
    end.
Proof.
  unfold Extractor.extractPremiumParameters. cbv zeta.
  destruct (Js.includes (Js.toLowerCase message) "smoker"); rewrite ?num_setStr;
    destruct (Regex.matchRe _ _ message);
    rewrite ?num_setOpt_other, ?num_setStr by done;
    (destruct (Extractor.firstValue _ _) as [value|]; cbn [Extractor.setOpt];
     [ unfold num; cbn; apply lookup_insert_eq
     | by rewrite num_setOpt_other ]).
Qed.

Lemma history_numbers (history : list ConversationMessage) :
  (forall age, num (Extractor.extractParametersFromHistory history) "age" = Some age ->
     exists n : Z, age = inject_Z n /\ (16 <= n <= 99)%Z)
  /\ (forall value, num (Extractor.extractParametersFromHistory history) "vehicleValue"
                    = Some value ->
        exists n : Z, value = inject_Z n /\ (1000 < n)%Z).
Proof.
  unfold Extractor.extractParametersFromHistory. cbv zeta.
  set (allContent := Js.toLowerCase _).
  split.
  - intros age.
    destruct (Js.includes allContent "single"), (Js.includes allContent "children"),
      (Js.includes allContent "married");
      rewrite ?num_setNum_other, ?num_setStr by done;
      (destruct (Extractor.firstMatch Extractor.historyAgePatterns allContent) as [group1|] eqn:M;
       [ apply firstMatch_bounded in M; [|apply (proj2 age_patterns_capture_two_digits)];
         destruct (Js.parseInt group1) as [n|] eqn:P;
         [ apply parseInt_two_chars in P; [|exact M];
           destruct ((16 <=? n)%Z && (n <=? 100)%Z) eqn:R;
           [ unfold num at 1; cbn [nums setNum]; rewrite lookup_insert_eq; intros [= <-];
             exists n; split; [reflexivity|];
             apply andb_true_iff in R as [Low _]; apply Z.leb_le in Low; lia
           | ]
         | ]
       | ]);
      (pose proof (history_value_frame allContent) as Frame; cbv zeta in Frame;
       destruct Frame as (Nums & _); by rewrite Nums).
  - intros value.
    destruct (Js.includes allContent "single"), (Js.includes allContent "children"),
      (Js.includes allContent "married");
      rewrite ?num_setNum_other, ?num_setStr by done;
      (assert (forall p,
                 num match Extractor.firstMatch Extractor.historyAgePatterns allContent with
                     | Some group1 =>
                         match Js.parseInt group1 with
                         | Some age =>
                             if ((16 <=? age)%Z && (age <=? 100)%Z)
                             then setNum "age" (inject_Z age) p else p
                         | None => p
                         end
                     | None => p
                     end "vehicleValue" = num p "vehicleValue") as -> 
         by (intros p; repeat case_match; rewrite ?num_setNum_other by done; reflexivity));
      (destruct (Extractor.firstMatch Extractor.historyValuePatterns allContent) as [g|]; [|done];
       destruct (Js.parseInt _) as [n|]; [|done];
       destruct (1000 <? n)%Z eqn:Large; [|done];
       unfold num; cbn [nums setNum]; rewrite lookup_insert_eq; intros [= <-];
       exists n; split; [reflexivity | by apply Z.ltb_lt]).
Qed.

Lemma message_numbers (message : string) :
  (forall age, num (Extractor.extractPremiumParameters message) "age" = Some age ->
     exists n : Z, age = inject_Z n /\ (16 <= n <= 99)%Z)
  /\ (forall value, num (Extractor.extractPremiumParameters message) "vehicleValue"
                    = Some value ->
        exists n : Z, value = inject_Z n /\ (1000 < n)%Z).
Proof.
  split.
  - intros age. rewrite extracted_age_field.
    destruct (Extractor.firstAge _ _) as [n|] eqn:Found; [|done].
    intros [= <-]. exists n. split; [reflexivity|].
    eapply firstAge_range; [apply (proj1 age_patterns_capture_two_digits) | exact Found].
  - intros value. rewrite extracted_value_field.
    destruct (Extractor.firstValue _ _) as [n|] eqn:Found; [|done].
    intros [= <-]. exists n. split; [reflexivity|]. by eapply firstValue_range.
Qed.

Lemma merged_numbers (message : string) (history : list ConversationMessage) :
  let allParams :=
    spread (Extractor.extractPremiumParameters message)
           (Extractor.extractParametersFromHistory history) in
  (forall age, num allParams "age" = Some age ->
     exists n : Z, age = inject_Z n /\ (16 <= n <= 99)%Z)
  /\ (forall value, num allParams "vehicleValue" = Some value ->
        exists n : Z, value = inject_Z n /\ (1000 < n)%Z).
Proof.
  cbv zeta. destruct (message_numbers message) as [MessageAge MessageValue].
  destruct (history_numbers history) as [HistoryAge HistoryValue].
  split.
  - intros age. rewrite num_spread.
    destruct (num (Extractor.extractParametersFromHistory history) "age") as [a|] eqn:E.
    + intros [= <-]. by apply HistoryAge.
    + apply MessageAge.
  - intros value. rewrite num_spread.
    destruct (num (Extractor.extractParametersFromHistory history) "vehicleValue")
      as [v|] eqn:E.
    + intros [= <-]. by apply HistoryValue.
    + apply MessageValue.
Qed.



(** ** A price read as an age *)

(** The history extractor takes the thousands of a price for an age. Its
    last age pattern captures one or two digits in front of a comma, so a
    price written with a thousands separator, as the service itself writes
    them, yields an age when no age is stated: for every price from 16,000
    to 99,000 cedis the history gives the number of thousands as the age,
    although the message states none, and the merged parameters carry it
    beside the price. *)
Theorem price_is_taken_for_age (n : Z) :
  (16 <= n <= 99)%Z ->
  let text := priceInThousands n in
  let history := [ {| role := user; content := text; timestamp := 0 |} ] in
  let allParams :=
    spread (Extractor.extractPremiumParameters text)
           (Extractor.extractParametersFromHistory history) in
  num (Extractor.extractPremiumParameters text) "age" = None
  /\ num (Extractor.extractParametersFromHistory history) "age" = Some (inject_Z n)
  /\ num allParams "age" = Some (inject_Z n)
  /\ num allParams "vehicleValue" = Some (inject_Z (n * 1000)).
Proof.
  intros Range. cbv zeta.
  assert (Forall (fun n =>
            num (Extractor.extractPremiumParameters (priceInThousands n)) "age" = None
            /\ num (Extractor.extractParametersFromHistory
                      [ {| role := user; content := priceInThousands n; timestamp := 0 |} ])
                   "age" = Some (inject_Z n)
            /\ num (spread (Extractor.extractPremiumParameters (priceInThousands n))
                           (Extractor.extractParametersFromHistory
                              [ {| role := user; content := priceInThousands n;
                                   timestamp := 0 |} ]))
                   "age" = Some (inject_Z n)
            /\ num (spread (Extractor.extractPremiumParameters (priceInThousands n))
                           (Extractor.extractParametersFromHistory
                              [ {| role := user; content := priceInThousands n;
                                   timestamp := 0 |} ]))
                   "vehicleValue" = Some (inject_Z (n * 1000)))
          (seqZ 16 84)) as Checked.
  { apply (bool_decide_unpack _). vm_compute. exact I. }
  rewrite Forall_forall in Checked. apply (Checked n). apply elem_of_seqZ. lia.
Qed.

Lemma price_is_taken_for_age_witness :
  num (Extractor.extractParametersFromHistory
         [ {| role := user; content := "my car is worth 50,000 cedis"; timestamp := 0 |} ])
      "age"
  = Some 50%Q.
Proof.
  pose proof (price_is_taken_for_age 50 ltac:(lia)) as Fact.
  cbv zeta in Fact. destruct Fact as (_ & Age & _). exact Age.
Defined.

(** ** What the premium branch can answer *)

Lemma detectInsuranceType_cases (message : string) :
  Extractor.detectInsuranceType message = None
  \/ Extractor.detectInsuranceType message = Some "auto"
  \/ Extractor.detectInsuranceType message = Some "health"
  \/ Extractor.detectInsuranceType message = Some "life"
  \/ Extractor.detectInsuranceType message = Some "business".
Proof.
  unfold Extractor.detectInsuranceType. cbv zeta.
  repeat (match goal with |- context [if ?c then _ else _] => destruct c end); auto 10.
Qed.

Section PremiumBranch.

Context `{PremiumCalculationService}.
Variable toLocaleString : Q -> string.

(** After a follow-up the only quote is the third-party one. *)
Lemma followUp_quote (userMessage : string) (conversationHistory : list ConversationMessage)
    (quote : PremiumQuote) :
  premiumQuote (handlePremiumFollowUp toLocaleString userMessage conversationHistory)
  = Some quote ->
  usedKnowledge (handlePremiumFollowUp toLocaleString userMessage conversationHistory)
  = Knowledge "third_party_calculation".
Proof.
  unfold handlePremiumFollowUp, thirdPartyQuoteResponse. cbv zeta.
  repeat case_match; simplify_eq; cbn [premiumQuote usedKnowledge reply withQuote withLead];
    first [ discriminate | reflexivity ].
Qed.

Lemma followUp_is_no_collection (userMessage : string)
    (conversationHistory : list ConversationMessage) (missing : list string) :
  usedKnowledge (handlePremiumFollowUp toLocaleString userMessage conversationHistory)
  <> ParameterCollection missing.
Proof.
  unfold handlePremiumFollowUp, thirdPartyQuoteResponse. cbv zeta.
  repeat case_match; simplify_eq; cbn [usedKnowledge reply withQuote withLead]; discriminate.
Qed.

(** The product is the one the message names: the extractors set no
    [insuranceType]. *)
Lemma type_is_detected (userMessage : string) (conversationHistory : list ConversationMessage) :
  Js.orStr (Extractor.detectInsuranceType userMessage)
    (str (spread (Extractor.extractPremiumParameters userMessage)
                 (Extractor.extractParametersFromHistory conversationHistory))
         "insuranceType")
  = Extractor.detectInsuranceType userMessage.
Proof.
  assert (str (spread (Extractor.extractPremiumParameters userMessage)
                      (Extractor.extractParametersFromHistory conversationHistory))
              "insuranceType" = None) as ->.
  { pose proof (merged_shape _ _ (extracted_message_shape userMessage)
                  (extracted_history_shape conversationHistory)) as (_ & Strs & _).
    apply Strs. intros In. repeat (apply elem_of_cons in In as [In|In]; [discriminate In|]).
    by apply elem_of_nil in In. }
  destruct (detectInsuranceType_cases userMessage) as [E|[E|[E|[E|E]]]]; by rewrite E.
Qed.

Lemma premium_branch_cases (userMessage : string)
    (conversationHistory : list ConversationMessage) :
  let allParams :=
    spread (Extractor.extractPremiumParameters userMessage)
           (Extractor.extractParametersFromHistory conversationHistory) in
  let response := handlePremiumCalculation toLocaleString userMessage conversationHistory in
  (isFollowUpToPremiumCalculation userMessage conversationHistory = true
   /\ response = handlePremiumFollowUp toLocaleString userMessage conversationHistory)
  \/ (isFollowUpToPremiumCalculation userMessage conversationHistory = false
      /\ Extractor.detectInsuranceType userMessage = None
      /\ response = reply msgAskInsuranceType (9 # 10) [] (Knowledge "premium_calculation_start")
                          "collect_insurance_type")
  \/ (isFollowUpToPremiumCalculation userMessage conversationHistory = false
      /\ exists insuranceType missingParams,
           Extractor.detectInsuranceType userMessage = Some insuranceType
           /\ missingParams
              = List.filter (fun param => negb (truthy allParams param))
                            (getRequiredParametersForType insuranceType)
           /\ missingParams <> []
           /\ response
              = reply (generateParameterCollectionMessage insuranceType missingParams allParams)
                      (9 # 10) [] (ParameterCollection missingParams) "collect_parameters")
  \/ (isFollowUpToPremiumCalculation userMessage conversationHistory = false
      /\ Extractor.detectInsuranceType userMessage = Some "auto"
      /\ ((exists q, usedKnowledge response = PremiumCalculation "auto" allParams
                     /\ premiumQuote response = Some q)
          \/ (usedKnowledge response = Knowledge "premium_calculation_failed"
              /\ premiumQuote response = None))).
Proof.
  cbv zeta. unfold handlePremiumCalculation.
  destruct (isFollowUpToPremiumCalculation userMessage conversationHistory); [by left|].
  right. cbv zeta. rewrite type_is_detected.
  assert (extractedShape (spread (Extractor.extractPremiumParameters userMessage)
            (Extractor.extractParametersFromHistory conversationHistory))) as Shape
    by (apply merged_shape; [apply extracted_message_shape | apply extracted_history_shape]).
  set (allParams := spread _ _) in *.
  assert (forall k, k ∈ ["planType"; "coverage"; "businessType"] -> truthy allParams k = false)
    as Never.
  { intros k In. apply shape_excludes; [exact Shape| |];
      intros In';
      repeat (apply elem_of_cons in In as [->|In];
              [ repeat (apply elem_of_cons in In' as [In'|In']; [discriminate In'|]);
                by apply elem_of_nil in In' |]);
      by apply elem_of_nil in In. }
  destruct (detectInsuranceType_cases userMessage) as [E|[E|[E|[E|E]]]]; rewrite E.
  - left. by repeat split.
  - change (getRequiredParametersForType "auto")
      with ["vehicleValue"; "age"; "location"; "coverageType"].
    destruct (List.filter _ _) as [|first more] eqn:Missing.
    + right; right. repeat split. cbn [length Nat.ltb Nat.leb].
      destruct (calculatePremium "auto" allParams) as [premium breakdown|error].
      * left. eexists. by split.
      * right. by split.
    + right; left. split; [reflexivity|]. exists "auto", (first :: more).
      change (getRequiredParametersForType "auto")
        with ["vehicleValue"; "age"; "location"; "coverageType"].
      rewrite Missing. by repeat split.
  - right; left. split; [reflexivity|].
    change (getRequiredParametersForType "health") with ["age"; "planType"].
    cbn [List.filter]. rewrite (Never "planType") by (repeat constructor). cbn [negb].
    exists "health". eexists. change (getRequiredParametersForType "health") with ["age"; "planType"].
    cbn [List.filter]. rewrite (Never "planType") by (repeat constructor). cbn [negb].
    split; [reflexivity|]. split; [reflexivity|].
    destruct (negb (truthy allParams "age")); by split.
  - right; left. split; [reflexivity|].
    change (getRequiredParametersForType "life") with ["age"; "coverage"].
    cbn [List.filter]. rewrite (Never "coverage") by (repeat constructor). cbn [negb].
    exists "life". eexists. change (getRequiredParametersForType "life") with ["age"; "coverage"].
    cbn [List.filter]. rewrite (Never "coverage") by (repeat constructor). cbn [negb].
    split; [reflexivity|]. split; [reflexivity|].
    destruct (negb (truthy allParams "age")); by split.
  - right; left. split; [reflexivity|].
    change (getRequiredParametersForType "business")
      with ["businessType"; "revenue"; "employees"].
    cbn [List.filter]. rewrite (Never "businessType") by (repeat constructor). cbn [negb].
    exists "business". eexists.
    change (getRequiredParametersForType "business")
      with ["businessType"; "revenue"; "employees"].
    cbn [List.filter]. rewrite (Never "businessType") by (repeat constructor). cbn [negb].
    split; [reflexivity|]. split; [reflexivity|]. by split.
Qed.

End PremiumBranch.

Section Answers.

Context `{PremiumCalculationService}.
Variable toLocaleString : Q -> string.

(** Outside the premium branch a response carries no quote and is no
    request for parameters. *)
Lemma processMessage_response_cases (env : Collaborators)
    (store : gmap string (list ConversationMessage)) (userId userMessage : string) (now : Z) :
  let response := snd (processMessage toLocaleString env store userId userMessage now) in
  (exists seen, response = handlePremiumCalculation toLocaleString userMessage seen)
  \/ (premiumQuote response = None
      /\ forall missing, usedKnowledge response <> ParameterCollection missing).
Proof.
  cbv zeta. unfold processMessage. cbv zeta.
  destruct (isPremiumCalculationRequest userMessage || _); [left; eexists; reflexivity|].
  right.
  assert (forall store',
            let response :=
              snd (match processWithLegacyRAG env store' userId userMessage now with
                   | (store, Some response) =>
                       (Memory.updateConversationHistoryResponse store userId (message response) now,
                        response)
                   | (store, None) =>
                       (Memory.updateConversationHistoryResponse store userId
                          (message (handleError "legacy processing failed")) now,
                        handleError "legacy processing failed")
                   end) in
            premiumQuote response = None
            /\ forall missing, usedKnowledge response <> ParameterCollection missing) as Legacy.
  { intros store'. cbv zeta. unfold processWithLegacyRAG.
    destruct (legacyKnowledge env) as [sources|]; cbn [snd]; by split. }
  unfold processWithEnhancedRAG.
  destruct (enhancedReady env); [|apply Legacy].
  destruct (enhancedRAG env) as [answer|]; [|apply Legacy].
  destruct (er_recommendations answer) as [recs|]; [|apply Legacy].
  cbn [snd]. by split.
Qed.

End Answers.

(** A quote is always an auto quote. The extractors never set the plan
    type, the coverage amount or the business fields that health, life and
    business require, so for these products the service always asks for
    more: every response of [processMessage] that carries a premium quote
    is either the quote of an auto calculation or the third-party auto
    quote of a follow-up. *)
Theorem only_auto_is_ever_quoted `{PremiumCalculationService}
    (toLocaleString : Q -> string) (env : Collaborators)
    (store : gmap string (list ConversationMessage)) (userId userMessage : string) (now : Z)
    (quote : PremiumQuote) :
  let response := snd (processMessage toLocaleString env store userId userMessage now) in
  premiumQuote response = Some quote ->
  usedKnowledge response = Knowledge "third_party_calculation"
  \/ exists parameters, usedKnowledge response = PremiumCalculation "auto" parameters.
Proof.
  cbv zeta. intros Quoted.
  destruct (processMessage_response_cases toLocaleString env store userId userMessage now)
    as [[seen Premium]|[NoQuote _]]; [|congruence].
  rewrite Premium in *.
  destruct (premium_branch_cases toLocaleString userMessage seen)
    as [[_ E]|[(_ & _ & E)|[(_ & insuranceType & missingParams & _ & _ & _ & E)
                            |(_ & _ & [(q & Used & _)|[_ NoQuote]])]]].
  - left. rewrite E in *. by apply followUp_quote with quote.
  - by rewrite E in Quoted.
  - by rewrite E in Quoted.
  - right. by eexists.
  - congruence.
Qed.

Lemma only_auto_is_ever_quoted_witness :
  let response :=
    snd (processMessage (H := Sample.sampleService) Sample.enUS
           (Sample.legacyOnly "Hi there!") ∅ "u1" Sample.carScenario 0) in
  is_Some (premiumQuote response)
  /\ (usedKnowledge response = Knowledge "third_party_calculation"
      \/ exists parameters, usedKnowledge response = PremiumCalculation "auto" parameters).
Proof.
  cbv zeta.
  destruct (premiumQuote
              (snd (processMessage (H := Sample.sampleService) Sample.enUS
                      (Sample.legacyOnly "Hi there!") ∅ "u1" Sample.carScenario 0)))
    as [quote|] eqn:Quoted.
  - split; [by eexists|].
    exact (only_auto_is_ever_quoted (H := Sample.sampleService) Sample.enUS
             (Sample.legacyOnly "Hi there!") ∅ "u1" Sample.carScenario 0 quote Quoted).
  - vm_compute in Quoted. discriminate Quoted.
Defined.

(** The service never asks for the city or for the coverage type. Both
    extractors default the location to Accra and the coverage type to
    comprehensive, so a response that asks for parameters asks for at
    least one, and only for fields the extractors may leave out. *)
Theorem prompt_never_asks_location_or_coverage `{PremiumCalculationService}
    (toLocaleString : Q -> string) (env : Collaborators)
    (store : gmap string (list ConversationMessage)) (userId userMessage : string) (now : Z)
    (missingParams : list string) :
  let response := snd (processMessage toLocaleString env store userId userMessage now) in
  usedKnowledge response = ParameterCollection missingParams ->
  missingParams <> []
  /\ ("location" ∉ missingParams)
  /\ ("coverageType" ∉ missingParams)
  /\ nextAction response = Some "collect_parameters"
  /\ premiumQuote response = None.
Proof.
  cbv zeta. intros Asked.
  destruct (processMessage_response_cases toLocaleString env store userId userMessage now)
    as [[seen Premium]|[_ Never]]; [|by destruct (Never missingParams)].
  rewrite Premium in *.
  destruct (premium_branch_cases toLocaleString userMessage seen)
    as [[_ E]|[(_ & _ & E)|[(_ & insuranceType & missing & _ & Missing & Filled & E)
                            |(_ & _ & [(q & Used & _)|[Used _]])]]].
  - rewrite E in Asked. by destruct (followUp_is_no_collection toLocaleString _ _ _ Asked).
  - by rewrite E in Asked.
  - rewrite E in *. cbn [usedKnowledge reply] in Asked. simplify_eq.
    assert (extractedShape (spread (Extractor.extractPremiumParameters userMessage)
              (Extractor.extractParametersFromHistory seen))) as Shape
      by (apply merged_shape; [apply extracted_message_shape | apply extracted_history_shape]).
    split; [exact Filled|].
    split; [|split; [|by split]].
    + intros In. apply list_elem_of_In, filter_In in In as [_ Falsy].
      by rewrite (shape_has_location _ Shape) in Falsy.
    + intros In. apply list_elem_of_In, filter_In in In as [_ Falsy].
      by rewrite (shape_has_coverage _ Shape) in Falsy.
  - congruence.
  - congruence.
Qed.

Lemma prompt_never_asks_location_or_coverage_witness :
  let response :=
    snd (processMessage (H := Sample.sampleService) Sample.enUS
           (Sample.legacyOnly "Hi there!") ∅ "u1" "how much is car insurance" 0) in
  usedKnowledge response = ParameterCollection ["vehicleValue"; "age"]
  /\ "location" ∉ ["vehicleValue"; "age"].
Proof.
  cbv zeta.
  assert (usedKnowledge
            (snd (processMessage (H := Sample.sampleService) Sample.enUS
                    (Sample.legacyOnly "Hi there!") ∅ "u1" "how much is car insurance" 0))
          = ParameterCollection ["vehicleValue"; "age"]) as Asked
    by (vm_compute; reflexivity).
  split; [exact Asked|].
  exact (proj1 (proj2 (prompt_never_asks_location_or_coverage (H := Sample.sampleService)
                         Sample.enUS (Sample.legacyOnly "Hi there!") ∅ "u1"
                         "how much is car insurance" 0 ["vehicleValue"; "age"] Asked))).
Defined.

(** The product is taken from the current message alone. Whatever the
    conversation so far says, a premium request that names no product (and
    is not a follow-up to a quote) is answered with the question for the
    type of insurance. *)
Theorem product_is_read_from_current_message_only `{PremiumCalculationService}
    (toLocaleString : Q -> string) (userMessage : string)
    (conversationHistory : list ConversationMessage) :
  isFollowUpToPremiumCalculation userMessage conversationHistory = false ->
  Extractor.detectInsuranceType userMessage = None ->
  handlePremiumCalculation toLocaleString userMessage conversationHistory
  = reply msgAskInsuranceType (9 # 10) [] (Knowledge "premium_calculation_start")
          "collect_insurance_type".
Proof.
  intros NotFollowUp Unnamed.
  destruct (premium_branch_cases toLocaleString userMessage conversationHistory)
    as [[E _]|[(_ & _ & E)|[(_ & insuranceType & missing & E & _)|(_ & E & _)]]];
    congruence.
Qed.

Lemma product_is_read_from_current_message_only_witness :
  num (Extractor.extractParametersFromHistory Sample.carConversation) "vehicleValue"
  = Some 50000%Q
  /\ message (handlePremiumCalculation (H := Sample.sampleService) Sample.enUS
                Sample.valueAnswer Sample.carConversation)
     = msgAskInsuranceType.
Proof.
  split; [vm_compute; reflexivity|].
  rewrite (product_is_read_from_current_message_only (H := Sample.sampleService) Sample.enUS
             Sample.valueAnswer Sample.carConversation);
    [reflexivity | vm_compute; reflexivity | vm_compute; reflexivity].
Defined.

(** ** When an auto quote is given *)

Lemma inject_Z_nonzero (n : Z) : (n <> 0)%Z -> Qeq_bool (inject_Z n) 0 = false.
Proof.
  intros Nonzero. destruct (Qeq_bool (inject_Z n) 0) eqn:Zero; [|done].
  apply Qeq_bool_iff in Zero. change 0%Q with (inject_Z 0) in Zero.
  rewrite inject_Z_injective in Zero. contradiction.
Qed.

Lemma merged_number_truthy (message : string) (history : list ConversationMessage)
    (k : string) :
  k = "age" \/ k = "vehicleValue" ->
  let allParams :=
    spread (Extractor.extractPremiumParameters message)
           (Extractor.extractParametersFromHistory history) in
  truthy allParams k = bool_decide (is_Some (num allParams k)).
Proof.
  cbv zeta. intros Key.
  pose proof (merged_shape _ _ (extracted_message_shape message)
                (extracted_history_shape history)) as (_ & Strs & Arrs & _).
  destruct (merged_numbers message history) as [Age Value].
  set (allParams := spread _ _) in *.
  unfold truthy. rewrite Arrs.
  assert (str allParams k = None) as ->.
  { apply Strs. destruct Key as [-> | ->]; intros In;
      repeat (apply elem_of_cons in In as [In|In]; [discriminate In|]);
      by apply elem_of_nil in In. }
  cbn [Js.truthyStr]. rewrite !orb_false_r.
  destruct (num allParams k) as [v|] eqn:Known; [|reflexivity].
  cbn [Js.truthyNum].
  assert (exists n : Z, v = inject_Z n /\ (n <> 0)%Z) as (n & -> & Nonzero).
  { destruct Key as [-> | ->].
    - destruct (Age v Known) as (n & -> & Range). exists n. split; [done | lia].
    - destruct (Value v Known) as (n & -> & Range). exists n. split; [done | lia]. }
  by rewrite inject_Z_nonzero.
Qed.

(** An auto quote is given exactly when a vehicle value and an age were
    found, in the message or in the history, and the rules service returns:
    for a premium request that names the auto product and is not a
    follow-up, the response carries a quote if and only if both numbers were
    extracted and [calculateAutoPremium] answers, and the quote is then the
    premium and the breakdown of the rules service, valid for 30 days; the
    city and the cover never stand in the way. *)
Theorem auto_quote_needs_value_and_age_only `{PremiumCalculationService}
    (toLocaleString : Q -> string) (userMessage : string)
    (conversationHistory : list ConversationMessage) :
  isFollowUpToPremiumCalculation userMessage conversationHistory = false ->
  Extractor.detectInsuranceType userMessage = Some "auto" ->
  let allParams :=
    spread (Extractor.extractPremiumParameters userMessage)
           (Extractor.extractParametersFromHistory conversationHistory) in
  let response := handlePremiumCalculation toLocaleString userMessage conversationHistory in
  forall quote : PremiumQuote,
    premiumQuote response = Some quote
    <-> (is_Some (num allParams "vehicleValue") /\ is_Some (num allParams "age")
         /\ exists answer,
              calculateAutoPremium (autoInput allParams) = Some answer
              /\ quote = {| amount := sq_premium answer;
                            quoteBreakdown := sq_breakdown answer;
                            validity := "30 days" |}).
Proof.
  intros NotFollowUp Auto. cbv zeta. intros quote.
  pose proof (merged_shape _ _ (extracted_message_shape userMessage)
                (extracted_history_shape conversationHistory)) as Shape.
  pose proof (merged_number_truthy userMessage conversationHistory "age" ltac:(by left))
    as AgeTruthy.
  pose proof (merged_number_truthy userMessage conversationHistory "vehicleValue"
                ltac:(by right)) as ValueTruthy.
  cbv zeta in AgeTruthy, ValueTruthy.
  unfold handlePremiumCalculation. rewrite NotFollowUp. cbv zeta.
  rewrite type_is_detected, Auto.
  set (allParams := spread _ _) in *.
  change (getRequiredParametersForType "auto")
    with ["vehicleValue"; "age"; "location"; "coverageType"].
  cbn [List.filter].
  rewrite (shape_has_location _ Shape), (shape_has_coverage _ Shape), AgeTruthy, ValueTruthy.
  cbn [negb].
  destruct (decide (is_Some (num allParams "vehicleValue"))) as [Value|NoValue];
    [rewrite (bool_decide_eq_true_2 _ Value) | rewrite (bool_decide_eq_false_2 _ NoValue)];
    (destruct (decide (is_Some (num allParams "age"))) as [Age|NoAge];
     [rewrite (bool_decide_eq_true_2 _ Age) | rewrite (bool_decide_eq_false_2 _ NoAge)]);
    cbn [negb length Nat.ltb Nat.leb premiumQuote reply];
    try (split; [done | by intros (? & ? & ?)]).
  unfold calculatePremium. change (Js.toLowerCase "auto") with "auto".
  cbn [String.eqb Ascii.eqb Bool.eqb]. unfold hasRequiredAutoParams.
  rewrite (shape_has_location _ Shape), AgeTruthy, ValueTruthy.
  rewrite (bool_decide_eq_true_2 _ Value), (bool_decide_eq_true_2 _ Age). cbn [andb].
  destruct (calculateAutoPremium (autoInput allParams)) as [answer|].
  - cbn [premiumQuote withQuote]. split.
    + intros [= <-]. repeat split; try assumption. by exists answer.
    + intros (_ & _ & answer' & [= <-] & ->). reflexivity.
  - cbn [premiumQuote reply]. split; [done|]. by intros (_ & _ & answer & ? & _).
Qed.

Lemma auto_quote_needs_value_and_age_only_witness :
  let history := [ {| role := user; content := Sample.carScenario; timestamp := 0 |} ] in
  let allParams :=
    spread (Extractor.extractPremiumParameters Sample.carScenario)
           (Extractor.extractParametersFromHistory history) in
  is_Some (premiumQuote (handlePremiumCalculation (H := Sample.sampleService) Sample.enUS
                           Sample.carScenario history))
  /\ is_Some (num allParams "vehicleValue") /\ is_Some (num allParams "age").
Proof.
  cbv zeta.
  destruct (premiumQuote
              (handlePremiumCalculation (H := Sample.sampleService) Sample.enUS
                 Sample.carScenario
                 [ {| role := user; content := Sample.carScenario; timestamp := 0 |} ]))
    as [quote|] eqn:Quoted.
  - split; [by eexists|].
    pose proof (auto_quote_needs_value_and_age_only (H := Sample.sampleService) Sample.enUS
                  Sample.carScenario
                  [ {| role := user; content := Sample.carScenario; timestamp := 0 |} ])
      as Fact.
    cbv zeta in Fact.
    destruct (proj1 (Fact ltac:(vm_compute; reflexivity) ltac:(vm_compute; reflexivity) quote)
                Quoted) as (Value & Age & _).
    by split.
  - vm_compute in Quoted. discriminate Quoted.
Defined.

(** ** Follow-ups to a quote *)

Lemma find_none {A} (p : A -> bool) (l : list A) :
  Forall (fun x => p x = false) l -> List.find p l = None.
Proof.
  induction 1 as [|x l No _ IH]; [reflexivity|]. cbn [List.find]. by rewrite No.
Qed.

(** A follow-up to a quote is answered with a third-party auto quote,
    computed from the parameters found in the history, or with one of seven
    fixed texts. The fixed texts do not depend on the conversation: the
    figures they name are the same whatever was quoted before. *)
Theorem follow_up_answers_are_fixed_texts `{PremiumCalculationService}
    (toLocaleString : Q -> string) (userMessage : string)
    (conversationHistory : list ConversationMessage) :
  let response := handlePremiumFollowUp toLocaleString userMessage conversationHistory in
  (exists premium breakdown,
     premiumQuote response
     = Some {| amount := premium; quoteBreakdown := breakdown; validity := "30 days" |}
     /\ calculatePremium "auto"
          (setStr "coverageType" "third_party"
                  (Extractor.extractParametersFromHistory conversationHistory))
        = Quote premium breakdown
     /\ (message response = msgThirdPartyQuote toLocaleString premium
         \/ message response = msgThirdPartyConfirmed toLocaleString premium))
  \/ (premiumQuote response = None
      /\ In (message response)
            [ msgNoRecentCalculation; msgThirdPartyEstimate; msgCoverageExplanation;
              msgComprehensiveExplanation; msgApplication; msgClarify; msgGeneralFollowUp ]).
Proof.
  cbv zeta. unfold handlePremiumFollowUp, thirdPartyQuoteResponse. cbv zeta.
  destruct (List.find _ (List.filter isAssistant (lastN 6 conversationHistory)));
    [|right; split; [reflexivity | by left]].
  destruct (calculatePremium "auto" _) as [premium breakdown|error] eqn:Calculated.
  - destruct (Js.includesAny (Js.toLowerCase userMessage) ["third party"; "3rd party"; "third-party"]
              && Js.includesAny (Js.toLowerCase userMessage)
                   ["quote"; "calculate"; "give me"; "show me"; "instead"; "rate"]).
    { left. exists premium, breakdown. split; [reflexivity|]. split; [reflexivity | by left]. }
    destruct (_ && Js.includesAny (Js.toLowerCase userMessage) ["yes"; "ok"; "sure"]).
    { left. exists premium, breakdown. split; [reflexivity|]. split; [reflexivity | by right]. }
    right.
    destruct (Js.includesAny (Js.toLowerCase userMessage) ["third party"; "3rd party"]);
      [split; [reflexivity | right; right; by left]|].
    destruct (Js.includesAny (Js.toLowerCase userMessage) ["comprehensive"; "comp"]);
      [split; [reflexivity | right; right; right; by left]|].
    destruct (Js.includesAny (Js.toLowerCase userMessage)
                ["apply"; "proceed"; "continue"; "start application"; "get started"]);
      [split; [reflexivity | right; right; right; right; by left]|].
    destruct (_ && negb _);
      [split; [reflexivity | right; right; right; right; right; by left]|].
    split; [reflexivity | right; right; right; right; right; right; by left].
  - right.
    destruct (Js.includesAny (Js.toLowerCase userMessage) ["third party"; "3rd party"; "third-party"]
              && Js.includesAny (Js.toLowerCase userMessage)
                   ["quote"; "calculate"; "give me"; "show me"; "instead"; "rate"]);
      [split; [reflexivity | right; by left]|].
    destruct (Js.includesAny (Js.toLowerCase userMessage) ["third party"; "3rd party"]);
      [split; [reflexivity | right; right; by left]|].
    destruct (Js.includesAny (Js.toLowerCase userMessage) ["comprehensive"; "comp"]);
      [split; [reflexivity | right; right; right; by left]|].
    destruct (Js.includesAny (Js.toLowerCase userMessage)
                ["apply"; "proceed"; "continue"; "start application"; "get started"]);
      [split; [reflexivity | right; right; right; right; by left]|].
    destruct (_ && negb _);
      [split; [reflexivity | right; right; right; right; right; by left]|].
    split; [reflexivity | right; right; right; right; right; right; by left].
Qed.

(** The detection of a follow-up is looser than its handler. A reply is
    taken for a follow-up as soon as one of the last four messages is an
    assistant message that mentions a premium in any letter case, but the
    handler looks for an assistant message that holds "Premium" or "GH₵" as
    written. When the last six messages hold none, the reply is answered
    with the text that no recent calculation is to be seen, and what the
    customer wrote is not read for parameters. *)
Theorem follow_up_without_a_quote_in_sight `{PremiumCalculationService}
    (toLocaleString : Q -> string) (userMessage : string)
    (conversationHistory : list ConversationMessage) :
  isFollowUpToPremiumCalculation userMessage conversationHistory = true ->
  Forall (fun msg => isAssistant msg = true ->
            Js.includes (content msg) "Premium" || Js.includes (content msg) "GH₵" = false)
         (lastN 6 conversationHistory) ->
  handlePremiumCalculation toLocaleString userMessage conversationHistory
  = reply msgNoRecentCalculation (7 # 10) [] (Knowledge "premium_follow_up_no_context")
          "restart_calculation".
Proof.
  intros FollowUp Unseen. unfold handlePremiumCalculation. rewrite FollowUp.
  unfold handlePremiumFollowUp. cbv zeta.
  rewrite find_none; [reflexivity|].
  induction Unseen as [|msg more Plain _ IH]; [constructor|].
  cbn [List.filter]. destruct (isAssistant msg); [|exact IH].
  constructor; [by apply Plain | exact IH].
Qed.

Lemma follow_up_without_a_quote_in_sight_witness :
  Js.includes Sample.ageQuestion "What is your age?" = true
  /\ message (handlePremiumCalculation (H := Sample.sampleService) Sample.enUS
                "ok I am 41" Sample.ageAnswered)
     = msgNoRecentCalculation.
Proof.
  split; [vm_compute; reflexivity|].
  rewrite (follow_up_without_a_quote_in_sight (H := Sample.sampleService) Sample.enUS
             "ok I am 41" Sample.ageAnswered);
    [reflexivity | vm_compute; reflexivity |].
  apply (bool_decide_unpack _). vm_compute. exact I.
Defined.

(** ** Keywords *)

Lemma existsb_two (s a b : string) :
  Js.includesAny s [a; b] = Js.includes s a || Js.includes s b.
Proof. unfold Js.includesAny. cbn [existsb]. by rewrite orb_false_r. Qed.

Lemma existsb_three (s a b c : string) :
  Js.includesAny s [a; b; c] = Js.includes s a || Js.includes s b || Js.includes s c.
Proof. unfold Js.includesAny. cbn [existsb]. by rewrite orb_false_r, orb_assoc. Qed.

(** The three product detectors agree where they answer: the product
    [detectInsuranceType] gives the calculator is the one
    [inferInsuranceTypeFromMessage] infers for the analysis, and whenever
    the WhatsApp route names a product in its quote template (anything but
    general) it is the product the calculator was given, unless the message
    speaks of death: the route does not know that keyword of life cover and
    may then name the business product instead. A message for which the
    calculator detects nothing is inferred as property, travel or general,
    and a message inferred as general yields no product interest. *)
Theorem product_detectors_agree (message : string) :
  (forall product, Extractor.detectInsuranceType message = Some product ->
     inferInsuranceTypeFromMessage message = product)
  /\ (Extractor.detectInsuranceType message = None ->
      inferInsuranceTypeFromMessage message ∈ ["property"; "travel"; "general"])
  /\ (Js.includes (Js.toLowerCase message) "death" = false ->
      WhatsApp.extractInsuranceType message <> "general" ->
      Extractor.detectInsuranceType message
      = Some (WhatsApp.extractInsuranceType message))
  /\ (inferInsuranceTypeFromMessage message = "general" ->
      extractProductInterests message = []).
Proof.
  unfold Extractor.detectInsuranceType, inferInsuranceTypeFromMessage,
    WhatsApp.extractInsuranceType, extractProductInterests. cbv zeta.
  rewrite existsb_three, !existsb_two.
  set (lower := Js.toLowerCase message).
  split; [|split; [|split]].
  - intros product.
    destruct (Js.includes lower "car" || Js.includes lower "vehicle" || Js.includes lower "auto");
      [by intros [= <-]|].
    destruct (Js.includes lower "health" || Js.includes lower "medical"); [by intros [= <-]|].
    destruct (Js.includes lower "life" || Js.includes lower "death"); [by intros [= <-]|].
    destruct (Js.includes lower "business" || Js.includes lower "commercial");
      [by intros [= <-]|].
    done.
  - destruct (Js.includes lower "car" || Js.includes lower "vehicle" || Js.includes lower "auto");
      [done|].
    destruct (Js.includes lower "health" || Js.includes lower "medical"); [done|].
    destruct (Js.includes lower "life" || Js.includes lower "death"); [done|].
    destruct (Js.includes lower "business" || Js.includes lower "commercial"); [done|].
    intros _.
    destruct (Js.includes lower "property" || Js.includes lower "home"); [repeat constructor|].
    destruct (Js.includes lower "travel" || Js.includes lower "trip"); repeat constructor.
  - intros Deathless. rewrite Deathless.
    replace (Js.includes lower "auto" || Js.includes lower "car" || Js.includes lower "vehicle")
      with (Js.includes lower "car" || Js.includes lower "vehicle" || Js.includes lower "auto")
      by (destruct (Js.includes lower "car"), (Js.includes lower "vehicle"),
            (Js.includes lower "auto"); reflexivity).
    destruct (Js.includes lower "car" || Js.includes lower "vehicle" || Js.includes lower "auto");
      [done|].
    destruct (Js.includes lower "health" || Js.includes lower "medical"); [done|].
    destruct (Js.includes lower "life"); cbn [orb]; [done|].
    destruct (Js.includes lower "business"); cbn [orb]; [done|].
    intros Named. by destruct Named.
  - destruct (Js.includes lower "car"), (Js.includes lower "vehicle"),
      (Js.includes lower "auto"); cbn [orb]; try discriminate.
    destruct (Js.includes lower "health"), (Js.includes lower "medical"); cbn [orb];
      try discriminate.
    destruct (Js.includes lower "life"), (Js.includes lower "death"); cbn [orb];
      try discriminate.
    destruct (Js.includes lower "business"), (Js.includes lower "commercial"); cbn [orb];
      try discriminate.
    destruct (Js.includes lower "property"), (Js.includes lower "home"); cbn [orb];
      try discriminate.
    destruct (Js.includes lower "travel"), (Js.includes lower "trip"); cbn [orb];
      try discriminate.
    reflexivity.
Qed.

(** What the legacy path cannot see. A message that mentions a premium or
    a cost, or asks how much, is a premium request and is answered by the
    premium branch, and so is every message that holds the word insurance;
    so for every message that reaches the legacy knowledge query and the
    analysis, [queryLegacyKnowledge] never reports the premium_calculation
    source, [extractInformationNeeds] never reports a need for pricing, and
    the message does not mention insurance. *)
Theorem pricing_never_reaches_the_legacy_path (message : string) :
  isPremiumCalculationRequest message = false ->
  ("premium_calculation" ∉ queryLegacyKnowledge message)
  /\ ("pricing" ∉ extractInformationNeeds message)
  /\ Js.includes (Js.toLowerCase message) "insurance" = false.
Proof.
  unfold isPremiumCalculationRequest. cbv zeta. intros Generic.
  apply orb_false_elim in Generic as [Generic _].
  apply orb_false_elim in Generic as [Keywords _].
  unfold Js.includesAny, premiumKeywords in Keywords. cbn [existsb] in Keywords.
  set (lower := Js.toLowerCase message) in *.
  assert (Js.includes lower "premium" = false /\ Js.includes lower "cost" = false
          /\ Js.includes lower "how much" = false /\ Js.includes lower "insurance" = false)
    as (Premium & Cost & HowMuch & Insurance).
  { repeat (apply orb_false_elim in Keywords as [? Keywords]). by repeat split. }
  unfold queryLegacyKnowledge, extractInformationNeeds. cbv zeta. fold lower.
  rewrite Premium, Cost, HowMuch. cbn [orb app]. split; [|split; [|exact Insurance]].
  - destruct (Js.includes lower "auto" || Js.includes lower "car"),
      (Js.includes lower "health"); cbn [app];
      intros In; repeat (apply elem_of_cons in In as [In|In]; [discriminate In|]);
      by apply elem_of_nil in In.
  - destruct (Js.includes lower "cover" || Js.includes lower "include"),
      (Js.includes lower "process" || Js.includes lower "apply"); cbn [app];
      intros In; repeat (apply elem_of_cons in In as [In|In]; [discriminate In|]);
      by apply elem_of_nil in In.
Qed.

Lemma pricing_never_reaches_the_legacy_path_witness :
  "premium_calculation" ∉ queryLegacyKnowledge "can you help me with my car papers".
Proof.
  refine (proj1 (pricing_never_reaches_the_legacy_path
                   "can you help me with my car papers" _)).
  vm_compute. reflexivity.
Defined.

(** ** The lead store *)

Section Sorting.

Context {A : Type}.
Variable compare : A -> A -> Q.

Lemma insertBy_Permutation (x : A) (l : list A) : Js.insertBy compare x l ≡ₚ x :: l.
Proof.
  induction l as [|y l IH]; [done|]. cbn [Js.insertBy].
  destruct (Qle_bool (compare x y) 0); [done|].
  rewrite IH. apply Permutation_swap.
Qed.

Lemma sort_Permutation (l : list A) : Js.sort compare l ≡ₚ l.
Proof.
  unfold Js.sort. induction l as [|x l IH]; [done|]. cbn [foldr].
  by rewrite insertBy_Permutation, IH.
Qed.

Hypothesis total :
  forall a b, Qle_bool (compare a b) 0 = true \/ Qle_bool (compare b a) 0 = true.
Hypothesis transitive :
  forall a b c, Qle_bool (compare a b) 0 = true -> Qle_bool (compare b c) 0 = true ->
                Qle_bool (compare a c) 0 = true.

Lemma insertBy_sorted (x : A) (l : list A) :
  StronglySorted (fun a b => Qle_bool (compare a b) 0 = true) l ->
  StronglySorted (fun a b => Qle_bool (compare a b) 0 = true) (Js.insertBy compare x l).
Proof.
  induction 1 as [|y l Sorted IH Above]; [by repeat constructor|]. cbn [Js.insertBy].
  destruct (Qle_bool (compare x y) 0) eqn:First.
  - constructor; [by constructor|]. constructor; [exact First|].
    eapply Forall_impl; [exact Above|]. intros z. by apply transitive.
  - constructor; [exact IH|].
    rewrite insertBy_Permutation. constructor; [|exact Above].
    destruct (total x y) as [Before|After]; [|exact After].
    congruence.
Qed.

Lemma sort_sorted (l : list A) :
  StronglySorted (fun a b => Qle_bool (compare a b) 0 = true) (Js.sort compare l).
Proof.
  unfold Js.sort. induction l as [|x l IH]; [constructor|]. cbn [foldr].
  by apply insertBy_sorted.
Qed.

(** Stability: among the items of a class whose members the comparator
    never puts behind one another, the order is the one of the input. *)
Variable class : A -> bool.
Hypothesis level :
  forall a b, class a = true -> class b = true -> Qle_bool (compare a b) 0 = true.

Lemma insertBy_stable (x : A) (l : list A) :
  List.filter class (Js.insertBy compare x l) = List.filter class (x :: l).
Proof.
  induction l as [|y l IH]; [done|]. cbn [Js.insertBy].
  destruct (Qle_bool (compare x y) 0) eqn:First; [done|].
  cbn [List.filter] in *. rewrite IH.
  destruct (class x) eqn:X, (class y) eqn:Y; try reflexivity.
  pose proof (level x y X Y) as Before. congruence.
Qed.

Lemma sort_stable (l : list A) : List.filter class (Js.sort compare l) = List.filter class l.
Proof.
  unfold Js.sort. induction l as [|x l IH]; [done|]. cbn [foldr].
  rewrite insertBy_stable. cbn [List.filter]. by rewrite IH.
Qed.

End Sorting.

Lemma StronglySorted_weaken {A} (R R' : A -> A -> Prop) (l : list A) :
  (forall a b, R a b -> R' a b) -> StronglySorted R l -> StronglySorted R' l.
Proof.
  intros Weaker. induction 1 as [|x l Sorted IH Above]; constructor; [exact IH|].
  eapply Forall_impl; [exact Above|]. intros y. apply Weaker.
Qed.

Lemma compareLeads_ranks (a b : LeadService.Lead) :
  Qle_bool (LeadService.compareLeads a b) 0 = true <-> ranksBefore a b.
Proof.
  unfold LeadService.compareLeads, ranksBefore, Js.neqb.
  rewrite Qle_bool_iff.
  destruct (Qeq_bool (LeadService.score b) (LeadService.score a)) eqn:Same; cbn [negb].
  - apply Qeq_bool_iff in Same. split.
    + intros Le. right. split; [exact Same|].
      change 0%Q with (inject_Z 0) in Le. rewrite <- Zle_Qle in Le. lia.
    + intros [Lt|[_ Le]]; [rewrite Same in Lt; by apply Qlt_irrefl in Lt|].
      change 0%Q with (inject_Z 0). rewrite <- Zle_Qle. lia.
  - assert (~ (LeadService.score b == LeadService.score a)%Q) as Differ.
    { intros E. apply Qeq_bool_iff in E. congruence. }
    split.
    + intros Le. left. apply Qle_lt_or_eq in Le as [Lt|E]; [lra|].
      exfalso. apply Differ. lra.
    + intros [Lt|[E _]]; [lra | by destruct Differ].
Qed.

Lemma ranksBefore_total (a b : LeadService.Lead) : ranksBefore a b \/ ranksBefore b a.
Proof.
  unfold ranksBefore.
  destruct (Q_dec (LeadService.score a) (LeadService.score b)) as [[Lt|Gt]|E].
  - right. by left.
  - left. by left.
  - destruct (Z_le_gt_dec (LeadService.createdAt b) (LeadService.createdAt a)).
    + left. right. split; [by symmetry | done].
    + right. right. split; [done | lia].
Qed.

Lemma ranksBefore_transitive (a b c : LeadService.Lead) :
  ranksBefore a b -> ranksBefore b c -> ranksBefore a c.
Proof.
  unfold ranksBefore. intros [Lt|[E Le]] [Lt'|[E' Le']].
  - left. lra.
  - left. lra.
  - left. lra.
  - right. split; [lra | lia].
Qed.

Lemma filter_filter {A} (p q : A -> bool) (l : list A) :
  List.filter p (List.filter q l) = List.filter (fun x => q x && p x) l.
Proof.
  induction l as [|x l IH]; [done|]. cbn [List.filter].
  destruct (q x); cbn [List.filter andb]; [destruct (p x)|]; by rewrite IH.
Qed.

Lemma filter_all {A} (l : list A) : List.filter (fun _ => true) l = l.
Proof. induction l as [|x l IH]; [done|]. cbn. by rewrite IH. Qed.

Lemma filter_agree {A} (p q : A -> bool) (l : list A) :
  (forall x, p x = q x) -> List.filter p l = List.filter q l.
Proof.
  intros Same. induction l as [|x l IH]; [done|]. cbn [List.filter].
  by rewrite Same, IH.
Qed.

Lemma filter_when {A} (active : bool) (p : A -> bool) (l : list A) :
  (if active then List.filter p l else l) = List.filter (fun x => negb active || p x) l.
Proof. destruct active; cbn [negb orb]; [reflexivity | by rewrite filter_all]. Qed.

(** What [getLeads] sorts: the stored leads that pass the filters, in the
    stored order. *)
Lemma getLeads_sorts_the_passing (stored : list LeadService.Lead)
    (filters : LeadService.LeadFilters) :
  LeadService.getLeads stored filters
  = Js.sort LeadService.compareLeads (List.filter (passes filters) stored).
Proof.
  unfold LeadService.getLeads. cbv zeta. f_equal.
  rewrite !filter_when.
  assert (forall l : list LeadService.Lead,
            match LeadService.f_minScore filters with
            | Some minScore =>
                if Js.truthyNum (Some minScore)
                then List.filter (fun lead => Js.geb (LeadService.score lead) minScore) l
                else l
            | None => l
            end
            = List.filter
                (fun lead =>
                   negb (Js.truthyNum (LeadService.f_minScore filters))
                   || match LeadService.f_minScore filters with
                      | Some minScore => Js.geb (LeadService.score lead) minScore
                      | None => true
                      end) l) as ->.
  { intros l. destruct (LeadService.f_minScore filters) as [minScore|].
    - apply filter_when.
    - by rewrite filter_all. }
  rewrite !filter_filter. apply filter_agree. intros lead. unfold passes.
  by rewrite andb_assoc.
Qed.

(** [getLeads] returns the stored leads that pass the filters, each as
    often as it is stored, the higher score first and the later creation
    date first among equal scores; leads that tie on both keep the order
    in which they were stored. A filter that is absent, empty or zero
    (a [minScore] of 0) filters nothing. *)
Theorem getLeads_filters_and_ranks (stored : list LeadService.Lead)
    (filters : LeadService.LeadFilters) :
  LeadService.getLeads stored filters ≡ₚ List.filter (passes filters) stored
  /\ StronglySorted ranksBefore (LeadService.getLeads stored filters)
  /\ (forall lead,
        List.filter (tiedWith lead) (LeadService.getLeads stored filters)
        = List.filter (tiedWith lead) (List.filter (passes filters) stored)).
Proof.
  rewrite getLeads_sorts_the_passing. split; [apply sort_Permutation|]. split.
  - eapply StronglySorted_weaken; [|apply sort_sorted].
    + intros a b. apply compareLeads_ranks.
    + intros a b. rewrite !compareLeads_ranks. apply ranksBefore_total.
    + intros a b c. rewrite !compareLeads_ranks. apply ranksBefore_transitive.
  - intros lead. apply sort_stable. intros a b TiedA TiedB.
    apply compareLeads_ranks. unfold tiedWith in *.
    apply andb_true_iff in TiedA as [ScoreA DateA], TiedB as [ScoreB DateB].
    apply Qeq_bool_iff in ScoreA, ScoreB. apply Z.eqb_eq in DateA, DateB.
    right. split; [by rewrite <- ScoreA, <- ScoreB | lia].
Qed.

(** ** Stored leads *)

Lemma generateNextSteps_length (urgency : option string) (interests : option (list string)) :
  (2 <= length (LeadService.generateNextSteps urgency interests) <= 6)%nat.
Proof.
  unfold LeadService.generateNextSteps. rewrite !length_app.
  destruct (LeadService.isLevel urgency "high"), (LeadService.isLevel urgency "medium"),
    (LeadService.includesInterest interests "auto"),
    (LeadService.includesInterest interests "health"),
    (LeadService.includesInterest interests "life"),
    (LeadService.includesInterest interests "business"); cbn [length]; lia.
Qed.

(** What holds of a lead as [captureLead] and [createLead] build it. *)
Lemma handle_builds_new_lead (leads : gmap string LeadService.Lead)
    (request : LeadService.Request) (k : string) (lead : LeadService.Lead) :
  LeadService.handle leads request !! k = Some lead ->
  leads !! k = Some lead
  \/ (LeadService.id lead = k /\ LeadService.status lead = "new"
      /\ (2 <= length (LeadService.nextSteps lead) <= 6)%nat).
Proof.
  destruct request as [leadData leadId now|leadData leadId now];
    cbn [LeadService.handle LeadService.captureLead LeadService.createLead fst];
    (destruct (decide (leadId = k)) as [->|Other];
     [ rewrite lookup_insert_eq; intros [= <-]; right;
       cbn [LeadService.id LeadService.status LeadService.nextSteps];
       repeat split; apply generateNextSteps_length
     | rewrite lookup_insert_ne by done; by left ]).
Qed.

(** As long as leads are only captured and created, every stored lead is
    filed under its own id, is new and has between two and six next
    steps; [getLeadById] finds it by its id. *)
Theorem stored_leads_are_filed_under_their_id (requests : list LeadService.Request)
    (leadId : string) (lead : LeadService.Lead) :
  LeadService.getLeadById (LeadService.serve requests) leadId = Some lead ->
  LeadService.id lead = leadId
  /\ LeadService.status lead = "new"
  /\ (2 <= length (LeadService.nextSteps lead) <= 6)%nat
  /\ LeadService.getLeadById (LeadService.serve requests) (LeadService.id lead) = Some lead.
Proof.
  unfold LeadService.getLeadById, LeadService.serve.
  assert (forall leads,
            (forall k l, leads !! k = Some l ->
               LeadService.id l = k /\ LeadService.status l = "new"
               /\ (2 <= length (LeadService.nextSteps l) <= 6)%nat) ->
            forall k l, fold_left LeadService.handle requests leads !! k = Some l ->
               LeadService.id l = k /\ LeadService.status l = "new"
               /\ (2 <= length (LeadService.nextSteps l) <= 6)%nat) as Kept.
  { induction requests as [|request requests IH]; intros leads Inv; [exact Inv|].
    cbn [fold_left]. apply IH. intros k l Stored.
    apply handle_builds_new_lead in Stored as [Old|New]; [by apply Inv | exact New]. }
  intros Stored. pose proof (Kept ∅ ltac:(intros k l; by rewrite lookup_empty) _ _ Stored)
    as (Id & Status & Steps).
  repeat split; try assumption; try lia. by rewrite Id.
Qed.

Lemma stored_leads_are_filed_under_their_id_witness :
  exists lead,
    LeadService.getLeadById
      (LeadService.serve [ LeadService.Capture Sample.eagerCaller "lead_1" 0;
                           LeadService.Create Sample.webForm "lead_2" 1 ]) "lead_2"
    = Some lead
    /\ LeadService.id lead = "lead_2" /\ LeadService.status lead = "new".
Proof.
  destruct (LeadService.getLeadById
              (LeadService.serve [ LeadService.Capture Sample.eagerCaller "lead_1" 0;
                                   LeadService.Create Sample.webForm "lead_2" 1 ]) "lead_2")
    as [lead|] eqn:Stored.
  - exists lead. split; [reflexivity|].
    destruct (stored_leads_are_filed_under_their_id _ _ _ Stored) as (Id & Status & _).
    by split.
  - vm_compute in Stored. discriminate Stored.
Defined.

(** [updateLead] changes nothing but the lead it is asked to change: it
    answers [null] exactly for an unknown id and then leaves the store as
    it is; for a known id it stores the merged lead under the same id,
    stamped with the time of the update whatever date the updates carry; no
    id is added or removed and no other lead is touched. It does not
    recompute what depends on the updated fields: urgency and next steps
    stay as they are unless the updates carry them. *)
Theorem updateLead_changes_one_lead (leads : gmap string LeadService.Lead)
    (leadId : string) (updates : LeadService.LeadUpdates) (now : Z) :
  let result := LeadService.updateLead leads leadId updates now in
  (snd result = None <-> LeadService.getLeadById leads leadId = None)
  /\ (snd result = None -> fst result = leads)
  /\ (forall lead, snd result = Some lead ->
        LeadService.getLeadById (fst result) leadId = Some lead
        /\ LeadService.updatedAt lead = now)
  /\ dom (fst result) = dom leads
  /\ (forall other, other <> leadId ->
        LeadService.getLeadById (fst result) other = LeadService.getLeadById leads other)
  /\ (forall old lead, LeadService.getLeadById leads leadId = Some old ->
        snd result = Some lead ->
        LeadService.up_urgencyLevel updates = None ->
        LeadService.up_nextSteps updates = None ->
        LeadService.urgencyLevel lead = LeadService.urgencyLevel old
        /\ LeadService.nextSteps lead = LeadService.nextSteps old).
Proof.
  cbv zeta. unfold LeadService.updateLead, LeadService.getLeadById.
  destruct (leads !! leadId) as [old|] eqn:Known; cbn [fst snd].
  - split; [done|]. split; [done|]. split.
    { intros lead [= <-]. by rewrite lookup_insert_eq. }
    split.
    { apply set_eq. intros k. rewrite dom_insert, elem_of_union, elem_of_singleton.
      split; [intros [->|In]; [by apply elem_of_dom|done] | by right]. }
    split.
    { intros other Other. by rewrite lookup_insert_ne. }
    intros old' lead [= <-] [= <-] Urgency Steps.
    cbn [LeadService.urgencyLevel LeadService.nextSteps]. by rewrite Urgency, Steps.
  - split; [done|]. split; [done|]. split; [done|]. split; [done|]. split; done.
Qed.

(** ** Lead statistics *)






(** ** Urgency of the stored leads *)

Lemma readinessPoints_bounds (readiness : option string) :
  (5 <= WhatsApp.readinessPoints readiness <= 25)%Q.
Proof.
  unfold WhatsApp.readinessPoints. destruct readiness as [r|]; [|lra].
  repeat (match goal with |- context [String.eqb ?a ?b] => destruct (String.eqb a b) end);
    lra.
Qed.

Lemma whatsapp_score_floor (aiConfidence : Q) (aiAnalysis : option WhatsApp.Signals) :
  (0 <= aiConfidence)%Q ->
  (20 <= WhatsApp.calculateWhatsAppLeadScore aiConfidence aiAnalysis)%Q.
Proof.
  intros Confident. unfold WhatsApp.calculateWhatsAppLeadScore. cbv zeta.
  pose proof (readinessPoints_bounds (aiAnalysis ≫= WhatsApp.ws_leadReadiness)) as [Low _].
  set (readiness := WhatsApp.readinessPoints _) in *.
  set (signals := default [] (aiAnalysis ≫= WhatsApp.ws_buyingSignals)).
  assert (0 <= inject_Z (Z.of_nat (length signals)))%Q as Counted.
  { change 0%Q with (inject_Z 0). rewrite <- Zle_Qle. lia. }
  set (count := inject_Z (Z.of_nat (length signals))) in *.
  set (urgency := ((if LeadService.isLevel (aiAnalysis ≫= WhatsApp.ws_urgencyLevel) "high"
                    then 20
                    else if LeadService.isLevel (aiAnalysis ≫= WhatsApp.ws_urgencyLevel) "medium"
                         then 10 else 0))%Q).
  assert (0 <= urgency)%Q as Urgent.
  { subst urgency.
    destruct (LeadService.isLevel (aiAnalysis ≫= WhatsApp.ws_urgencyLevel) "high"),
      (LeadService.isLevel (aiAnalysis ≫= WhatsApp.ws_urgencyLevel) "medium"); lra. }
  unfold Js.Math_min, Js.Math_max.
  apply Q.min_glb; [lra|].
  eapply Qle_trans; [|apply Q.le_max_r]. lra.
Qed.

(** Every lead captured through the WhatsApp route is a high-urgency
    lead. The route scores on a scale of 0 to 100 and never below 20 (for
    a confidence that is not negative), while [captureLead] reads the score
    on the scale of 0 to 10 of the lead scorer, where 8.5 is already high:
    the stored lead is marked high and its next steps start with the call
    within the hour. *)
Theorem whatsapp_leads_are_always_urgent (leads : gmap string LeadService.Lead)
    (phoneNumber productInterest : string) (aiConfidence : Q)
    (aiAnalysis : option WhatsApp.Signals) (leadId : string) (now : Z) :
  (0 <= aiConfidence)%Q ->
  let lead :=
    snd (LeadService.captureLead leads
           (WhatsApp.leadDataFor phoneNumber productInterest aiConfidence aiAnalysis)
           leadId now) in
  LeadService.urgencyLevel lead = "high"
  /\ take 2 (LeadService.nextSteps lead)
     = ["Contact within 1 hour"; "Prepare personalized quote"]
  /\ (20 <= LeadService.score lead <= 100)%Q.
Proof.
  intros Confident. cbv zeta.
  pose proof (whatsapp_score_floor aiConfidence aiAnalysis Confident) as Floor.
  pose proof (whatsapp_score_bounds aiConfidence aiAnalysis) as [_ Cap].
  unfold LeadService.captureLead, WhatsApp.leadDataFor. cbv zeta.
  cbn [snd LeadService.urgencyLevel LeadService.nextSteps LeadService.score
       LeadService.cl_score LeadService.cl_productInterest].
  assert (LeadService.determineUrgencyLevel
            (WhatsApp.calculateWhatsAppLeadScore aiConfidence aiAnalysis) = "high") as ->.
  { unfold LeadService.determineUrgencyLevel, Js.geb.
    assert (Qle_bool (85 # 10) (WhatsApp.calculateWhatsAppLeadScore aiConfidence aiAnalysis)
            = true) as ->; [|reflexivity].
    apply Qle_bool_iff. lra. }
  split; [reflexivity|]. split; [reflexivity|]. split; assumption.
Qed.

Lemma whatsapp_leads_are_always_urgent_witness :
  LeadService.urgencyLevel
    (snd (LeadService.captureLead ∅ (WhatsApp.leadDataFor "233200000000" "general" 0 None)
            "lead_1" 0))
  = "high".
Proof.
  refine (proj1 (whatsapp_leads_are_always_urgent ∅ "233200000000" "general" 0 None
                   "lead_1" 0 _)).
  vm_compute. discriminate.
Defined.

(** A lead created without an urgency level is stored as medium but
    handled as low: [createLead] defaults the stored level to medium, while
    the score and the next steps are computed from the data as sent. The
    next steps are those of the nurture sequence, not the ones a medium
    lead gets, and the score lacks the 10 points of a medium lead. *)
Theorem default_urgency_is_stored_but_not_used (leads : gmap string LeadService.Lead)
    (leadData : LeadService.LeadData) (leadId : string) (now : Z) :
  LeadService.ld_urgencyLevel leadData = None ->
  let lead := snd (LeadService.createLead leads leadData leadId now) in
  let asStored :=
    {| LeadService.ld_name := LeadService.ld_name leadData;
       LeadService.ld_email := LeadService.ld_email leadData;
       LeadService.ld_phone := LeadService.ld_phone leadData;
       LeadService.ld_source := LeadService.ld_source leadData;
       LeadService.ld_interests := LeadService.ld_interests leadData;
       LeadService.ld_urgencyLevel := Some (LeadService.urgencyLevel lead) |} in
  LeadService.urgencyLevel lead = "medium"
  /\ take 2 (LeadService.nextSteps lead) = ["Add to nurture sequence"; "Contact within 3 days"]
  /\ take 2 (LeadService.generateNextSteps (Some (LeadService.urgencyLevel lead))
               (LeadService.ld_interests leadData))
     = ["Contact within 24 hours"; "Send educational content"]
  /\ (LeadService.score lead <= LeadService.calculateLeadScore asStored)%Q.
Proof.
  intros Unset. cbv zeta. unfold LeadService.createLead. cbv zeta.
  cbn [snd LeadService.urgencyLevel LeadService.nextSteps LeadService.score].
  rewrite Unset. cbn [Js.strOr].
  split; [reflexivity|]. split; [reflexivity|]. split; [reflexivity|].
  unfold LeadService.calculateLeadScore. cbv zeta. rewrite Unset.
  cbn [LeadService.ld_email LeadService.ld_phone LeadService.ld_name LeadService.ld_interests
       LeadService.ld_urgencyLevel LeadService.ld_source LeadService.isLevel].
  change (String.eqb "medium" "high") with false. change (String.eqb "medium" "medium") with true.
  cbn [LeadService.bonus].
  unfold Js.Math_min, Js.Math_max.
  apply Q.min_le_compat_l. apply Q.max_le_compat_l. lra.
Qed.

Lemma default_urgency_is_stored_but_not_used_witness :
  let lead := snd (LeadService.createLead ∅ Sample.plainForm "lead_1" 0) in
  LeadService.urgencyLevel lead = "medium"
  /\ take 2 (LeadService.nextSteps lead) = ["Add to nurture sequence"; "Contact within 3 days"].
Proof.
  cbv zeta.
  pose proof (default_urgency_is_stored_but_not_used ∅ Sample.plainForm "lead_1" 0 eq_refl)
    as Fact.
  cbv zeta in Fact. destruct Fact as (Stored & Steps & _). by split.
Defined.

(** ** The simplified service and the WhatsApp route *)





(** ** Phone numbers of the WhatsApp route *)

Lemma keepDigits_digits (s : string) (c : ascii) :
  In c (list_ascii_of_string (WhatsApp.keepDigits s)) -> Regex.isDigit c = true.
Proof.
  induction s as [|d s IH]; [done|]. cbn [WhatsApp.keepDigits].
  destruct (Regex.isDigit d) eqn:Digit; [|exact IH].
  cbn [list_ascii_of_string In]. intros [<-|Later]; [exact Digit | by apply IH].
Qed.

Lemma keepDigits_fixed (s : string) :
  (forall c, In c (list_ascii_of_string s) -> Regex.isDigit c = true) ->
  WhatsApp.keepDigits s = s.
Proof.
  induction s as [|d s IH]; [done|]. cbn [WhatsApp.keepDigits list_ascii_of_string In].
  intros Digits. rewrite (Digits d) by (by left). f_equal. apply IH. intros c In.
  apply Digits. by right.
Qed.

Lemma length_append (a b : string) :
  String.length (a +:+ b) = (String.length a + String.length b)%nat.
Proof.
  induction a as [|c a IH]; [done|].
  change (String.length (String c (a +:+ b)) = S (String.length a) + String.length b)%nat.
  cbn [String.length]. by rewrite IH.
Qed.

Lemma length_dropFirst (s : string) : String.length (Js.dropFirst s) = pred (String.length s).
Proof. by destruct s. Qed.

Lemma cleanPhoneNumber_cases (phoneNumber : string) :
  let digits := WhatsApp.keepDigits phoneNumber in
  let cleaned := WhatsApp.cleanPhoneNumber phoneNumber in
  (String.length digits = 9%nat
   /\ (String.length cleaned = 11%nat \/ String.length cleaned = 12%nat)
   /\ Js.startsWith cleaned "233" = true)
  \/ (String.length digits = 10%nat /\ Js.startsWith digits "233" = false
      /\ cleaned = "233" +:+ digits)
  \/ (String.length digits <> 9%nat
      /\ (String.length digits = 10%nat -> Js.startsWith digits "233" = true)
      /\ cleaned = digits).
Proof.
  cbv zeta. unfold WhatsApp.cleanPhoneNumber. cbv zeta.
  set (digits := WhatsApp.keepDigits phoneNumber).
  destruct (String.length digits =? 9)%nat eqn:Nine.
  - apply Nat.eqb_eq in Nine. left. split; [exact Nine|].
    destruct (Js.startsWith digits "0"); cbn [andb].
    + split; [|apply prefix_append]. left.
      rewrite length_append, length_dropFirst, Nine. reflexivity.
    + split; [|apply prefix_append]. right. rewrite length_append, Nine. reflexivity.
  - apply Nat.eqb_neq in Nine. right. cbn [andb].
    destruct (String.length digits =? 10)%nat eqn:Ten.
    + apply Nat.eqb_eq in Ten. destruct (Js.startsWith digits "233") eqn:Prefixed; cbn [andb negb].
      * right. by repeat split.
      * left. by repeat split.
    + apply Nat.eqb_neq in Ten. right. cbn [andb]. by repeat split.
Qed.

Lemma cleaned_is_digits (phoneNumber : string) (c : ascii) :
  In c (list_ascii_of_string (WhatsApp.cleanPhoneNumber phoneNumber)) ->
  Regex.isDigit c = true.
Proof.
  assert (forall s : string, In c (list_ascii_of_string ("233" +:+ s)) ->
            Regex.isDigit c = true \/ In c (list_ascii_of_string s)) as Prefixed.
  { intros s. change ("233" +:+ s) with (String "2" (String "3" (String "3" s))).
    cbn [list_ascii_of_string In]. intros [<-|[<-|[<-|Later]]]; auto. }
  assert (forall s : string, In c (list_ascii_of_string (Js.dropFirst s)) ->
            In c (list_ascii_of_string s)) as Dropped.
  { intros [|d s]; [done|]. cbn [Js.dropFirst list_ascii_of_string In]. auto. }
  unfold WhatsApp.cleanPhoneNumber. cbv zeta.
  repeat case_match; intros In;
    try (apply Prefixed in In as [Digit|In]; [exact Digit|]);
    try apply Dropped in In; by apply keepDigits_digits in In.
Qed.

(** [cleanPhoneNumber] returns digits only, and cleaning a cleaned number
    changes nothing. A number is valid for WhatsApp exactly when it holds
    between 9 and 15 digits, whatever else it holds. The country code is
    put in front of every number of 9 digits and of every number of 10
    digits that does not start with 233, so a local number of 10 digits
    keeps its leading 0 behind the code and comes out with 13 digits. *)
Theorem phone_numbers_are_cleaned_once (phoneNumber : string) :
  let cleaned := WhatsApp.cleanPhoneNumber phoneNumber in
  (forall c, In c (list_ascii_of_string cleaned) -> Regex.isDigit c = true)
  /\ WhatsApp.cleanPhoneNumber cleaned = cleaned
  /\ (WhatsApp.isValidWhatsAppNumber phoneNumber = true
      <-> (9 <= String.length (WhatsApp.keepDigits phoneNumber) <= 15)%nat)
  /\ (String.length (WhatsApp.keepDigits phoneNumber) = 10%nat ->
      Js.startsWith (WhatsApp.keepDigits phoneNumber) "0" = true ->
      cleaned = "233" +:+ WhatsApp.keepDigits phoneNumber
      /\ String.length cleaned = 13%nat).
Proof.
  cbv zeta. split; [apply cleaned_is_digits|]. split; [|split].
  - pose proof (keepDigits_fixed _ (cleaned_is_digits phoneNumber)) as Fixed.
    destruct (cleanPhoneNumber_cases phoneNumber)
      as [(Nine & Length & Prefixed)|[(Ten & Plain & Shape)|(NotNine & Ten & Shape)]].
    + unfold WhatsApp.cleanPhoneNumber at 1. cbv zeta. rewrite Fixed.
      destruct Length as [-> | ->]; reflexivity.
    + unfold WhatsApp.cleanPhoneNumber at 1. cbv zeta. rewrite Fixed.
      assert (String.length (WhatsApp.cleanPhoneNumber phoneNumber) = 13%nat) as ->
        by (rewrite Shape, length_append, Ten; reflexivity).
      reflexivity.
    + unfold WhatsApp.cleanPhoneNumber at 1. cbv zeta. rewrite Fixed, Shape.
      destruct (String.length (WhatsApp.keepDigits phoneNumber) =? 9)%nat eqn:Nine;
        [apply Nat.eqb_eq in Nine; contradiction|].
      cbn [andb].
      destruct (String.length (WhatsApp.keepDigits phoneNumber) =? 10)%nat eqn:IsTen;
        [|reflexivity].
      apply Nat.eqb_eq in IsTen. by rewrite (Ten IsTen).
  - unfold WhatsApp.isValidWhatsAppNumber. cbv zeta.
    rewrite andb_true_iff, Nat.leb_le, Nat.leb_le.
    destruct (cleanPhoneNumber_cases phoneNumber)
      as [(Nine & Length & Prefixed)|[(Ten & Plain & Shape)|(NotNine & Ten & Shape)]].
    + destruct Length as [-> | ->]; lia.
    + rewrite Shape, length_append, Ten. cbn [String.length]. lia.
    + rewrite Shape. lia.
  - intros Ten Local.
    destruct (cleanPhoneNumber_cases phoneNumber)
      as [(Nine & _)|[(_ & Plain & Shape)|(NotNine & Prefixed & Shape)]].
    + lia.
    + split; [exact Shape|]. rewrite Shape, length_append, Ten. reflexivity.
    + specialize (Prefixed Ten). exfalso.
      unfold Js.startsWith in *.
      destruct (WhatsApp.keepDigits phoneNumber) as [|c rest]; [done|].
      cbn [String.prefix] in Local. destruct (Ascii.ascii_dec "0" c) as [<-|]; [|done].
      vm_compute in Prefixed. discriminate Prefixed.
Qed.

(** ** [withRetry] *)

Section Retry.

Context {T : Type}.
Variable operation : nat -> Api.Outcome T.
Variable maxRetries : Z.

Lemma attempts_spec (remaining attempt : nat) (delay : Q) (lastError : option Api.ApiError)
    (waited : list Q) :
  (1 <= attempt)%nat ->
  (Z.of_nat attempt + Z.of_nat remaining = maxRetries + 2)%Z ->
  let run := Api.attempts operation maxRetries remaining attempt delay lastError waited in
  let n := Api.calls run in
  (attempt - 1 <= n <= attempt - 1 + remaining)%nat
  /\ (1 <= remaining -> attempt <= n)%nat
  /\ Api.waits run = waited ++ backoff delay (pred (n - (attempt - 1)))
  /\ (forall j, (attempt <= j < n)%nat ->
        exists e, operation j = Api.Rejected e /\ Api.isClientError e = false)
  /\ match Api.settled run with
     | Api.Returned v => (attempt <= n)%nat /\ operation n = Api.Resolved v
     | Api.Thrown thrown =>
         (remaining = 0%nat /\ thrown = lastError)
         \/ (exists e, thrown = Some e /\ (attempt <= n)%nat /\ operation n = Api.Rejected e
                       /\ (Api.isClientError e = true \/ Z.of_nat n = (maxRetries + 1)%Z))
     end.
Proof.
  revert attempt delay lastError waited.
  induction remaining as [|remaining IH]; intros attempt delay lastError waited Started Budget;
    cbv zeta; cbn [Api.attempts].
  - cbn [Api.calls Api.waits Api.settled].
    replace (attempt - 1 - (attempt - 1))%nat with 0%nat by lia. cbn [pred backoff].
    rewrite app_nil_r. repeat split; try lia. by left.
  - destruct (operation attempt) as [value|error] eqn:Called.
    + cbn [Api.calls Api.waits Api.settled].
      replace (attempt - (attempt - 1))%nat with 1%nat by lia. cbn [pred backoff].
      rewrite app_nil_r. repeat split; try lia. exact Called.
    + destruct (Api.isClientError error) eqn:Client.
      * cbn [Api.calls Api.waits Api.settled].
        replace (attempt - (attempt - 1))%nat with 1%nat by lia. cbn [pred backoff].
        rewrite app_nil_r. repeat split; try lia.
        right. exists error. repeat split; try lia; auto.
      * destruct (Z.of_nat attempt <=? maxRetries)%Z eqn:Retry.
        -- apply Z.leb_le in Retry.
           specialize (IH (S attempt) (delay * (3 # 2))%Q (Some error) (waited ++ [delay])
                          ltac:(lia) ltac:(lia)).
           cbv zeta in IH. destruct IH as (Range & Progress & Waits & Earlier & Settled).
           set (run := Api.attempts _ _ _ _ _ _ _) in *.
           specialize (Progress ltac:(lia)).
           split; [lia|]. split; [lia|]. split.
           { rewrite Waits, <- app_assoc. f_equal.
             replace (Api.calls run - (attempt - 1))%nat
               with (S (S (pred (Api.calls run - (S attempt - 1))))) by lia.
             reflexivity. }
           split.
           { intros j Between. destruct (decide (j = attempt)) as [->|Later].
             - by exists error.
             - apply Earlier. lia. }
           destruct (Api.settled run) as [v|thrown].
           ++ split; [lia | apply Settled].
           ++ right. destruct Settled as [[Exhausted _]|(e & -> & Later & Failed & Why)]; [lia|].
              exists e. repeat split; try lia; auto.
        -- apply Z.leb_gt in Retry.
           assert (remaining = 0%nat) as -> by lia.
           cbn [Api.attempts Api.calls Api.waits Api.settled].
           replace (S attempt - 1 - (attempt - 1))%nat with 1%nat by lia. cbn [pred backoff].
           rewrite app_nil_r.
           split; [lia|]. split; [lia|]. split; [reflexivity|]. split.
           { intros j Between. lia. }
           right. exists error. replace (S attempt - 1)%nat with attempt by lia.
           repeat split; try lia; auto.
Qed.

End Retry.

(** [withRetry] calls the operation at most [maxRetries + 1] times and
    stops at the first call that resolves or that is rejected with a client
    error (a status from 400 to 499 other than 408); every call before the
    last one was rejected with an error worth a retry. It returns the value
    of the call that resolved, and throws the error of its last call
    otherwise - or nothing at all when [maxRetries + 1] is not positive, so
    that the operation is never called. Between two calls it pauses, first
    for [delay], then half as long again each time: no pause follows the
    last call. *)
Theorem withRetry_backs_off_and_stops {T : Type} (operation : nat -> Api.Outcome T)
    (maxRetries : Z) (delay : Q) :
  let run := Api.withRetry operation maxRetries delay in
  let n := Api.calls run in
  (Z.of_nat n <= Z.max 0 (maxRetries + 1))%Z
  /\ Api.waits run = backoff delay (pred n)
  /\ (forall j, (1 <= j < n)%nat ->
        exists e, operation j = Api.Rejected e /\ Api.isClientError e = false)
  /\ match Api.settled run with
     | Api.Returned v => (1 <= n)%nat /\ operation n = Api.Resolved v
     | Api.Thrown (Some e) =>
         (1 <= n)%nat /\ operation n = Api.Rejected e
         /\ (Api.isClientError e = true \/ Z.of_nat n = (maxRetries + 1)%Z)
     | Api.Thrown None => n = 0%nat /\ (maxRetries + 1 <= 0)%Z
     end.
Proof.
  cbv zeta. unfold Api.withRetry.
  destruct (Z_le_gt_dec (maxRetries + 1) 0) as [Never|Positive].
  - replace (Z.to_nat (maxRetries + 1)) with 0%nat by lia.
    cbn [Api.attempts Api.calls Api.waits Api.settled pred backoff Nat.sub].
    repeat split; try lia.
  - pose proof (attempts_spec operation maxRetries (Z.to_nat (maxRetries + 1)) 1 delay None []
                  ltac:(lia) ltac:(lia)) as Spec.
    cbv zeta in Spec. destruct Spec as (Range & Progress & Waits & Earlier & Settled).
    set (run := Api.attempts _ _ _ _ _ _ _) in *.
    specialize (Progress ltac:(lia)).
    split; [lia|]. split.
    { rewrite Waits. cbn [app]. f_equal. f_equal. lia. }
    split; [exact Earlier|].
    destruct (Api.settled run) as [v|thrown]; [exact Settled|].
    destruct Settled as [[Exhausted _]|(e & -> & Later & Failed & Why)]; [lia|].
    by repeat split.
Qed.

Lemma withRetry_backs_off_and_stops_witness :
  let run := Api.withRetry Sample.flaky 2 1000 in
  Api.settled run = Api.Returned "done"
  /\ Api.calls run = 3%nat
  /\ Api.waits run = backoff 1000 2.
Proof.
  cbv zeta. split; [reflexivity|]. split; [reflexivity|].
  pose proof (withRetry_backs_off_and_stops Sample.flaky 2 1000) as Fact.
  cbv zeta in Fact. destruct Fact as (_ & Waits & _). exact Waits.
Defined.

(** ** The follow-up messages of the WhatsApp route *)

Section LeadMessage.

Context `{PremiumCalculationService}.
Variable toLocaleString : Q -> string.

Lemma followUp_quote_is_due (userMessage : string)
    (conversationHistory : list ConversationMessage) :
  is_Some (premiumQuote (handlePremiumFollowUp toLocaleString userMessage conversationHistory)) ->
  WhatsApp.leadCaptureDue (handlePremiumFollowUp toLocaleString userMessage conversationHistory)
  = true.
Proof.
  unfold handlePremiumFollowUp, thirdPartyQuoteResponse. cbv zeta.
  intros [quote Quoted]. revert Quoted.
  repeat case_match; simplify_eq; cbn [premiumQuote reply withQuote withLead];
    first [ discriminate | intros _; reflexivity ].
Qed.

Lemma calculation_quote_is_due (userMessage : string)
    (conversationHistory : list ConversationMessage) :
  is_Some (premiumQuote (handlePremiumCalculation toLocaleString userMessage conversationHistory)) ->
  WhatsApp.leadCaptureDue (handlePremiumCalculation toLocaleString userMessage conversationHistory)
  = true.
Proof.
  unfold handlePremiumCalculation.
  destruct (isFollowUpToPremiumCalculation userMessage conversationHistory);
    [apply followUp_quote_is_due|].
  cbv zeta. intros [quote Quoted]. revert Quoted.
  repeat case_match; simplify_eq; cbn [premiumQuote reply withQuote];
    first [ discriminate | intros _; reflexivity ].
Qed.

End LeadMessage.

Lemma enhanced_score_above_7 (a : AIAnalysis) (enhancedResponse : EnhancedRAGResponse) :
  Js.gtb (calculateLeadScore a enhancedResponse) 7 = true
  <-> leadReadiness a = "hot"
      /\ Js.gtb (er_customerMatch enhancedResponse) (8 # 10) = true
      /\ Js.gtb (er_relevanceScore enhancedResponse) (8 # 10) = true
      /\ urgency a = "high".
Proof.
  unfold calculateLeadScore. cbv zeta.
  rewrite <- !String.eqb_eq.
  destruct (String.eqb (leadReadiness a) "hot"), (String.eqb (leadReadiness a) "warm"),
    (Js.gtb (er_customerMatch enhancedResponse) (8 # 10)),
    (Js.gtb (er_relevanceScore enhancedResponse) (8 # 10)),
    (String.eqb (urgency a) "high"); vm_compute; intuition congruence.
Qed.

(** The WhatsApp route schedules its lead capture message when the
    response asks to capture the lead and its score exceeds 7. Every
    response of [processMessage] that carries a quote passes the test, its
    score being 9 or 8.5. A response of the enhanced path passes it only
    with the highest score the rules can give, 8: a hot lead of high
    urgency whose customer match and relevance both exceed 0.8, and then
    only if the lead scorer agrees. *)
Theorem lead_message_follows_every_quote `{PremiumCalculationService}
    (toLocaleString : Q -> string) (env : Collaborators)
    (store : gmap string (list ConversationMessage)) (userId userMessage : string) (now : Z) :
  let response := snd (processMessage toLocaleString env store userId userMessage now) in
  (is_Some (premiumQuote response) -> WhatsApp.leadCaptureDue response = true)
  /\ forall before after (answer : AIResponse),
       processWithEnhancedRAG env before userId userMessage now = (after, Some answer) ->
       WhatsApp.leadCaptureDue answer = true
       <-> LeadScorer.shouldCapture
             (LeadScorer.shouldCaptureLead (Memory.getConversationHistory after userId)
                (leadReply env)) = true
           /\ leadReadiness (analysis env) = "hot"
           /\ urgency (analysis env) = "high"
           /\ exists enhancedResponse,
                enhancedRAG env = Some enhancedResponse
                /\ Js.gtb (er_customerMatch enhancedResponse) (8 # 10) = true
                /\ Js.gtb (er_relevanceScore enhancedResponse) (8 # 10) = true.
Proof.
  cbv zeta. split.
  - intros Quoted.
    destruct (processMessage_response_cases toLocaleString env store userId userMessage now)
      as [[seen Premium]|[NoQuote _]].
    + rewrite Premium in *. by apply calculation_quote_is_due.
    + rewrite NoQuote in Quoted. by destruct Quoted.
  - intros before after answer. unfold processWithEnhancedRAG.
    destruct (enhancedRAG env) as [enhancedResponse|]; [|discriminate].
    cbv zeta. destruct (er_recommendations enhancedResponse) as [recs|]; [|discriminate].
    intros [= <- <-]. unfold WhatsApp.leadCaptureDue.
    cbn [shouldCaptureLead leadScore default Js.truthyNum].
    pose proof (enhanced_score_above_7 (analysis env) enhancedResponse) as Above.
    destruct (LeadScorer.shouldCapture _); cbn [andb].
    + destruct (Js.gtb (calculateLeadScore (analysis env) enhancedResponse) 7) eqn:High.
      * destruct (proj1 Above eq_refl) as (Hot & Match & Relevant & Urgent).
        rewrite andb_true_r. split.
        -- intros _. repeat split; try assumption. by exists enhancedResponse.
        -- intros _. apply negb_true_iff. 
           destruct (Qeq_bool _ 0) eqn:Zero; [|reflexivity].
           apply Qeq_bool_eq in Zero. unfold Js.gtb, Js.ltb in High.
           apply negb_true_iff in High. 
           assert (Qle_bool (calculateLeadScore (analysis env) enhancedResponse) 7 = true) as Le
             by (apply Qle_bool_iff; rewrite Zero; discriminate).
           congruence.
      * rewrite andb_false_r. split; [discriminate|].
        intros (_ & Hot & Urgent & response & [= <-] & Match & Relevant).
        apply (proj2 Above). by repeat split.
    + split; [discriminate|]. by intros [? _].
Qed.
